(** * gotel: a facade over tracing, metrics and structured logging

    A shallow embedding of the packages [attribute], [tracing], [metrics],
    [log] and [otel] of the repository, and the properties of its
    specification proved (or refuted) on that embedding.

    Conventions of the embedding.
    - A Go [string] is a Rocq [string] (a byte string).
    - [int] and [int64] values are integers of [Z]; a [float64] is carried by
      its IEEE-754 bit pattern, the way [attribute.Value] itself stores it.
    - A Go [error] is its message text; [option error] is an [error] that
      may be [nil].
    - A nil pointer or nil interface is [None].
    - Package-level variables, the objects reachable through pointers and
      everything the program hands to the SDK live in one [World]; a
      function with side effects is a function from worlds to an [Outcome]
      and a new world.
    - The libraries the facade calls are not part of the repository.  The
      behaviour of the tracing SDK and of its propagator, on which the
      facade's spans rest, is modelled in [sdktrace] and [propagation]; that
      of the Go standard library ([log/slog], [strconv], [strings]) in
      [slog]; handlers and meters with the packages that use them.  What the
      program cannot decide itself (the environment, the success of an
      exporter, of an instrument, of a shutdown) is read from an [Env]. *)

From Stdlib Require Import ZArith NArith Ascii String Lia.
From Stdlib.Strings Require Import Byte.
From stdpp Require Import base option list strings gmap vector.

Local Open Scope Z_scope.

(** ** Go values, as far as the type switches of the program look at them *)

Definition float64 := Z.
Definition error := string.

(** A call returns a value, returns a Go error, or panics. *)
Inductive Outcome (A : Type) :=
| Ok (a : A)
| Err (e : error)
| Panic (msg : string).
Arguments Ok {A} a.
Arguments Err {A} e.
Arguments Panic {A} msg.

Definition nil_dereference : string :=
  "runtime error: invalid memory address or nil pointer dereference".

(** What a call of the [String] method of a value does: it returns a
    string, or it panics, as the method of a nil pointer does when it reads
    through its receiver (a nil [*url.URL], say). *)
Inductive StringCall :=
| Returns (s : string)
| Panics (msg : string).

(** The dynamic value held by an [any].  [VOther T stringer formatted] is a
    value of any other dynamic type [T]: [stringer] is what a call of its
    [String] method does when [T] implements [fmt.Stringer], and
    [formatted] is what [fmt.Sprintf] prints for it under the verb v. *)
Inductive GoValue :=
| VNil
| VBool (v : bool)
| VBoolSlice (v : list bool)
| VFloat64 (v : float64)
| VFloat64Slice (v : list float64)
| VInt (v : Z)
| VIntSlice (v : list Z)
| VInt64 (v : Z)
| VInt64Slice (v : list Z)
| VString (v : string)
| VStringSlice (v : list string)
| VOther (T : string) (stringer : option StringCall) (formatted : string).

(** ** Package attribute *)

Module attribute.

(** The value kinds of the SDK's [attribute.Value]. *)
Inductive Type_ :=
| INVALID | BOOL | INT64 | FLOAT64 | STRING
| BOOLSLICE | INT64SLICE | FLOAT64SLICE | STRINGSLICE.

Inductive Value :=
| InvalidValue
| BoolValue (v : bool)
| Int64Value (v : Z)
| Float64Value (v : float64)
| StringValue (v : string)
| BoolSliceValue (v : list bool)
| Int64SliceValue (v : list Z)
| Float64SliceValue (v : list float64)
| StringSliceValue (v : list string).

Definition Type_of (v : Value) : Type_ :=
  match v with
  | InvalidValue => INVALID
  | BoolValue _ => BOOL
  | Int64Value _ => INT64
  | Float64Value _ => FLOAT64
  | StringValue _ => STRING
  | BoolSliceValue _ => BOOLSLICE
  | Int64SliceValue _ => INT64SLICE
  | Float64SliceValue _ => FLOAT64SLICE
  | StringSliceValue _ => STRINGSLICE
  end.

(** [Value.AsInterface]: the Go value a stored value reads back as. *)
Definition AsInterface (v : Value) : GoValue :=
  match v with
  | InvalidValue => VOther "attribute.unknownValueType" None "{}"
  | BoolValue b => VBool b
  | Int64Value n => VInt64 n
  | Float64Value f => VFloat64 f
  | StringValue s => VString s
  | BoolSliceValue l => VBoolSlice l
  | Int64SliceValue l => VInt64Slice l
  | Float64SliceValue l => VFloat64Slice l
  | StringSliceValue l => VStringSlice l
  end.

Record KeyValue := mkKeyValue { Key : string; Value_ : Value }.

(** The SDK's constructors.  [Int] and [IntSlice] convert to int64. *)
Definition Bool (k : string) (v : bool) := mkKeyValue k (BoolValue v).
Definition BoolSlice (k : string) (v : list bool) := mkKeyValue k (BoolSliceValue v).
Definition Float64 (k : string) (v : float64) := mkKeyValue k (Float64Value v).
Definition Float64Slice (k : string) (v : list float64) := mkKeyValue k (Float64SliceValue v).
Definition Int64 (k : string) (v : Z) := mkKeyValue k (Int64Value v).
Definition Int64Slice (k : string) (v : list Z) := mkKeyValue k (Int64SliceValue v).
Definition int64_of_int (v : Z) : Z := v.
Definition Int (k : string) (v : Z) := Int64 k (int64_of_int v).
Definition IntSlice (k : string) (v : list Z) := Int64Slice k (map int64_of_int v).
Definition String_ (k : string) (v : string) := mkKeyValue k (StringValue v).
Definition StringSlice (k : string) (v : list string) := mkKeyValue k (StringSliceValue v).

(** [type Attr struct { attribute.KeyValue }] *)
Record Attr := mkAttr { KeyValue_ : KeyValue }.

Definition new {T : Type} (key : string) (value : T)
    (convert : string -> T -> KeyValue) : Attr :=
  mkAttr (convert key value).

(** [KeyValue.Valid] of the SDK: the key is not empty and the value has a
    kind.  The SDK drops the attributes that are not valid. *)
Definition Valid (kv : KeyValue) : bool :=
  negb (String.eqb (Key kv) "") &&
  match Type_of (Value_ kv) with INVALID => false | _ => true end.

(** [New]: the type switch on the dynamic type of [value], case by case in
    the order of the source.  The case of [fmt.Stringer] calls the method
    [String] of the value, and panics when that call does; [fmt.Sprintf]
    in the default case recovers from the panics of the methods it calls. *)
Definition New (key : string) (value : GoValue) : Outcome Attr :=
  match value with
  | VBool v => Ok (new key v Bool)
  | VBoolSlice v => Ok (new key v BoolSlice)
  | VFloat64 v => Ok (new key v Float64)
  | VFloat64Slice v => Ok (new key v Float64Slice)
  | VInt v => Ok (new key v Int)
  | VIntSlice v => Ok (new key v IntSlice)
  | VInt64 v => Ok (new key v Int64)
  | VInt64Slice v => Ok (new key v Int64Slice)
  | VString v => Ok (new key v String_)
  | VStringSlice v => Ok (new key v StringSlice)
  | VOther _ (Some (Returns s)) _ => Ok (new key s String_)
  | VOther _ (Some (Panics msg)) _ => Panic msg
  | VOther _ None formatted => Ok (mkAttr (String_ key formatted))
  | VNil => Ok (mkAttr (String_ key "<nil>"))
  end.

(** The semantic-convention keys of the resource attributes. *)
Definition DeploymentEnvironmentNameKey : string := "deployment.environment.name".
Definition HostNameKey : string := "host.name".
Definition ProcessExecutableNameKey : string := "process.executable.name".
Definition ServiceNameKey : string := "service.name".
Definition ServiceVersionKey : string := "service.version".

Definition ResourceAttributes (serviceName serviceVersion environment hostname : string)
    : list Attr :=
  [ mkAttr (String_ DeploymentEnvironmentNameKey environment);
    mkAttr (String_ HostNameKey hostname);
    mkAttr (String_ ProcessExecutableNameKey serviceName);
    mkAttr (String_ ServiceNameKey serviceName);
    mkAttr (String_ ServiceVersionKey serviceVersion) ].

Definition ToKeyValues (attrs : list Attr) : list KeyValue :=
  map KeyValue_ attrs.

(** The specification's reading of [New], to compare with the source: the
    cases of the dispatch, the test each one makes on the dynamic kind of
    the value, the precedence among them, and the value each one stores.
    The first case of the precedence whose test succeeds takes the value;
    when none does, the value is formatted.  The case of the stringer
    stores what the string conversion of the value returns, and has nothing
    to store when that conversion panics. *)
Inductive Case :=
| CaseBool | CaseBoolSlice | CaseFloat64 | CaseFloat64Slice
| CaseInt | CaseIntSlice | CaseInt64 | CaseInt64Slice
| CaseString | CaseStringSlice | CaseStringer.

Definition precedence : list Case :=
  [ CaseBool; CaseBoolSlice; CaseFloat64; CaseFloat64Slice;
    CaseInt; CaseIntSlice; CaseInt64; CaseInt64Slice;
    CaseString; CaseStringSlice; CaseStringer ].

Definition case_stores (c : Case) (value : GoValue) : option (Outcome Value) :=
  match c, value with
  | CaseBool, VBool v => Some (Ok (BoolValue v))
  | CaseBoolSlice, VBoolSlice v => Some (Ok (BoolSliceValue v))
  | CaseFloat64, VFloat64 v => Some (Ok (Float64Value v))
  | CaseFloat64Slice, VFloat64Slice v => Some (Ok (Float64SliceValue v))
  | CaseInt, VInt v => Some (Ok (Int64Value v))
  | CaseIntSlice, VIntSlice v => Some (Ok (Int64SliceValue v))
  | CaseInt64, VInt64 v => Some (Ok (Int64Value v))
  | CaseInt64Slice, VInt64Slice v => Some (Ok (Int64SliceValue v))
  | CaseString, VString v => Some (Ok (StringValue v))
  | CaseStringSlice, VStringSlice v => Some (Ok (StringSliceValue v))
  | CaseStringer, VOther _ (Some (Returns s)) _ => Some (Ok (StringValue s))
  | CaseStringer, VOther _ (Some (Panics msg)) _ => Some (Panic msg)
  | _, _ => None
  end.

(** [fmt.Sprintf] under the verb v, for the values whose formatted text
    the embedding carries: the nil interface and the values of other types. *)
Definition Sprintf_v (value : GoValue) : option string :=
  match value with
  | VNil => Some "<nil>"
  | VOther _ _ formatted => Some formatted
  | _ => None
  end.

Fixpoint dispatch (cases : list Case) (value : GoValue) : option (Outcome Value) :=
  match cases with
  | [] => (fun formatted => Ok (StringValue formatted)) <$> Sprintf_v value
  | c :: rest =>
      match case_stores c value with
      | Some stored => Some stored
      | None => dispatch rest value
      end
  end.

(** What a value reads back as from the attribute made of it: a value of
    one of the ten supported kinds as itself (an [int] as the [int64] of
    the same number), a value of another kind as its string formatting, the
    result of its [String] method when it has one and the text
    [fmt.Sprintf] prints otherwise.  (No attribute is made of a value whose
    [String] method panics, and nothing reads back.) *)
Definition reads_back (value : GoValue) : GoValue :=
  match value with
  | VBool v => VBool v
  | VBoolSlice v => VBoolSlice v
  | VFloat64 v => VFloat64 v
  | VFloat64Slice v => VFloat64Slice v
  | VInt v => VInt64 v
  | VIntSlice v => VInt64Slice v
  | VInt64 v => VInt64 v
  | VInt64Slice v => VInt64Slice v
  | VString v => VString v
  | VStringSlice v => VStringSlice v
  | VOther _ (Some (Returns s)) _ => VString s
  | VOther _ _ formatted => VString formatted
  | VNil => VString "<nil>"
  end.

End attribute.

(** ** Hexadecimal text, as trace and span identifiers are printed *)

Module hex.

Definition digit (n : N) : ascii :=
  if (n <? 10)%N then ascii_of_N (48 + n) else ascii_of_N (87 + n).

(** Lower-case digits only: the header format has no upper-case ones. *)
Definition value (c : ascii) : option N :=
  let n := N_of_ascii c in
  if ((48 <=? n) && (n <=? 57))%N then Some (n - 48)%N
  else if ((97 <=? n) && (n <=? 102))%N then Some (n - 87)%N
  else None.

Definition encode_byte (b : byte) : string :=
  let n := Byte.to_N b in
  String (digit (n / 16)) (String (digit (n mod 16)) EmptyString).

Definition decode_byte (h l : ascii) : option byte :=
  match value h, value l with
  | Some hi, Some lo => Byte.of_N (16 * hi + lo)
  | _, _ => None
  end.

Fixpoint EncodeToString (bs : list byte) : string :=
  match bs with
  | [] => EmptyString
  | b :: rest => encode_byte b +:+ EncodeToString rest
  end.

(** Decoding into an array of [n] bytes: the text must be [2 * n] digits. *)
Fixpoint Decode (n : nat) (s : string) : option (vec byte n) :=
  match n return option (vec byte n) with
  | O => match s with EmptyString => Some [#] | _ => None end
  | S n' =>
      match s with
      | String h (String l s') =>
          match decode_byte h l, Decode n' s' with
          | Some b, Some v => Some (b ::: v)
          | _, _ => None
          end
      | _ => None
      end
  end.

End hex.

(** ** Trace contexts, spans and tracers *)

Definition TraceID := vec byte 16.
Definition SpanID := vec byte 8.

Definition is_zero {n : nat} (id : vec byte n) : bool :=
  forallb (Byte.eqb x00) (vec_to_list id).

Definition FlagsSampled : Z := 1.

Record SpanContext := mkSpanContext {
  sc_traceID : TraceID;
  sc_spanID : SpanID;
  sc_traceFlags : Z;
  sc_traceState : string;
  sc_remote : bool
}.

Definition emptySpanContext : SpanContext :=
  mkSpanContext (vreplicate 16 x00) (vreplicate 8 x00) 0 "" false.

Definition IsValid (sc : SpanContext) : bool :=
  negb (is_zero (sc_traceID sc)) && negb (is_zero (sc_spanID sc)).

Definition IsSampled (sc : SpanContext) : bool :=
  Z.land (sc_traceFlags sc) FlagsSampled =? FlagsSampled.

(** [codes.Code] is an unsigned integer; the facade's [StatusCode] is the
    same type under another name. *)
Definition StatusCode := Z.
Definition StatusUnset : StatusCode := 0.
Definition StatusError : StatusCode := 1.
Definition StatusOk : StatusCode := 2.

Record Status := mkStatus { Code : StatusCode; Description : string }.

Record Event := mkEvent {
  ev_name : string;
  ev_attrs : list attribute.KeyValue
}.

(** Where a tracer provider sends the spans that end. *)
Inductive SpanExporter :=
| otlptracegrpc (insecure : bool)
| otlptracehttp (insecure : bool)
| InMemoryExporter (id : nat).

Inductive TracerProviderOption :=
| WithSyncer (e : SpanExporter)
| WithBatcher (e : SpanExporter)
| WithResource (attrs : list attribute.KeyValue).

(** A tracer provider: an object of the world, named by [tp_id], and the
    options it was made with. *)
Record TracerProvider := mkTracerProvider {
  tp_id : nat;
  tp_options : list TracerProviderOption
}.

(** The exporter of a processor that exports a span synchronously, when
    the span ends.  A batch processor queues the span instead and exports
    it later, from its own goroutine or when the provider shuts down; what
    it exports, and when, is not followed. *)
Definition syncer_of (o : TracerProviderOption) : option SpanExporter :=
  match o with
  | WithSyncer e => Some e
  | WithBatcher _ | WithResource _ => None
  end.

(** The state of a recording span of the SDK. *)
Record SpanData := mkSpanData {
  sd_name : string;
  sd_context : SpanContext;
  sd_parent : SpanContext;
  sd_attributes : list attribute.KeyValue;
  sd_events : list Event;
  sd_status : Status;
  sd_ended : bool;
  sd_provider : TracerProvider
}.

(** The implementations of [trace.Span] the program meets: a recording span
    of the SDK (an object of the world, named by a handle), a span of the
    SDK that records nothing, and the no-op span. *)
Inductive TraceSpan :=
| recordingSpan (handle : nat) (sc : SpanContext)
| nonRecordingSpan (sc : SpanContext)
| noopSpan (sc : SpanContext).

Definition SpanContext_of (s : TraceSpan) : SpanContext :=
  match s with
  | recordingSpan _ sc | nonRecordingSpan sc | noopSpan sc => sc
  end.

(** [type Span struct { traceSpan trace.Span }] *)
Record Span := mkSpan { traceSpan : option TraceSpan }.

(** A [context.Context], as far as the program reads it: the active span. *)
Record Context := mkContext { ctx_span : option TraceSpan }.

Definition Background : Context := mkContext None.

Definition SpanContextFromContext (ctx : Context) : SpanContext :=
  match ctx_span ctx with
  | Some s => SpanContext_of s
  | None => emptySpanContext
  end.

Definition ContextWithSpan (ctx : Context) (s : TraceSpan) : Context :=
  mkContext (Some s).

Definition ContextWithRemoteSpanContext (ctx : Context) (sc : SpanContext) : Context :=
  ContextWithSpan ctx (nonRecordingSpan sc).

Inductive Tracer :=
| noopTracer
| sdkTracer (name : string) (provider : TracerProvider).

(** ** Instruments and the metrics struct *)

Inductive Kind :=
| KInt64Counter | KFloat64Counter
| KInt64UpDownCounter | KFloat64UpDownCounter
| KInt64ObservableCounter | KFloat64ObservableCounter
| KInt64ObservableUpDownCounter | KFloat64ObservableUpDownCounter
| KInt64Gauge | KFloat64Gauge
| KInt64ObservableGauge | KFloat64ObservableGauge
| KInt64Histogram | KFloat64Histogram.

Inductive MetricOption :=
| WithReader (reader : nat)
| WithPeriodicReader (useHttp insecure : bool)
| WithMetricResource (attrs : list attribute.KeyValue).

Definition MeterProvider := list MetricOption.

Record Meter := mkMeter { meter_name : string; meter_provider : MeterProvider }.

(** An instrument of the SDK, as a meter hands it out. *)
Record Instrument := mkInstrument {
  inst_kind : Kind;
  inst_name : string;
  inst_meter : Meter
}.

Inductive Number :=
| Int64Number (v : Z)
| Float64Number (v : float64).

(** An attribute set: one value per key. *)
Definition AttributeSet := gmap string attribute.Value.

(** A measurement made on an instrument, or an observation reported to the
    observer of a callback. *)
Inductive Sink :=
| OnInstrument (i : Instrument)
| OnObserver (observer : nat).

Record DataPoint := mkDataPoint {
  dp_sink : Sink;
  dp_value : Number;
  dp_attributes : AttributeSet
}.

(** A callback is named, not run. *)
Record Registration := mkRegistration {
  reg_meter : Meter;
  reg_callback : nat;
  reg_instrument : Instrument
}.

(** The 14 wrapper structs have the same shape: the instrument, and for the
    observable kinds the meter; either may be nil in a wrapper that was not
    built by [initMetricFields]. *)
Record Wrapper := mkWrapper {
  instrument : option Instrument;
  meter : option Meter
}.

(** The declared type of a struct field, as the reflective walk sees it:
    a pointer to the wrapper of some kind, or anything else. *)
Inductive FieldValue :=
| WrapperPtr (k : Kind) (p : option Wrapper)
| OtherField.

Record Field := mkField {
  field_name : string;
  field_exported : bool;
  field_value : FieldValue
}.

(** What a pointer handed to [InitMetrics] points to: a struct, or a value
    that is not a struct. *)
Inductive Object :=
| StructObject (fields : list Field)
| OtherObject.

(** An interface value holding a pointer: [None] is the nil interface,
    [Some (T, None)] a nil pointer of type pointer-to-[T]. *)
Definition any := option (string * option nat).

(** ** Log records, handlers and the log functions *)

Module slog.

Definition Level := Z.
Definition LevelDebug : Level := -4.
Definition LevelInfo : Level := 0.
Definition LevelWarn : Level := 4.
Definition LevelError : Level := 8.

Inductive Value :=
| BoolValue (v : bool)
| Int64Value (v : Z)
| Float64Value (v : float64)
| StringValue (v : string)
| AnyValue_ (v : GoValue).

(** [slog.AnyValue] on the values [attribute.Value.AsInterface] returns. *)
Definition AnyValue (v : GoValue) : Value :=
  match v with
  | VBool b => BoolValue b
  | VInt n | VInt64 n => Int64Value n
  | VFloat64 f => Float64Value f
  | VString s => StringValue s
  | other => AnyValue_ other
  end.

Record Attr := mkAttr { Key : string; Value_ : Value }.

Definition Any (key : string) (value : GoValue) : Attr :=
  mkAttr key (AnyValue value).

Definition String_ (key value : string) : Attr :=
  mkAttr key (StringValue value).

(** A record, without its time and program counter. *)
Record Record_ := mkRecord {
  Level_ : Level;
  Message : string;
  Attrs : list Attr
}.

(** [strings.ToUpper], as far as a comparison of its result with a word
    of ASCII letters can tell: a small letter of ASCII becomes the capital
    letter, and so do the only two runes outside ASCII whose capital is a
    letter of ASCII, the dotless i (bytes C4 B1, capital I) and the long s
    (bytes C5 BF, capital S); every other byte is left as it is. *)
Definition upper (c : ascii) : ascii :=
  let n := N_of_ascii c in
  if ((97 <=? n) && (n <=? 122))%N then ascii_of_N (n - 32) else c.

Definition two_bytes (c1 c2 : ascii) (b1 b2 : N) : bool :=
  ((N_of_ascii c1 =? b1) && (N_of_ascii c2 =? b2))%N.

Fixpoint ToUpper (s : string) : string :=
  match s with
  | EmptyString => EmptyString
  | String c rest =>
      match rest with
      | String c' rest' =>
          if two_bytes c c' 196 177 then String "I" (ToUpper rest')
          else if two_bytes c c' 197 191 then String "S" (ToUpper rest')
          else String (upper c) (ToUpper rest)
      | EmptyString => String (upper c) EmptyString
      end
  end.

(** [i := strings.IndexAny(s, "+-")] with the slices [s[:i]] and [s[i:]];
    no second slice when there is no sign. *)
Fixpoint split_sign (s : string) : string * option string :=
  match s with
  | EmptyString => (EmptyString, None)
  | String c rest =>
      if Ascii.eqb c "+" || Ascii.eqb c "-" then (EmptyString, Some s)
      else let '(name, offset) := split_sign rest in (String c name, offset)
  end.

Fixpoint digits (acc : Z) (s : string) : option Z :=
  match s with
  | EmptyString => Some acc
  | String c rest =>
      let n := N_of_ascii c in
      if ((48 <=? n) && (n <=? 57))%N
      then digits (10 * acc + Z.of_N (n - 48)) rest
      else None
  end.

(** [strconv.Atoi], for an [int] of 64 bits: an optional sign, then at
    least one decimal digit, and a value an [int] can hold.  [magnitude]
    reads what follows the sign. *)
Definition magnitude (s : string) (negative : bool) (ds : string) : Outcome Z :=
  let syntax := Err ("strconv.Atoi: parsing " +:+ s +:+ ": invalid syntax") in
  let range := Err ("strconv.Atoi: parsing " +:+ s +:+ ": value out of range") in
  match ds with
  | EmptyString => syntax
  | _ =>
      match digits 0 ds with
      | None => syntax
      | Some n =>
          let n := if negative then - n else n in
          if (- 2 ^ 63 <=? n) && (n <=? 2 ^ 63 - 1) then Ok n else range
      end
  end.

Definition Atoi (s : string) : Outcome Z :=
  match s with
  | String c ds =>
      if Ascii.eqb c "+" then magnitude s false ds
      else if Ascii.eqb c "-" then magnitude s true ds
      else magnitude s false s
  | EmptyString => Err ("strconv.Atoi: parsing " +:+ s +:+ ": invalid syntax")
  end.

(** Addition of two [int], which wraps around. *)
Definition add_int (a b : Z) : Z := (a + b + 2 ^ 63) mod 2 ^ 64 - 2 ^ 63.

(** [Level.parse], behind [Level.UnmarshalText]: a level name, in any
    case, with an optional signed offset.  The error wraps the cause (the
    quoting of the string in the message is left out). *)
Definition parse (s : string) : Outcome Level :=
  let fail cause := Err ("slog: level string " +:+ s +:+ ": " +:+ cause) in
  let '(name, offset) := split_sign s in
  let by_name (offset : Z) : Outcome Level :=
    let NAME := ToUpper name in
    if String.eqb NAME "DEBUG" then Ok (add_int LevelDebug offset)
    else if String.eqb NAME "INFO" then Ok (add_int LevelInfo offset)
    else if String.eqb NAME "WARN" then Ok (add_int LevelWarn offset)
    else if String.eqb NAME "ERROR" then Ok (add_int LevelError offset)
    else fail "unknown name" in
  match offset with
  | None => by_name 0
  | Some text =>
      match Atoi text with
      | Ok offset => by_name offset
      | Err cause => fail cause
      | Panic msg => Panic msg
      end
  end.

Definition UnmarshalText (data : string) : Outcome Level := parse data.

End slog.

Record LoggerProvider := mkLoggerProvider {
  lp_http : bool;
  lp_insecure : bool;
  lp_resource : list attribute.KeyValue
}.

(** The handlers the program builds or is given: the JSON handler of
    [NewJSONHandler] on a writer, and the bridge to a logger provider. *)
Inductive Handler :=
| JSONHandler (w : nat) (level : slog.Level) (attrs : list slog.Attr)
| otelslogHandler (provider : LoggerProvider).

(** [slog.New(slogmulti.Fanout(handlers...))] *)
Record Logger := mkLogger { handlers : list Handler }.

(** The values of the package-level function variables: the functions they
    start with, and the closures [InitLogger] stores in them. *)
Inductive logWithContext :=
| noopLogWithContext
| writeLogAt (slogger : Logger) (level : slog.Level).

Inductive logError :=
| noopLogError
| writeErrorLog (slogger : Logger).

(** ** The world *)

Inductive Pillar := Tracing | Metering | Logging.

(** What the program reads from outside and cannot decide itself. *)
Record Env := mkEnv {
  Getenv : string -> string;
  (** the error, if any, of building the OTLP exporter of a pillar, by
      protocol (http or not) and transport security (off or not) *)
  NewExporter : Pillar -> bool -> bool -> option error;
  (** the error, if any, a meter returns with an instrument *)
  NewInstrument : Kind -> string -> option error;
  (** the error, if any, of shutting the provider of a pillar down *)
  Shutdown : Pillar -> option error;
  (** [debug.Stack()] *)
  Stack : string;
  (** the identifiers the SDK draws, by draw *)
  NewIDs : nat -> TraceID * SpanID;
  (** the name of the dynamic type of an error, as the SDK prints it *)
  ErrorType : error -> string
}.

Record World := mkWorld {
  env : Env;
  (* package-level variables *)
  tracer : Tracer;
  metricsInstance : any;
  Debug_ : logWithContext;
  Info_ : logWithContext;
  Warn_ : logWithContext;
  Error_ : logError;
  (* objects *)
  heap : gmap nat Object;
  spans : gmap nat SpanData;
  next_span : nat;
  draws : nat;
  (* what was handed to the SDK and to writers, latest last *)
  exported : list (SpanExporter * SpanData);
  datapoints : list DataPoint;
  registrations : list Registration;
  written : list (nat * slog.Record_);
  emitted : list (LoggerProvider * slog.Record_);
  shutdowns : list Pillar;
  (* the tracer providers made so far, by [tp_id]: whether each one has been
     shut down *)
  isShutdown : list bool
}.

(** The world at program start: the variables hold their initialisers. *)
Definition start (e : Env) (h : gmap nat Object) : World :=
  mkWorld e noopTracer None
    noopLogWithContext noopLogWithContext noopLogWithContext noopLogError
    h ∅ 0 0 [] [] [] [] [] [] [].

(** Assignments to one component of the world. *)
Definition set_tracer x (w : World) : World :=
  mkWorld (env w) x (metricsInstance w) (Debug_ w) (Info_ w) (Warn_ w)
    (Error_ w) (heap w) (spans w) (next_span w) (draws w) (exported w)
    (datapoints w) (registrations w) (written w) (emitted w) (shutdowns w)
    (isShutdown w).
Definition set_metricsInstance x (w : World) : World :=
  mkWorld (env w) (tracer w) x (Debug_ w) (Info_ w) (Warn_ w) (Error_ w)
    (heap w) (spans w) (next_span w) (draws w) (exported w) (datapoints w)
    (registrations w) (written w) (emitted w) (shutdowns w)
    (isShutdown w).
Definition set_heap x (w : World) : World :=
  mkWorld (env w) (tracer w) (metricsInstance w) (Debug_ w) (Info_ w)
    (Warn_ w) (Error_ w) x (spans w) (next_span w) (draws w) (exported w)
    (datapoints w) (registrations w) (written w) (emitted w) (shutdowns w)
    (isShutdown w).
Definition set_spans x (w : World) : World :=
  mkWorld (env w) (tracer w) (metricsInstance w) (Debug_ w) (Info_ w)
    (Warn_ w) (Error_ w) (heap w) x (next_span w) (draws w) (exported w)
    (datapoints w) (registrations w) (written w) (emitted w) (shutdowns w)
    (isShutdown w).
Definition set_next_span x (w : World) : World :=
  mkWorld (env w) (tracer w) (metricsInstance w) (Debug_ w) (Info_ w)
    (Warn_ w) (Error_ w) (heap w) (spans w) x (draws w) (exported w)
    (datapoints w) (registrations w) (written w) (emitted w) (shutdowns w)
    (isShutdown w).
Definition set_draws x (w : World) : World :=
  mkWorld (env w) (tracer w) (metricsInstance w) (Debug_ w) (Info_ w)
    (Warn_ w) (Error_ w) (heap w) (spans w) (next_span w) x (exported w)
    (datapoints w) (registrations w) (written w) (emitted w) (shutdowns w)
    (isShutdown w).
Definition set_exported x (w : World) : World :=
  mkWorld (env w) (tracer w) (metricsInstance w) (Debug_ w) (Info_ w)
    (Warn_ w) (Error_ w) (heap w) (spans w) (next_span w) (draws w) x
    (datapoints w) (registrations w) (written w) (emitted w) (shutdowns w)
    (isShutdown w).
Definition set_datapoints x (w : World) : World :=
  mkWorld (env w) (tracer w) (metricsInstance w) (Debug_ w) (Info_ w)
    (Warn_ w) (Error_ w) (heap w) (spans w) (next_span w) (draws w)
    (exported w) x (registrations w) (written w) (emitted w) (shutdowns w)
    (isShutdown w).
Definition set_registrations x (w : World) : World :=
  mkWorld (env w) (tracer w) (metricsInstance w) (Debug_ w) (Info_ w)
    (Warn_ w) (Error_ w) (heap w) (spans w) (next_span w) (draws w)
    (exported w) (datapoints w) x (written w) (emitted w) (shutdowns w)
    (isShutdown w).
Definition set_written x (w : World) : World :=
  mkWorld (env w) (tracer w) (metricsInstance w) (Debug_ w) (Info_ w)
    (Warn_ w) (Error_ w) (heap w) (spans w) (next_span w) (draws w)
    (exported w) (datapoints w) (registrations w) x (emitted w) (shutdowns w)
    (isShutdown w).
Definition set_emitted x (w : World) : World :=
  mkWorld (env w) (tracer w) (metricsInstance w) (Debug_ w) (Info_ w)
    (Warn_ w) (Error_ w) (heap w) (spans w) (next_span w) (draws w)
    (exported w) (datapoints w) (registrations w) (written w) x (shutdowns w)
    (isShutdown w).
Definition set_shutdowns x (w : World) : World :=
  mkWorld (env w) (tracer w) (metricsInstance w) (Debug_ w) (Info_ w)
    (Warn_ w) (Error_ w) (heap w) (spans w) (next_span w) (draws w)
    (exported w) (datapoints w) (registrations w) (written w) (emitted w) x
    (isShutdown w).
Definition set_log_functions (d i wn : logWithContext) (e : logError) (w : World) : World :=
  mkWorld (env w) (tracer w) (metricsInstance w) d i wn e (heap w) (spans w)
    (next_span w) (draws w) (exported w) (datapoints w) (registrations w)
    (written w) (emitted w) (shutdowns w)
    (isShutdown w).

Definition set_isShutdown x (w : World) : World :=
  mkWorld (env w) (tracer w) (metricsInstance w) (Debug_ w) (Info_ w)
    (Warn_ w) (Error_ w) (heap w) (spans w) (next_span w) (draws w)
    (exported w) (datapoints w) (registrations w) (written w) (emitted w)
    (shutdowns w) x.

Definition M (A : Type) : Type := World -> Outcome A * World.

(** A teardown function: [func(context.Context) error]. *)
Definition Teardown : Type := World -> option error * World.

(** [provider.Shutdown] of the provider of a pillar. *)
Definition ProviderShutdown (p : Pillar) : Teardown :=
  fun w => (Shutdown (env w) p, set_shutdowns (shutdowns w ++ [p]) w).

(** [provider.Shutdown] of a tracer provider: the first call shuts its
    processors down and unregisters them; a later call finds the provider
    shut down and returns nil. *)
Definition TracerProvider_Shutdown (p : TracerProvider) : Teardown :=
  fun w =>
    let w' := set_shutdowns (shutdowns w ++ [Tracing]) w in
    match isShutdown w !! tp_id p with
    | Some false =>
        (Shutdown (env w) Tracing,
         set_isShutdown (<[tp_id p := true]> (isShutdown w)) w')
    | _ => (None, w')
    end.

Definition OTEL_EXPORTER_OTLP_ENDPOINT : string := "OTEL_EXPORTER_OTLP_ENDPOINT".
Definition OTEL_EXPORTER_OTLP_INSECURE : string := "OTEL_EXPORTER_OTLP_INSECURE".
Definition OTEL_EXPORTER_OTLP_PROTOCOL : string := "OTEL_EXPORTER_OTLP_PROTOCOL".

(** ** The tracing SDK *)

Module sdktrace.

Definition with_events (ev : list Event) (d : SpanData) : SpanData :=
  mkSpanData (sd_name d) (sd_context d) (sd_parent d) (sd_attributes d) ev
    (sd_status d) (sd_ended d) (sd_provider d).
Definition with_attributes (a : list attribute.KeyValue) (d : SpanData) : SpanData :=
  mkSpanData (sd_name d) (sd_context d) (sd_parent d) a (sd_events d)
    (sd_status d) (sd_ended d) (sd_provider d).
Definition with_status (s : Status) (d : SpanData) : SpanData :=
  mkSpanData (sd_name d) (sd_context d) (sd_parent d) (sd_attributes d) (sd_events d)
    s (sd_ended d) (sd_provider d).
Definition with_ended (d : SpanData) : SpanData :=
  mkSpanData (sd_name d) (sd_context d) (sd_parent d) (sd_attributes d) (sd_events d)
    (sd_status d) true (sd_provider d).

(** Modelled from the spec: the span objects of the tracing SDK, which the
    facade wraps and which are not part of the repository.  A span that
    has ended, a span that records nothing and a no-op span ignore every
    operation. *)
Definition update (s : TraceSpan) (f : SpanData -> SpanData) (w : World) : World :=
  match s with
  | recordingSpan h _ =>
      match spans w !! h with
      | Some d => if sd_ended d then w else set_spans (<[h := f d]> (spans w)) w
      | None => w
      end
  | nonRecordingSpan _ | noopSpan _ => w
  end.

(** Modelled from the spec: [AddEvent] of the SDK's span, "timestamps an
    event on the span; side effect only".  (The SDK bounds the number of
    events a span keeps, by 128 unless it is configured otherwise, and
    drops the oldest beyond it; the bound is not followed.) *)
Definition AddEvent (s : TraceSpan) (name : string) (attrs : list attribute.KeyValue)
    (w : World) : World :=
  update s (fun d => with_events (sd_events d ++ [mkEvent name attrs]) d) w.

(** Modelled from the spec: [SetStatus] of the SDK's span.  The
    description is kept for the Error code only ("description is
    ignored/discarded when code = Ok", which the repository's test of
    [SetStatus] expects too), and a status is not replaced by one of a lower
    code, Unset < Error < Ok. *)
Definition SetStatus (s : TraceSpan) (code : StatusCode) (description : string)
    (w : World) : World :=
  update s (fun d =>
    if Code (sd_status d) >? code then d
    else with_status
           (mkStatus code (if code =? StatusError then description else "")) d) w.

(** The attributes a span holds, one for a key: a new attribute takes the
    place of the one the span holds for its key, and comes last when the
    span holds none. *)
Fixpoint set_attribute (kv : attribute.KeyValue) (held : list attribute.KeyValue)
    : list attribute.KeyValue :=
  match held with
  | [] => [kv]
  | h :: rest =>
      if String.eqb (attribute.Key h) (attribute.Key kv) then kv :: rest
      else h :: set_attribute kv rest
  end.

(** Modelled from the spec: the attributes of a span after more are set,
    "merges attributes into the span's attribute set; last-write-wins on
    duplicate keys".  The SDK drops an attribute that is not valid.  (It
    also bounds the number of attributes of a span, by 128 unless it is
    configured otherwise; the bound is not followed.) *)
Definition merge_attributes (held attrs : list attribute.KeyValue)
    : list attribute.KeyValue :=
  foldl (fun held kv => if attribute.Valid kv then set_attribute kv held else held)
    held attrs.

(** Modelled from the spec: [SetAttributes] of the SDK's span. *)
Definition SetAttributes (s : TraceSpan) (attrs : list attribute.KeyValue)
    (w : World) : World :=
  update s (fun d => with_attributes (merge_attributes (sd_attributes d) attrs) d) w.

(** Modelled from the spec: [RecordError] of the SDK's span, "attaches an
    exception event; does not alter status"; a nil error is ignored.  The
    event carries the type of the error and its message. *)
Definition RecordError (s : TraceSpan) (err : option error) (w : World) : World :=
  match err with
  | None => w
  | Some e =>
      AddEvent s "exception"
        [attribute.String_ "exception.type" (ErrorType (env w) e);
         attribute.String_ "exception.message" e] w
  end.

(** The processors a provider has registered: those of its options, and
    none once it has been shut down. *)
Definition getSpanProcessors (p : TracerProvider) (w : World)
    : list TracerProviderOption :=
  match isShutdown w !! tp_id p with
  | Some false => tp_options p
  | _ => []
  end.

(** Modelled from the spec: [End] of the SDK's span, "finalizes the span,
    making it immutable and eligible for export": the ended span goes to
    the processors its provider has registered, of which those that export
    synchronously hand it to their exporter at once. *)
Definition End_ (s : TraceSpan) (w : World) : World :=
  match s with
  | recordingSpan h _ =>
      match spans w !! h with
      | Some d =>
          if sd_ended d then w
          else
            let d' := with_ended d in
            let w' := set_spans (<[h := d']> (spans w)) w in
            let sps := getSpanProcessors (sd_provider d) w' in
            set_exported
              (exported w' ++ omap (fun o => e ← syncer_of o; Some (e, d')) sps)
              w'
      | None => w
      end
  | nonRecordingSpan _ | noopSpan _ => w
  end.

(** Modelled from the spec: [Start] of a tracer, "starts a span as a child
    of whatever span is already active in ctx (or root if none)"; the
    repository's tests read the parent of a span from what is exported.  The
    no-op tracer returns a no-op span carrying the span context of [ctx].
    The SDK's tracer keeps the trace identifier of a parent that has one,
    draws the other identifiers, samples a root span always and a child
    as its parent was sampled (the SDK's default sampler), and records the
    span when it is sampled, with the attributes given as [SetAttributes]
    sets them. *)
Definition Start (t : Tracer) (ctx : Context) (name : string)
    (attrs : list attribute.KeyValue) (w : World) : (Context * TraceSpan) * World :=
  match t with
  | noopTracer =>
      let span := noopSpan (SpanContextFromContext ctx) in
      ((ContextWithSpan ctx span, span), w)
  | sdkTracer _ provider =>
      let psc := SpanContextFromContext ctx in
      let ids := NewIDs (env w) (draws w) in
      let tid := if is_zero (sc_traceID psc) then fst ids else sc_traceID psc in
      let sid := snd ids in
      let sampled := if IsValid psc then IsSampled psc else true in
      let flags :=
        if sampled then Z.lor (sc_traceFlags psc) FlagsSampled
        else Z.ldiff (sc_traceFlags psc) FlagsSampled in
      let sc := mkSpanContext tid sid flags (sc_traceState psc) false in
      let w1 := set_draws (S (draws w)) w in
      if sampled then
        let h := next_span w1 in
        let d := mkSpanData name sc psc (merge_attributes [] attrs) []
                   (mkStatus StatusUnset "") false provider in
        let span := recordingSpan h sc in
        ((ContextWithSpan ctx span, span),
         set_next_span (S h) (set_spans (<[h := d]> (spans w1)) w1))
      else
        let span := nonRecordingSpan sc in
        ((ContextWithSpan ctx span, span), w1)
  end.

End sdktrace.

(** ** The propagator of the W3C trace context *)

Module propagation.

Definition traceparentHeader : string := "traceparent".
Definition tracestateHeader : string := "tracestate".

(** [strings.Cut] at the first dash. *)
Fixpoint Cut (s : string) : string * string :=
  match s with
  | EmptyString => (EmptyString, EmptyString)
  | String c rest =>
      if Ascii.eqb c "-" then (EmptyString, rest)
      else let '(before, after) := Cut rest in (String c before, after)
  end.

(** One field of the header: [n] bytes in lower-case hexadecimal, up to
    the next dash. *)
Definition extractPart (n : nat) (h : string) : option (vec byte n) * string :=
  let '(part, rest) := Cut h in (hex.Decode n part, rest).

Definition byte_of_flags (sc : SpanContext) : byte :=
  if IsSampled sc then x01 else x00.

(** Modelled from the spec: the header "traceparent" of the W3C format,
    "<version>-<trace-id>-<span-id>-<flags>", version 00, of which the
    flags carry the sampling bit only. *)
Definition traceparent (sc : SpanContext) : string :=
  hex.EncodeToString [x00] +:+ "-" +:+
  hex.EncodeToString (vec_to_list (sc_traceID sc)) +:+ "-" +:+
  hex.EncodeToString (vec_to_list (sc_spanID sc)) +:+ "-" +:+
  hex.EncodeToString [byte_of_flags sc].

(** Modelled from the spec: [Inject] of the trace-context propagator,
    which "encodes the active trace context (trace id, span id, sampling
    flag)" into the carrier, and nothing when the context has no valid
    span context. *)
Definition Inject (ctx : Context) (carrier : gmap string string) : gmap string string :=
  let sc := SpanContextFromContext ctx in
  if IsValid sc then
    let carrier := <[traceparentHeader := traceparent sc]> carrier in
    if String.eqb (sc_traceState sc) "" then carrier
    else <[tracestateHeader := sc_traceState sc]> carrier
  else carrier.

Definition Get (carrier : gmap string string) (key : string) : string :=
  default "" (carrier !! key).

(** Modelled from the spec: the decoding of the header, field by field;
    version ff is refused, version 00 has nothing after the flags and no
    flag above the sampling bit's, and an all-zero identifier is refused. *)
Definition extract (carrier : gmap string string) : SpanContext :=
  let h := Get carrier traceparentHeader in
  if String.eqb h "" then emptySpanContext else
  match extractPart 1 h with
  | (Some ver, h) =>
      let version := Byte.to_N (ver !!! 0%fin) in
      if (254 <? version)%N then emptySpanContext else
      match extractPart 16 h with
      | (Some tid, h) =>
          match extractPart 8 h with
          | (Some sid, h) =>
              match extractPart 1 h with
              | (Some opts, h) =>
                  let flags := Z.of_N (Byte.to_N (opts !!! 0%fin)) in
                  if (version =? 0)%N && (negb (String.eqb h "") || (2 <? flags))
                  then emptySpanContext
                  else
                    let sc := mkSpanContext tid sid (Z.land flags FlagsSampled)
                                (Get carrier tracestateHeader) true in
                    if IsValid sc then sc else emptySpanContext
              | (None, _) => emptySpanContext
              end
          | (None, _) => emptySpanContext
          end
      | (None, _) => emptySpanContext
      end
  | (None, _) => emptySpanContext
  end.

(** Modelled from the spec: [Extract], which "reconstructs a parent trace
    context by decoding propagation headers into ctx"; a carrier without
    a valid header leaves the context as it is. *)
Definition Extract (ctx : Context) (carrier : gmap string string) : Context :=
  let sc := extract carrier in
  if IsValid sc then ContextWithRemoteSpanContext ctx sc else ctx.

End propagation.

(** ** Package tracing *)

(** The loop that copies [attr.KeyValue] of every attribute into a slice. *)
Definition otelAttrs_of (attrs : list attribute.Attr) : list attribute.KeyValue :=
  map attribute.KeyValue_ attrs.

(** A method called through a nil interface panics. *)
Definition on_traceSpan (s : Span) (f : TraceSpan -> World -> World) : M unit :=
  fun w =>
    match traceSpan s with
    | Some ts => (Ok tt, f ts w)
    | None => (Panic nil_dereference, w)
    end.

Definition AddEvent (s : Span) (name : string) (attrs : list attribute.Attr) : M unit :=
  let otelAttrs := otelAttrs_of attrs in
  on_traceSpan s (fun ts => sdktrace.AddEvent ts name otelAttrs).

Definition RecordError (s : Span) (err : option error) : M unit :=
  on_traceSpan s (fun ts => sdktrace.RecordError ts err).

Definition RecordErrorAndSetStatus (s : Span) (err : option error) : M unit :=
  fun w =>
    match RecordError s err w with
    | (Ok _, w1) =>
        match err with
        | Some e => on_traceSpan s (fun ts => sdktrace.SetStatus ts StatusError e) w1
        | None => (Panic nil_dereference, w1)
        end
    | failed => failed
    end.

Definition SetStatus (s : Span) (code : StatusCode) (description : string) : M unit :=
  on_traceSpan s (fun ts => sdktrace.SetStatus ts code description).

Definition SetOk (s : Span) : M unit :=
  on_traceSpan s (fun ts => sdktrace.SetStatus ts StatusOk "").

Definition SetAttributes (s : Span) (attrs : list attribute.Attr) : M unit :=
  let otelAttrs := otelAttrs_of attrs in
  on_traceSpan s (fun ts => sdktrace.SetAttributes ts otelAttrs).

Definition End_ (s : Span) : M unit :=
  on_traceSpan s sdktrace.End_.

Definition is_set (s : string) : bool := negb (String.eqb s "").

Definition InitTracing (ctx : Context) (serviceName : string)
    (resourceAttrs : list attribute.Attr) (options : list TracerProviderOption)
    : M Teardown :=
  fun w =>
    let finish options :=
      let options := options ++ [WithResource (attribute.ToKeyValues resourceAttrs)] in
      let provider := mkTracerProvider (length (isShutdown w)) options in
      (Ok (TracerProvider_Shutdown provider),
       set_tracer (sdkTracer serviceName provider)
         (set_isShutdown (isShutdown w ++ [false]) w)) in
    if is_set (Getenv (env w) OTEL_EXPORTER_OTLP_ENDPOINT) then
      let insecure := String.eqb (Getenv (env w) OTEL_EXPORTER_OTLP_INSECURE) "true" in
      let useHttp := String.eqb (Getenv (env w) OTEL_EXPORTER_OTLP_PROTOCOL) "http" in
      match NewExporter (env w) Tracing useHttp insecure with
      | Some err => (Err err, w)
      | None =>
          let exporter := if useHttp then otlptracehttp insecure
                          else otlptracegrpc insecure in
          finish (options ++ [WithBatcher exporter])
      end
    else finish options.

Definition TraceHeaders (ctx : Context) : gmap string string :=
  let metadata : gmap string string := ∅ in
  propagation.Inject ctx metadata.

Definition newSpan (ctx : Context) (name : string) (attrs : list attribute.Attr)
    (w : World) : (Context * Span) * World :=
  let otelAttrs := otelAttrs_of attrs in
  let '((ctx, traceSpan), w') := sdktrace.Start (tracer w) ctx name otelAttrs w in
  ((ctx, mkSpan (Some traceSpan)), w').

Definition NewSpan (ctx : Context) (name : string) (attrs : list attribute.Attr)
    (w : World) : (Context * Span) * World :=
  newSpan ctx name attrs w.

Definition NewChildSpan (ctx : Context) (carrier : gmap string string) (name : string)
    (attrs : list attribute.Attr) (w : World) : (Context * Span) * World :=
  let ctx := propagation.Extract ctx carrier in
  newSpan ctx name attrs w.

(** ** Package metrics *)

(** [Metrics[T]()]: the type assertion of the stored instance to
    pointer-to-[T]. *)
Definition Metrics (T : string) (w : World) : option nat :=
  match metricsInstance w with
  | None => None
  | Some (U, m) => if String.eqb U T then m else None
  end.

(** [attribute.NewSet]: one value per key, the last one given. *)
Definition NewSet (kvs : list attribute.KeyValue) : AttributeSet :=
  foldl (fun set kv => <[attribute.Key kv := attribute.Value_ kv]> set) ∅ kvs.

Definition newAttributeSet (attrs : list attribute.Attr) : AttributeSet :=
  let otelAttrs := map attribute.KeyValue_ attrs in
  NewSet otelAttrs.

(** A measurement on the instrument a wrapper holds; the method of a nil
    instrument panics. *)
Definition measure (i : option Instrument) (v : Number) (set : AttributeSet) : M unit :=
  fun w =>
    match i with
    | Some i => (Ok tt, set_datapoints (datapoints w ++ [mkDataPoint (OnInstrument i) v set]) w)
    | None => (Panic nil_dereference, w)
    end.

(** [observer.Observe] on the observer a callback was given. *)
Definition observe (observer : option nat) (v : Number) (set : AttributeSet) : M unit :=
  fun w =>
    match observer with
    | Some o => (Ok tt, set_datapoints (datapoints w ++ [mkDataPoint (OnObserver o) v set]) w)
    | None => (Panic nil_dereference, w)
    end.

(** [meter.RegisterCallback(callback, instrument)] *)
Definition Meter_RegisterCallback (m : option Meter) (callback : nat)
    (i : option Instrument) : M (option Registration) :=
  fun w =>
    match m with
    | None => (Panic nil_dereference, w)
    | Some m =>
        match i with
        | None => (Err "invalid observable: from different implementation", w)
        | Some i =>
            let r := mkRegistration m callback i in
            (Ok (Some r), set_registrations (registrations w ++ [r]) w)
        end
    end.

(** The body shared by the [Add] and [Record] methods of the eight
    synchronous wrappers: [if c != nil { ... }]. *)
Definition sync_method (c : option Wrapper) (v : Number) (attrs : list attribute.Attr)
    : M unit :=
  fun w =>
    match c with
    | Some c =>
        let attributeSet := newAttributeSet attrs in
        measure (instrument c) v attributeSet w
    | None => (Ok tt, w)
    end.

(** The body shared by the [Observe] methods of the six observable wrappers. *)
Definition observe_method (c : option Wrapper) (observer : option nat) (v : Number)
    (attrs : list attribute.Attr) : M unit :=
  fun w =>
    match c with
    | Some c =>
        let attributeSet := newAttributeSet attrs in
        observe observer v attributeSet w
    | None => (Ok tt, w)
    end.

(** The body shared by the [RegisterCallback] methods: [return nil, nil] on
    a nil receiver. *)
Definition register_method (c : option Wrapper) (callback : nat)
    : M (option Registration) :=
  fun w =>
    match c with
    | None => (Ok None, w)
    | Some c => Meter_RegisterCallback (meter c) callback (instrument c) w
    end.

Definition Int64Counter_Add (c : option Wrapper) (ctx : Context) (Value : Z)
    (attrs : list attribute.Attr) : M unit :=
  sync_method c (Int64Number Value) attrs.
Definition Float64Counter_Add (c : option Wrapper) (ctx : Context) (Value : float64)
    (attrs : list attribute.Attr) : M unit :=
  sync_method c (Float64Number Value) attrs.
Definition Int64UpDownCounter_Add (c : option Wrapper) (ctx : Context) (Value : Z)
    (attrs : list attribute.Attr) : M unit :=
  sync_method c (Int64Number Value) attrs.
Definition Float64UpDownCounter_Add (c : option Wrapper) (ctx : Context) (Value : float64)
    (attrs : list attribute.Attr) : M unit :=
  sync_method c (Float64Number Value) attrs.
Definition Int64Gauge_Record (g : option Wrapper) (ctx : Context) (Value : Z)
    (attrs : list attribute.Attr) : M unit :=
  sync_method g (Int64Number Value) attrs.
Definition Float64Gauge_Record (g : option Wrapper) (ctx : Context) (Value : float64)
    (attrs : list attribute.Attr) : M unit :=
  sync_method g (Float64Number Value) attrs.
Definition Int64Histogram_Record (h : option Wrapper) (ctx : Context) (Value : Z)
    (attrs : list attribute.Attr) : M unit :=
  sync_method h (Int64Number Value) attrs.
Definition Float64Histogram_Record (h : option Wrapper) (ctx : Context) (Value : float64)
    (attrs : list attribute.Attr) : M unit :=
  sync_method h (Float64Number Value) attrs.

Definition Int64ObservableCounter_Observe (c : option Wrapper) (observer : option nat)
    (value : Z) (attrs : list attribute.Attr) : M unit :=
  observe_method c observer (Int64Number value) attrs.
Definition Int64ObservableCounter_RegisterCallback (c : option Wrapper) (callback : nat)
    : M (option Registration) :=
  register_method c callback.
Definition Float64ObservableCounter_Observe (c : option Wrapper) (observer : option nat)
    (value : float64) (attrs : list attribute.Attr) : M unit :=
  observe_method c observer (Float64Number value) attrs.
Definition Float64ObservableCounter_RegisterCallback (c : option Wrapper) (callback : nat)
    : M (option Registration) :=
  register_method c callback.
Definition Int64ObservableUpDownCounter_Observe (c : option Wrapper) (observer : option nat)
    (value : Z) (attrs : list attribute.Attr) : M unit :=
  observe_method c observer (Int64Number value) attrs.
Definition Int64ObservableUpDownCounter_RegisterCallback (c : option Wrapper) (callback : nat)
    : M (option Registration) :=
  register_method c callback.
Definition Float64ObservableUpDownCounter_Observe (c : option Wrapper) (observer : option nat)
    (value : float64) (attrs : list attribute.Attr) : M unit :=
  observe_method c observer (Float64Number value) attrs.
Definition Float64ObservableUpDownCounter_RegisterCallback (c : option Wrapper) (callback : nat)
    : M (option Registration) :=
  register_method c callback.
Definition Int64ObservableGauge_Observe (g : option Wrapper) (observer : option nat)
    (value : Z) (attrs : list attribute.Attr) : M unit :=
  observe_method g observer (Int64Number value) attrs.
Definition Int64ObservableGauge_RegisterCallback (g : option Wrapper) (callback : nat)
    : M (option Registration) :=
  register_method g callback.
Definition Float64ObservableGauge_Observe (g : option Wrapper) (observer : option nat)
    (value : float64) (attrs : list attribute.Attr) : M unit :=
  observe_method g observer (Float64Number value) attrs.
Definition Float64ObservableGauge_RegisterCallback (g : option Wrapper) (callback : nat)
    : M (option Registration) :=
  register_method g callback.

(** The method of a meter that creates the instrument of a kind: it returns
    the instrument and, possibly, an error. *)
Definition Meter_new (e : Env) (m : Meter) (k : Kind) (name : string)
    : Instrument * option error :=
  (mkInstrument k name m, NewInstrument e k name).

Definition newInstrument {T : Type} (name : string)
    (newInstrument : string -> T * option error) : Outcome T :=
  let '(c, err) := newInstrument name in
  match err with
  | Some err => Err ("failed to create metric instrument " +:+ name +:+ ": " +:+ err)
  | None => Ok c
  end.

Definition observable (k : Kind) : bool :=
  match k with
  | KInt64ObservableCounter | KFloat64ObservableCounter
  | KInt64ObservableUpDownCounter | KFloat64ObservableUpDownCounter
  | KInt64ObservableGauge | KFloat64ObservableGauge => true
  | _ => false
  end.

(** The wrapper a case of the switch builds: [&Int64Counter{inst}] for a
    synchronous kind, [&Int64ObservableCounter{inst, meter}] for an
    observable one. *)
Definition wrapper_of (k : Kind) (inst : Instrument) (m : Meter) : Wrapper :=
  mkWrapper (Some inst) (if observable k then Some m else None).

Definition unexported_field : string :=
  "reflect: reflect.Value.Set using value obtained using unexported field".
Definition not_a_struct : string :=
  "reflect: call of reflect.Value.NumField on non-struct Value".

(** The loop of [initMetricFields] over the field indices of the struct at
    address [a].  The 14 cases of the switch differ in the kind alone. *)
Fixpoint walk_fields (m : Meter) (a : nat) (indices : list nat) (w : World)
    : Outcome unit * World :=
  match indices with
  | [] => (Ok tt, w)
  | i :: rest =>
      match heap w !! a with
      | Some (StructObject fields) =>
          match fields !! i with
          | Some field =>
              let fieldName := field_name field in
              match field_value field with
              | WrapperPtr k _ =>
                  match newInstrument fieldName (Meter_new (env w) m k) with
                  | Ok inst =>
                      if field_exported field then
                        let field' :=
                          mkField fieldName true
                            (WrapperPtr k (Some (wrapper_of k inst m))) in
                        walk_fields m a rest
                          (set_heap
                             (<[a := StructObject (<[i := field']> fields)]> (heap w)) w)
                      else (Panic unexported_field, w)
                  | Err err => (Err err, w)
                  | Panic msg => (Panic msg, w)
                  end
              | OtherField => walk_fields m a rest w
              end
          | None => (Panic "reflect: Field index out of range", w)
          end
      | _ => (Panic not_a_struct, w)
      end
  end.

Definition initMetricFields (meter : Meter) (m : any) (w : World)
    : Outcome unit * World :=
  match m with
  | None | Some (_, None) => (Ok tt, w)
  | Some (_, Some a) =>
      let w := set_metricsInstance m w in
      match heap w !! a with
      | Some (StructObject fields) => walk_fields meter a (seq 0 (length fields)) w
      | _ => (Panic not_a_struct, w)
      end
  end.

(** [InitMetrics[T]]: [T] names the struct type, [metricsStruct] is the
    pointer. *)
Definition InitMetrics (ctx : Context) (serviceName : string)
    (resourceAttrs : list attribute.Attr) (T : string) (metricsStruct : option nat)
    (options : list MetricOption) : M Teardown :=
  fun w =>
    let finish options :=
      let options :=
        options ++ [WithMetricResource (attribute.ToKeyValues resourceAttrs)] in
      let provider : MeterProvider := options in
      let meter := mkMeter serviceName provider in
      match initMetricFields meter (Some (T, metricsStruct)) w with
      | (Err err, w') => (Err err, w')
      | (Panic msg, w') => (Panic msg, w')
      | (Ok _, w') => (Ok (ProviderShutdown Metering), w')
      end in
    if is_set (Getenv (env w) OTEL_EXPORTER_OTLP_ENDPOINT) then
      let insecure := String.eqb (Getenv (env w) OTEL_EXPORTER_OTLP_INSECURE) "true" in
      let useHttp := String.eqb (Getenv (env w) OTEL_EXPORTER_OTLP_PROTOCOL) "http" in
      match NewExporter (env w) Metering useHttp insecure with
      | Some err => (Err err, w)
      | None => finish (options ++ [WithPeriodicReader useHttp insecure])
      end
    else finish options.

(** ** Package log *)

(** [Handler.Enabled]: the JSON handler lets a level through when it is at
    least the configured one; the bridge to a logger provider lets every
    level through. *)
Definition Enabled (h : Handler) (level : slog.Level) : bool :=
  match h with
  | JSONHandler _ minLevel _ => minLevel <=? level
  | otelslogHandler _ => true
  end.

(** [Handler.Handle]: the JSON handler writes one line, the attributes it
    was built with first; the bridge emits the record to its provider. *)
Definition Handle (h : Handler) (r : slog.Record_) (w : World) : World :=
  match h with
  | JSONHandler wr _ attrs =>
      let line := slog.mkRecord (slog.Level_ r) (slog.Message r) (attrs ++ slog.Attrs r) in
      set_written (written w ++ [(wr, line)]) w
  | otelslogHandler provider => set_emitted (emitted w ++ [(provider, r)]) w
  end.

(** The fan-out handler: enabled when one of its handlers is, and handing a
    record to each of its handlers that is enabled for the record's level. *)
Definition Fanout_Enabled (hs : list Handler) (level : slog.Level) : bool :=
  existsb (fun h => Enabled h level) hs.

Fixpoint Fanout_Handle (hs : list Handler) (r : slog.Record_) (w : World) : World :=
  match hs with
  | [] => w
  | h :: rest =>
      let w := if Enabled h (slog.Level_ r) then Handle h r w else w in
      Fanout_Handle rest r w
  end.

(** [Logger.DebugContext] and its siblings, by level: the logger asks its
    handler whether the level is enabled, builds the record and hands it
    over. *)
Definition Logger_log (l : Logger) (level : slog.Level) (ctx : Context) (msg : string)
    (args : list slog.Attr) (w : World) : World :=
  if Fanout_Enabled (handlers l) level
  then Fanout_Handle (handlers l) (slog.mkRecord level msg args) w
  else w.

Definition toSlogAttr (attr : attribute.Attr) : slog.Attr :=
  let key := attribute.Key (attribute.KeyValue_ attr) in
  let value := attribute.AsInterface (attribute.Value_ (attribute.KeyValue_ attr)) in
  slog.Any key value.

Definition NewJSONHandler (w : nat) (resourceAttrs : list attribute.Attr)
    (logLevel : string) : Outcome Handler :=
  let slogResourceAttrs :=
    map (fun attr =>
           slog.mkAttr (attribute.Key (attribute.KeyValue_ attr))
             (slog.AnyValue
                (attribute.AsInterface (attribute.Value_ (attribute.KeyValue_ attr)))))
        resourceAttrs in
  match slog.UnmarshalText logLevel with
  | Err err => Err err
  | Panic msg => Panic msg
  | Ok slogLevel => Ok (JSONHandler w slogLevel slogResourceAttrs)
  end.

Definition TraceID_String (id : TraceID) : string :=
  hex.EncodeToString (vec_to_list id).

(** The closure [writeLog] of [InitLogger]; [logF] is the method of the
    logger for the level. *)
Definition writeLog (ctx : Context)
    (logF : Context -> string -> list slog.Attr -> World -> World)
    (message : string) (logAttributes : list attribute.Attr) (w : World) : World :=
  let slogAttrs := map toSlogAttr logAttributes in
  let spanContext := SpanContextFromContext ctx in
  let slogAttrs :=
    if IsValid spanContext
    then slogAttrs ++ [slog.String_ "trace_id" (TraceID_String (sc_traceID spanContext))]
    else slogAttrs in
  logF ctx message slogAttrs w.

(** Calling the function a variable of type [logWithContext] holds. *)
Definition call_logWithContext (f : logWithContext) (ctx : Context) (message : string)
    (attributes : list attribute.Attr) : M unit :=
  fun w =>
    match f with
    | noopLogWithContext => (Ok tt, w)
    | writeLogAt slogger level =>
        (Ok tt, writeLog ctx (Logger_log slogger level) message attributes w)
    end.

Definition Debug (ctx : Context) (message : string) (attributes : list attribute.Attr)
    : M unit :=
  fun w => call_logWithContext (Debug_ w) ctx message attributes w.
Definition Info (ctx : Context) (message : string) (attributes : list attribute.Attr)
    : M unit :=
  fun w => call_logWithContext (Info_ w) ctx message attributes w.
Definition Warn (ctx : Context) (message : string) (attributes : list attribute.Attr)
    : M unit :=
  fun w => call_logWithContext (Warn_ w) ctx message attributes w.

(** Calling the function the variable [Error] holds; [err.Error()] on a nil
    error panics. *)
Definition Error (ctx : Context) (err : option error) (attributes : list attribute.Attr)
    : M unit :=
  fun w =>
    match Error_ w with
    | noopLogError => (Ok tt, w)
    | writeErrorLog slogger =>
        let stackTrace := Stack (env w) in
        match attribute.New "stack_trace" (VString stackTrace) with
        | Ok stack =>
            let attributes := attributes ++ [stack] in
            match err with
            | Some e =>
                (Ok tt, writeLog ctx (Logger_log slogger slog.LevelError) e attributes w)
            | None => (Panic nil_dereference, w)
            end
        | Err e => (Err e, w) (* [New] returns no error *)
        | Panic msg => (Panic msg, w)
        end
    end.

Definition grpcLogHandler (ctx : Context) (resourceAttrs : list attribute.Attr)
    (w : World) : Outcome (Handler * LoggerProvider) :=
  let insecure := String.eqb (Getenv (env w) OTEL_EXPORTER_OTLP_INSECURE) "true" in
  let useHttp := String.eqb (Getenv (env w) OTEL_EXPORTER_OTLP_PROTOCOL) "http" in
  match NewExporter (env w) Logging useHttp insecure with
  | Some err => Err err
  | None =>
      let provider :=
        mkLoggerProvider useHttp insecure (attribute.ToKeyValues resourceAttrs) in
      Ok (otelslogHandler provider, provider)
  end.

Definition InitLogger (ctx : Context) (resourceAttrs : list attribute.Attr)
    (handler : list Handler) : M Teardown :=
  fun w =>
    let slogHandlers := [] ++ handler in
    let finish (slogHandlers : list Handler) (provider : option LoggerProvider) :=
      let slogger := mkLogger slogHandlers in
      let shutdown : Teardown :=
        fun w =>
          match provider with
          | Some _ => ProviderShutdown Logging w
          | None => (None, w)
          end in
      (Ok shutdown,
       set_log_functions
         (writeLogAt slogger slog.LevelDebug) (writeLogAt slogger slog.LevelInfo)
         (writeLogAt slogger slog.LevelWarn) (writeErrorLog slogger) w) in
    if is_set (Getenv (env w) OTEL_EXPORTER_OTLP_ENDPOINT) then
      match grpcLogHandler ctx resourceAttrs w with
      | Err err => (Err err, w)
      | Panic msg => (Panic msg, w)
      | Ok (otelHandler, loggerProvider) =>
          finish (slogHandlers ++ [otelHandler]) (Some loggerProvider)
      end
    else finish slogHandlers None.

(** ** Package otel *)

(** The first error of three, in order. *)
Definition first_error (a b c : option error) : option error :=
  match a with
  | Some _ => a
  | None => match b with Some _ => b | None => c end
  end.

(** The teardown [Init] composes from the three it was given. *)
Definition shutdown_all (shutdownLogger shutdownMetrics shutdownTracing : Teardown)
    : Teardown :=
  fun w =>
    let '(firstErr, w) := shutdownLogger w in
    let '(err, w) := shutdownMetrics w in
    let firstErr :=
      match err, firstErr with
      | Some _, None => err
      | _, _ => firstErr
      end in
    let '(err, w) := shutdownTracing w in
    let firstErr :=
      match err, firstErr with
      | Some _, None => err
      | _, _ => firstErr
      end in
    (firstErr, w).

Definition Init (ctx : Context) (serviceName : string)
    (resourceAttrs : list attribute.Attr) (T : string) (metricsStruct : option nat)
    (logHandler : option Handler) : M Teardown :=
  fun w =>
    match InitTracing ctx serviceName resourceAttrs [] w with
    | (Err err, w) => (Err err, w)
    | (Panic msg, w) => (Panic msg, w)
    | (Ok shutdownTracing, w) =>
        match InitMetrics ctx serviceName resourceAttrs T metricsStruct [] w with
        | (Err err, w) =>
            let '(_, w) := shutdownTracing w in
            (Err err, w)
        | (Panic msg, w) => (Panic msg, w)
        | (Ok shutdownMetrics, w) =>
            let logger :=
              match logHandler with
              | Some logHandler => InitLogger ctx resourceAttrs [logHandler] w
              | None => InitLogger ctx resourceAttrs [] w
              end in
            match logger with
            | (Err err, w) =>
                let '(_, w) := shutdownMetrics w in
                let '(_, w) := shutdownTracing w in
                (Err err, w)
            | (Panic msg, w) => (Panic msg, w)
            | (Ok shutdownLogger, w) =>
                (Ok (shutdown_all shutdownLogger shutdownMetrics shutdownTracing), w)
            end
        end
    end.

(** ** Package otel, with options *)

(** The other [Init] of the package, which builds the JSON handler itself
    from options: a writer, [os.Stdout] when none is given, and a level,
    INFO when none is given. *)
Module otel_options.

Definition Stdout : nat := 1%nat.

Record options := mkOptions { logWriter : nat; logLevel : string }.

(** An option is a function that updates the options. *)
Definition Option_ : Type := options -> options.

Definition WithLogWriter (w : nat) : Option_ :=
  fun o => mkOptions w (logLevel o).

Definition WithLogLevel (level : string) : Option_ :=
  fun o => mkOptions (logWriter o) level.

(** [for _, opt := range opts { opt(o) }] *)
Definition apply_options (opts : list Option_) (o : options) : options :=
  foldl (fun o opt => opt o) o opts.

Definition Init (ctx : Context) (serviceName : string)
    (resourceAttrs : list attribute.Attr) (T : string) (metricsStruct : option nat)
    (opts : list Option_) : M Teardown :=
  fun w =>
    let o := apply_options opts (mkOptions Stdout "INFO") in
    match InitTracing ctx serviceName resourceAttrs [] w with
    | (Err err, w) => (Err err, w)
    | (Panic msg, w) => (Panic msg, w)
    | (Ok shutdownTracing, w) =>
        match InitMetrics ctx serviceName resourceAttrs T metricsStruct [] w with
        | (Err err, w) =>
            let '(_, w) := shutdownTracing w in
            (Err err, w)
        | (Panic msg, w) => (Panic msg, w)
        | (Ok shutdownMetrics, w) =>
            match NewJSONHandler (logWriter o) resourceAttrs (logLevel o) with
            | Err err =>
                let '(_, w) := shutdownMetrics w in
                let '(_, w) := shutdownTracing w in
                (Err err, w)
            | Panic msg => (Panic msg, w)
            | Ok logHandler =>
                match InitLogger ctx resourceAttrs [logHandler] w with
                | (Err err, w) =>
                    let '(_, w) := shutdownMetrics w in
                    let '(_, w) := shutdownTracing w in
                    (Err err, w)
                | (Panic msg, w) => (Panic msg, w)
                | (Ok shutdownLogger, w) =>
                    (Ok (shutdown_all shutdownLogger shutdownMetrics shutdownTracing), w)
                end
            end
        end
    end.

End otel_options.

(** ** Notions used in the statements *)

(** The walk of [initMetricFields] as a function of the fields alone, to
    compare with the walk in place: the fields as the walk leaves them, and
    how it ends. *)
Fixpoint populate (e : Env) (m : Meter) (fields : list Field)
    : list Field * Outcome unit :=
  match fields with
  | [] => ([], Ok tt)
  | field :: rest =>
      match field_value field with
      | WrapperPtr k _ =>
          match newInstrument (field_name field) (Meter_new e m k) with
          | Ok inst =>
              if field_exported field then
                let '(rest', r) := populate e m rest in
                (mkField (field_name field) true
                   (WrapperPtr k (Some (wrapper_of k inst m))) :: rest', r)
              else (field :: rest, Panic unexported_field)
          | Err err => (field :: rest, Err err)
          | Panic msg => (field :: rest, Panic msg)
          end
      | OtherField =>
          let '(rest', r) := populate e m rest in (field :: rest', r)
      end
  end.

(** A field as a successful walk leaves it: a field that is a pointer to a
    wrapper holds the wrapper of the instrument of its kind and name, on the
    meter [m]; any other field is as it was. *)
Definition populated (m : Meter) (before after : Field) : Prop :=
  field_name after = field_name before /\
  match field_value before with
  | WrapperPtr k _ =>
      field_value after =
      WrapperPtr k (Some (wrapper_of k (mkInstrument k (field_name before) m) m))
  | OtherField => after = before
  end.

(** The attributes of the record [Debug], [Info] and [Warn] build: the
    caller's, then the trace identifier when the context has one. *)
Definition log_attrs (ctx : Context) (attrs : list attribute.Attr) : list slog.Attr :=
  map toSlogAttr attrs
  ++ (if IsValid (SpanContextFromContext ctx)
      then [slog.String_ "trace_id"
              (TraceID_String (sc_traceID (SpanContextFromContext ctx)))]
      else []).


(** The status of a span, read from the world. *)
Definition status_of (w : World) (s : Span) : option Status :=
  match traceSpan s with
  | Some (recordingSpan h _) => sd_status <$> spans w !! h
  | _ => None
  end.

(** The parent of a span, read from the world. *)
Definition parent_of (w : World) (s : Span) : option SpanContext :=
  match traceSpan s with
  | Some (recordingSpan h _) => sd_parent <$> spans w !! h
  | _ => None
  end.

(** A properly constructed span: a recording span of the SDK that has not
    ended, whose status code is one of Unset, Error and Ok. *)
Definition properly_constructed (w : World) (s : Span) : bool :=
  match traceSpan s with
  | Some (recordingSpan h _) =>
      match spans w !! h with
      | Some d =>
          negb (sd_ended d) &&
          (0 <=? Code (sd_status d)) && (Code (sd_status d) <=? StatusOk)
      | None => false
      end
  | _ => false
  end.

(** The position of the first attribute of a key in a record. *)
Fixpoint index_of (key : string) (attrs : list slog.Attr) : option nat :=
  match attrs with
  | [] => None
  | a :: rest =>
      if String.eqb (slog.Key a) key then Some 0%nat
      else S <$> index_of key rest
  end.

(** The lines the JSON handlers among [hs] write for a record, and the
    records the bridges among [hs] emit, each handler for the levels it is
    enabled for. *)
Definition lines_of (hs : list Handler) (r : slog.Record_) : list (nat * slog.Record_) :=
  omap (fun h =>
          match h with
          | JSONHandler wr minLevel attrs =>
              if minLevel <=? slog.Level_ r
              then Some (wr, slog.mkRecord (slog.Level_ r) (slog.Message r)
                               (attrs ++ slog.Attrs r))
              else None
          | otelslogHandler _ => None
          end) hs.

Definition bridged_of (hs : list Handler) (r : slog.Record_)
    : list (LoggerProvider * slog.Record_) :=
  omap (fun h =>
          match h with
          | JSONHandler _ _ _ => None
          | otelslogHandler provider => Some (provider, r)
          end) hs.

(** The value a reader of a line finds under a key when it keeps the last
    of the attributes of that key. *)
Fixpoint lookup_last (key : string) (attrs : list slog.Attr) : option slog.Value :=
  match attrs with
  | [] => None
  | a :: rest =>
      match lookup_last key rest with
      | Some v => Some v
      | None => if String.eqb (slog.Key a) key then Some (slog.Value_ a) else None
      end
  end.

(** The attributes of the record [Error] builds: the caller's, then the
    stack trace, then the trace identifier when the context has one. *)
Definition error_attrs (w : World) (ctx : Context) (attrs : list attribute.Attr)
    : list slog.Attr :=
  map toSlogAttr attrs
  ++ [slog.String_ "stack_trace" (Stack (env w))]
  ++ (if IsValid (SpanContextFromContext ctx)
      then [slog.String_ "trace_id"
              (TraceID_String (sc_traceID (SpanContextFromContext ctx)))]
      else []).

(** The level strings the parser accepts, in words: a level name in any
    letter case, or such a name followed by a sign and digits, the offset to
    add to the level of the name. *)
Definition is_sign (c : ascii) : bool := Ascii.eqb c "+" || Ascii.eqb c "-".

Fixpoint has_sign (s : string) : bool :=
  match s with
  | EmptyString => false
  | String c rest => is_sign c || has_sign rest
  end.

Definition level_of_name (NAME : string) : option slog.Level :=
  if String.eqb NAME "DEBUG" then Some slog.LevelDebug
  else if String.eqb NAME "INFO" then Some slog.LevelInfo
  else if String.eqb NAME "WARN" then Some slog.LevelWarn
  else if String.eqb NAME "ERROR" then Some slog.LevelError
  else None.

Inductive level_text : string -> slog.Level -> Prop :=
| level_by_name (name : string) (base : slog.Level) :
    has_sign name = false ->
    level_of_name (slog.ToUpper name) = Some base ->
    level_text name base
| level_with_offset (name : string) (sign : ascii) (ds : string)
    (base : slog.Level) (offset : Z) :
    has_sign name = false ->
    level_of_name (slog.ToUpper name) = Some base ->
    is_sign sign = true ->
    slog.Atoi (String sign ds) = Ok offset ->
    level_text (name +:+ String sign ds) (slog.add_int base offset).

(** The events of a span, read from the world. *)
Definition events_of (w : World) (s : Span) : option (list Event) :=
  match traceSpan s with
  | Some (recordingSpan h _) => sd_events <$> spans w !! h
  | _ => None
  end.

(** The error, if any, of building the exporter of a pillar in a world:
    none is built when the endpoint variable is not set. *)
Definition exporter_failure (p : Pillar) (w : World) : option error :=
  if is_set (Getenv (env w) OTEL_EXPORTER_OTLP_ENDPOINT) then
    NewExporter (env w) p
      (String.eqb (Getenv (env w) OTEL_EXPORTER_OTLP_PROTOCOL) "http")
      (String.eqb (Getenv (env w) OTEL_EXPORTER_OTLP_INSECURE) "true")
  else None.

(** The meter [InitMetrics] makes in a world. *)
Definition meter_of (w : World) (serviceName : string)
    (resourceAttrs : list attribute.Attr) (options : list MetricOption) : Meter :=
  mkMeter serviceName
    ((if is_set (Getenv (env w) OTEL_EXPORTER_OTLP_ENDPOINT)
      then options ++
           [WithPeriodicReader
              (String.eqb (Getenv (env w) OTEL_EXPORTER_OTLP_PROTOCOL) "http")
              (String.eqb (Getenv (env w) OTEL_EXPORTER_OTLP_INSECURE) "true")]
      else options)
     ++ [WithMetricResource (attribute.ToKeyValues resourceAttrs)]).

(** Modelled from the spec: the rule by which the SDK's meter refuses an
    "invalid name" for an instrument: a name is at most 255 characters, starts
    with a letter of ASCII and goes on with letters and digits of ASCII and
    the characters underscore, dot, dash and slash. *)
Definition isAlpha (c : ascii) : bool :=
  let n := N_of_ascii c in
  (((65 <=? n) && (n <=? 90)) || ((97 <=? n) && (n <=? 122)))%N.

Definition isAlphanumeric (c : ascii) : bool :=
  let n := N_of_ascii c in
  isAlpha c || ((48 <=? n) && (n <=? 57))%N.

Definition validateInstrumentName (name : string) : option error :=
  match name with
  | EmptyString => Some ("invalid instrument name: " +:+ name +:+ ": is empty")
  | String c rest =>
      if (255 <? String.length name)%nat
      then Some ("invalid instrument name: " +:+ name +:+
                 ": longer than 255 characters")
      else if negb (isAlpha c)
      then Some ("invalid instrument name: " +:+ name +:+
                 ": must start with a letter")
      else if forallb
                (fun c => isAlphanumeric c || Ascii.eqb c "_" || Ascii.eqb c "."
                          || Ascii.eqb c "-" || Ascii.eqb c "/")
                (list_ascii_of_string rest)
      then None
      else Some ("invalid instrument name: " +:+ name +:+
                 ": must only contain [A-Za-z0-9_.-/]")
  end.

(** Concrete environments, structs and worlds, for the examples. *)
Module example.

(** No variable of the environment is set, nothing fails but the creation
    of an instrument of an invalid name. *)
Definition local : Env :=
  mkEnv (fun _ => "") (fun _ _ _ => None)
    (fun _ name => validateInstrumentName name)
    (fun _ => None)
    "goroutine 1 [running]:"
    (fun n => (vreplicate 16 (default x01 (Byte.of_nat (S n))),
               vreplicate 8 (default x01 (Byte.of_nat (S n)))))
    (fun _ => "*errors.errorString").

(** [type AppMetrics struct { RequestCount *Int64Counter;
    ActiveUsers *Int64Gauge }], zero-valued, at address 1. *)
Definition AppMetrics : Object :=
  StructObject
    [ mkField "RequestCount" true (WrapperPtr KInt64Counter None);
      mkField "ActiveUsers" true (WrapperPtr KInt64Gauge None) ].

(** [type Sizes struct { Requests *Int64Counter; Größe *Int64Histogram;
    Users *Int64Gauge }], zero-valued, at address 2: the second field is
    exported, and its name is not a valid name of an instrument. *)
Definition Sizes : Object :=
  StructObject
    [ mkField "Requests" true (WrapperPtr KInt64Counter None);
      mkField "Größe" true (WrapperPtr KInt64Histogram None);
      mkField "Users" true (WrapperPtr KInt64Gauge None) ].

Definition objects : gmap nat Object :=
  <[1%nat := AppMetrics]> (<[2%nat := Sizes]> ∅).

Definition w0 : World := start local objects.

(** The world after [InitTracing] with an in-memory exporter, as the tests
    of the repository set it up. *)
Definition traced : World :=
  snd (InitTracing Background "test-service"
         (attribute.ResourceAttributes "test-service" "1.0.0" "test" "testhost")
         [WithSyncer (InMemoryExporter 0)] w0).

(** A span started in that world, and the world it lives in. *)
Definition test_span : Span :=
  snd (fst (NewSpan Background "test-span" [] traced)).
Definition spanned : World :=
  snd (NewSpan Background "test-span" [] traced).

(** The world after [InitLogger] with a JSON handler at level INFO on the
    writer 0. *)
Definition logged : World :=
  snd (InitLogger Background [] [JSONHandler 0 slog.LevelInfo []] w0).

(** The environment of a process that exports to a collector: the endpoint
    is set, for the gRPC protocol without transport security. *)
Definition remote : Env :=
  mkEnv (fun name =>
           if String.eqb name OTEL_EXPORTER_OTLP_ENDPOINT then "localhost:4317"
           else if String.eqb name OTEL_EXPORTER_OTLP_INSECURE then "true"
           else "")
    (fun _ _ _ => None)
    (fun _ name => validateInstrumentName name)
    (fun _ => None)
    "goroutine 1 [running]:"
    (fun n => (vreplicate 16 (default x01 (Byte.of_nat (S n))),
               vreplicate 8 (default x01 (Byte.of_nat (S n)))))
    (fun _ => "*errors.errorString").

Definition exporting : World := start remote objects.

End example.

(** * Properties *)

(** ** Attributes *)

Lemma map_int64_of_int (l : list Z) : map attribute.int64_of_int l = l.
Proof.
  induction l as [|n l IH]; simpl.
  - reflexivity.
  - now rewrite IH.
Qed.

(** C6, as the specification states it, fails: [New] has an error path,
    and the attribute it returns is not always valid.  On a value whose
    [String] method panics, as that of a nil [*url.URL] does, [New] panics;
    and the attribute of the empty key is one the SDK does not hold
    valid. *)
Lemma New_not_total :
  attribute.New "endpoint"
    (VOther "*url.URL" (Some (Panics nil_dereference)) "<nil>")
  = Panic nil_dereference /\
  exists attr,
    attribute.New "" (VBool true) = Ok attr /\
    attribute.Valid (attribute.KeyValue_ attr) = false.
Proof. split; [reflexivity|]. eexists. split; reflexivity. Qed.

(** C6. [New] returns no error, and panics exactly on a value that
    reaches the case of [fmt.Stringer] and whose [String] method panics,
    with the panic of that method.  On every other value it returns an
    attribute of the given key whose value is of a valid kind, which is a
    valid attribute exactly when the key is not empty.  The value it stores
    is the one the first matching case of the precedence bool, []bool,
    float64, []float64, int, []int, int64, []int64, string, []string,
    fmt.Stringer stores, and the formatted value when no case matches.  A
    value of a supported kind reads back as itself (an int as the int64 of
    the same number), a value of any other kind as its string formatting. *)
Theorem New_dispatch (key : string) (value : GoValue) :
  match attribute.New key value with
  | Ok attr =>
      let kv := attribute.KeyValue_ attr in
      (forall T msg formatted, value <> VOther T (Some (Panics msg)) formatted) /\
      attribute.Key kv = key /\
      attribute.Type_of (attribute.Value_ kv) <> attribute.INVALID /\
      attribute.Valid kv = negb (String.eqb key "") /\
      attribute.dispatch attribute.precedence value
        = Some (Ok (attribute.Value_ kv)) /\
      attribute.AsInterface (attribute.Value_ kv) = attribute.reads_back value
  | Panic msg =>
      (exists T formatted, value = VOther T (Some (Panics msg)) formatted) /\
      attribute.dispatch attribute.precedence value = Some (Panic msg)
  | Err _ => False
  end.
Proof.
  destruct value as [| | | | | |l| | | | |T [[s|msg]|] f];
    cbn -[String.eqb]; unfold attribute.Valid; cbn -[String.eqb];
    rewrite ?map_int64_of_int, ?andb_true_r;
    repeat split; try discriminate; eauto.
Qed.

(** ** Instrument wrappers *)

(** C5. Through a nil wrapper reference, [Add], [Record], [Observe] and
    [RegisterCallback] of each of the 14 wrapper kinds return without
    failing and leave the world as it is: no data point is produced and no
    callback is registered, whatever the context, the observer, the value
    and the attributes. *)
Theorem nil_wrapper_methods_are_noops
    (ctx : Context) (observer : option nat) (n : Z) (x : float64)
    (attrs : list attribute.Attr) (callback : nat) (w : World) :
  Int64Counter_Add None ctx n attrs w = (Ok tt, w) /\
  Float64Counter_Add None ctx x attrs w = (Ok tt, w) /\
  Int64UpDownCounter_Add None ctx n attrs w = (Ok tt, w) /\
  Float64UpDownCounter_Add None ctx x attrs w = (Ok tt, w) /\
  Int64Gauge_Record None ctx n attrs w = (Ok tt, w) /\
  Float64Gauge_Record None ctx x attrs w = (Ok tt, w) /\
  Int64Histogram_Record None ctx n attrs w = (Ok tt, w) /\
  Float64Histogram_Record None ctx x attrs w = (Ok tt, w) /\
  Int64ObservableCounter_Observe None observer n attrs w = (Ok tt, w) /\
  Float64ObservableCounter_Observe None observer x attrs w = (Ok tt, w) /\
  Int64ObservableUpDownCounter_Observe None observer n attrs w = (Ok tt, w) /\
  Float64ObservableUpDownCounter_Observe None observer x attrs w = (Ok tt, w) /\
  Int64ObservableGauge_Observe None observer n attrs w = (Ok tt, w) /\
  Float64ObservableGauge_Observe None observer x attrs w = (Ok tt, w) /\
  Int64ObservableCounter_RegisterCallback None callback w = (Ok None, w) /\
  Float64ObservableCounter_RegisterCallback None callback w = (Ok None, w) /\
  Int64ObservableUpDownCounter_RegisterCallback None callback w = (Ok None, w) /\
  Float64ObservableUpDownCounter_RegisterCallback None callback w = (Ok None, w) /\
  Int64ObservableGauge_RegisterCallback None callback w = (Ok None, w) /\
  Float64ObservableGauge_RegisterCallback None callback w = (Ok None, w).
Proof. repeat apply conj; reflexivity. Qed.

(** ** Tracing before initialisation *)

Lemma tracer_at_start (e : Env) (h : gmap nat Object) : tracer (start e h) = noopTracer.
Proof. reflexivity. Qed.

(** A call of [InitTracing] that fails leaves the world, and so the tracer,
    as it found it. *)
Lemma InitTracing_failure_keeps_world ctx serviceName resourceAttrs options w err w' :
  InitTracing ctx serviceName resourceAttrs options w = (Err err, w') -> w' = w.
Proof.
  unfold InitTracing. intros H.
  destruct (is_set _); [destruct (NewExporter _ _ _ _)|]; congruence.
Qed.

Lemma noop_span_ignores (f : SpanData -> SpanData) sc w :
  sdktrace.update (noopSpan sc) f w = w.
Proof. reflexivity. Qed.

(** C10. While the package-level tracer is the no-op tracer it starts as
    (which only a successful [InitTracing] replaces), [NewSpan] returns, for
    every context, name and attributes, a span handle wrapping a no-op span
    and changes nothing; on that handle [AddEvent], [SetStatus],
    [SetAttributes], [RecordError] and [End] return without failing and
    change nothing in any world, so that nothing is recorded and no span is
    exported. *)
Theorem tracing_before_init_is_noop
    (w : World) (ctx : Context) (name : string) (attrs : list attribute.Attr) :
  tracer w = noopTracer ->
  let ts := noopSpan (SpanContextFromContext ctx) in
  let span := mkSpan (Some ts) in
  NewSpan ctx name attrs w = ((ContextWithSpan ctx ts, span), w) /\
  forall (w' : World) (event : string) (eattrs sattrs : list attribute.Attr)
         (code : StatusCode) (description : string) (err : option error),
    AddEvent span event eattrs w' = (Ok tt, w') /\
    SetStatus span code description w' = (Ok tt, w') /\
    SetAttributes span sattrs w' = (Ok tt, w') /\
    RecordError span err w' = (Ok tt, w') /\
    End_ span w' = (Ok tt, w').
Proof.
  intros Hnoop ts span. split.
  - unfold NewSpan, newSpan. rewrite Hnoop. reflexivity.
  - intros w' event eattrs sattrs code description err.
    repeat apply conj; try reflexivity.
    destruct err; reflexivity.
Qed.

Lemma tracing_before_init_is_noop_witness :
  tracer example.w0 = noopTracer /\
  NewSpan Background "operation" [attribute.new "user_id" "123" attribute.String_] example.w0
  = ((ContextWithSpan Background (noopSpan emptySpanContext),
      mkSpan (Some (noopSpan emptySpanContext))), example.w0).
Proof.
  split; [reflexivity|].
  apply (tracing_before_init_is_noop example.w0 Background "operation"
           [attribute.new "user_id" "123" attribute.String_] eq_refl).
Defined.

(** ** Span status *)

Lemma update_recording (h : nat) (sc : SpanContext) (f : SpanData -> SpanData)
    (w : World) (d : SpanData) :
  spans w !! h = Some d -> sd_ended d = false ->
  sdktrace.update (recordingSpan h sc) f w = set_spans (<[h := f d]> (spans w)) w.
Proof. intros Hd He. unfold sdktrace.update. now rewrite Hd, He. Qed.

(** A span that [NewSpan] starts under the SDK's tracer, at the root or
    under a sampled parent, is properly constructed. *)
Lemma NewSpan_properly_constructed w ctx name attrs tname provider :
  tracer w = sdkTracer tname provider ->
  (if IsValid (SpanContextFromContext ctx)
   then IsSampled (SpanContextFromContext ctx) else true) = true ->
  properly_constructed (snd (NewSpan ctx name attrs w))
    (snd (fst (NewSpan ctx name attrs w))) = true.
Proof.
  intros Ht Hs. unfold NewSpan, newSpan, sdktrace.Start. rewrite Ht, Hs.
  cbn. unfold properly_constructed. cbn. now rewrite lookup_insert_eq.
Qed.

(** C3. On every properly constructed span (a recording span that has not
    ended), [SetStatus(StatusOk, description)] returns and leaves the span
    with the status code Ok and the empty description, whatever the
    description given. *)
Theorem SetStatus_Ok_discards_description
    (w : World) (s : Span) (description : string) :
  properly_constructed w s = true ->
  exists w', SetStatus s StatusOk description w = (Ok tt, w') /\
             status_of w' s = Some (mkStatus StatusOk "").
Proof.
  unfold properly_constructed, status_of, SetStatus, on_traceSpan.
  destruct (traceSpan s) as [[h sc|sc|sc]|]; try discriminate.
  destruct (spans w !! h) as [d|] eqn:Hd; try discriminate.
  intros H. apply andb_prop in H as [H Hle]. apply andb_prop in H as [He _].
  apply negb_true_iff in He. apply Z.leb_le in Hle.
  eexists. split; [reflexivity|].
  unfold sdktrace.SetStatus. rewrite (update_recording h sc _ w d Hd He).
  cbn. rewrite lookup_insert_eq. cbn.
  destruct (Code (sd_status d) >? StatusOk) eqn:Hgt.
  - apply Z.gtb_lt in Hgt. lia.
  - reflexivity.
Qed.

Lemma SetStatus_Ok_discards_description_witness :
  properly_constructed example.spanned example.test_span = true /\
  exists w', SetStatus example.test_span StatusOk "operation completed" example.spanned
             = (Ok tt, w') /\
             status_of w' example.test_span = Some (mkStatus StatusOk "").
Proof.
  split; [vm_compute; reflexivity|].
  apply (SetStatus_Ok_discards_description example.spanned example.test_span
           "operation completed").
  vm_compute; reflexivity.
Defined.

(** ** Propagation of the trace context *)

Lemma Decode_encode_byte (b : byte) (n : nat) (rest : string) :
  hex.Decode (S n) (hex.encode_byte b +:+ rest) =
  match hex.Decode n rest with
  | Some v => Some (b ::: v)
  | None => None
  end.
Proof. destruct b; reflexivity. Qed.

Lemma Cut_two_digits (h l : ascii) (rest : string) :
  Ascii.eqb h "-" = false -> Ascii.eqb l "-" = false ->
  propagation.Cut (String h (String l "") +:+ rest) =
  let '(before, after) := propagation.Cut rest in
  (String h (String l "") +:+ before, after).
Proof.
  intros Hh Hl.
  change (String h (String l "") +:+ rest) with (String h (String l rest)).
  change (propagation.Cut (String h (String l rest))) with
    (if Ascii.eqb h "-" then (EmptyString, String l rest)
     else let '(before, after) :=
            (if Ascii.eqb l "-" then (EmptyString, rest)
             else let '(before, after) := propagation.Cut rest in
                  (String l before, after)) in
          (String h before, after)).
  rewrite Hh, Hl. destruct (propagation.Cut rest). reflexivity.
Qed.

Lemma Cut_encode_byte (b : byte) (rest : string) :
  propagation.Cut (hex.encode_byte b +:+ rest) =
  let '(before, after) := propagation.Cut rest in (hex.encode_byte b +:+ before, after).
Proof.
  destruct b;
    match goal with
    | |- context [hex.encode_byte ?b] =>
        let text := eval vm_compute in (hex.encode_byte b) in
        change (hex.encode_byte b) with text
    end;
    apply Cut_two_digits; reflexivity.
Qed.

Lemma append_nil (b : string) : "" +:+ b = b.
Proof. reflexivity. Qed.

Lemma append_cons (c : ascii) (a b : string) : String c a +:+ b = String c (a +:+ b).
Proof. reflexivity. Qed.

Lemma append_assoc (a b c : string) : (a +:+ b) +:+ c = a +:+ (b +:+ c).
Proof.
  induction a as [|x a IH].
  - now rewrite !append_nil.
  - now rewrite !append_cons, IH.
Qed.

(** Decoding the text of an identifier gives the identifier back. *)
Lemma Decode_EncodeToString (n : nat) (id : vec byte n) :
  hex.Decode n (hex.EncodeToString (vec_to_list id)) = Some id.
Proof.
  induction id as [|b n id IH]; cbn [vec_to_list hex.EncodeToString].
  - reflexivity.
  - now rewrite Decode_encode_byte, IH.
Qed.

(** The text of an identifier holds no dash: a cut stops right after it. *)
Lemma Cut_EncodeToString_dash (bs : list byte) (rest : string) :
  propagation.Cut (hex.EncodeToString bs +:+ "-" +:+ rest) = (hex.EncodeToString bs, rest).
Proof.
  induction bs as [|b bs IH]; cbn [hex.EncodeToString].
  - reflexivity.
  - rewrite append_assoc, Cut_encode_byte, IH. reflexivity.
Qed.

Lemma Cut_EncodeToString_end (bs : list byte) :
  propagation.Cut (hex.EncodeToString bs) = (hex.EncodeToString bs, "").
Proof.
  induction bs as [|b bs IH]; cbn [hex.EncodeToString].
  - reflexivity.
  - rewrite Cut_encode_byte, IH. reflexivity.
Qed.

Lemma extractPart_dash (n : nat) (id : vec byte n) (rest : string) :
  propagation.extractPart n (hex.EncodeToString (vec_to_list id) +:+ "-" +:+ rest)
  = (Some id, rest).
Proof.
  unfold propagation.extractPart.
  now rewrite Cut_EncodeToString_dash, Decode_EncodeToString.
Qed.

Lemma Get_traceparent_Inject (ctx : Context) :
  IsValid (SpanContextFromContext ctx) = true ->
  propagation.Get (propagation.Inject ctx ∅) propagation.traceparentHeader
  = propagation.traceparent (SpanContextFromContext ctx).
Proof.
  intros Hv. unfold propagation.Inject, propagation.Get. rewrite Hv.
  destruct (String.eqb _ ""); [|rewrite lookup_insert_ne by discriminate];
    now rewrite lookup_insert_eq.
Qed.

(** What was injected is extracted again: the identifiers and the sampling
    bit, as the span context of a remote parent. *)
Lemma extract_Inject (ctx : Context) :
  let sc := SpanContextFromContext ctx in
  IsValid sc = true ->
  propagation.extract (propagation.Inject ctx ∅) =
  mkSpanContext (sc_traceID sc) (sc_spanID sc) (if IsSampled sc then 1 else 0)
    (propagation.Get (propagation.Inject ctx ∅) propagation.tracestateHeader) true.
Proof.
  intros sc Hv. unfold propagation.extract.
  rewrite (Get_traceparent_Inject ctx Hv). fold sc.
  unfold propagation.traceparent.
  change (hex.EncodeToString [x00]) with (hex.EncodeToString (vec_to_list [#x00])) at 2.
  rewrite !extractPart_dash.
  match goal with
  | |- context [String.eqb (hex.EncodeToString [x00] +:+ ?r) ""] =>
      change (String.eqb (hex.EncodeToString [x00] +:+ r) "") with false
  end.
  change (to_N ([#x00] !!! 0%fin)) with 0%N.
  assert (Hflags : propagation.extractPart 1
                     (hex.EncodeToString [propagation.byte_of_flags sc])
                   = (Some [#propagation.byte_of_flags sc], "")).
  { unfold propagation.byte_of_flags. destruct (IsSampled sc); reflexivity. }
  rewrite Hflags.
  assert (Hvalid : forall f ts r,
            IsValid (mkSpanContext (sc_traceID sc) (sc_spanID sc) f ts r) = true).
  { intros. exact Hv. }
  unfold propagation.byte_of_flags.
  destruct (IsSampled sc); cbn; rewrite Hvalid; reflexivity.
Qed.

(** The context [NewSpan] returns carries the span it returns. *)
Lemma NewSpan_context ctx name attrs w ctx' span w' :
  NewSpan ctx name attrs w = ((ctx', span), w') ->
  exists ts, traceSpan span = Some ts /\ ctx_span ctx' = Some ts.
Proof.
  unfold NewSpan, newSpan, sdktrace.Start.
  destruct (tracer w) as [|tname provider].
  - intros [= <- <- _]. eauto.
  - destruct (if IsValid _ then _ else true); intros [= <- <- _]; eauto.
Qed.

(** C7. For every context that [NewSpan] returns with a valid, sampled
    span, [TraceHeaders] yields a mapping with the key "traceparent"; and
    [NewChildSpan] on any context (a fresh one among them) with that
    mapping, under a tracer of the SDK, starts a span whose parent has the
    span identifier, and the trace identifier, of the original span. *)
Theorem trace_headers_round_trip
    (w : World) (ctx : Context) (name : string) (attrs : list attribute.Attr)
    (ctx' : Context) (span : Span) (w' : World) (ts : TraceSpan) :
  NewSpan ctx name attrs w = ((ctx', span), w') ->
  traceSpan span = Some ts ->
  IsValid (SpanContext_of ts) = true ->
  IsSampled (SpanContext_of ts) = true ->
  is_Some (TraceHeaders ctx' !! "traceparent") /\
  forall (w2 : World) (fresh : Context) (name2 : string)
         (attrs2 : list attribute.Attr) (tname : string) (provider : TracerProvider),
    tracer w2 = sdkTracer tname provider ->
    exists parent,
      parent_of (snd (NewChildSpan fresh (TraceHeaders ctx') name2 attrs2 w2))
        (snd (fst (NewChildSpan fresh (TraceHeaders ctx') name2 attrs2 w2)))
      = Some parent /\
      sc_spanID parent = sc_spanID (SpanContext_of ts) /\
      sc_traceID parent = sc_traceID (SpanContext_of ts).
Proof.
  intros Hnew Hts Hvalid Hsampled.
  destruct (NewSpan_context _ _ _ _ _ _ _ Hnew) as (ts' & Hts' & Hctx).
  assert (ts' = ts) as -> by congruence.
  assert (Hsc : SpanContextFromContext ctx' = SpanContext_of ts).
  { unfold SpanContextFromContext. now rewrite Hctx. }
  split.
  - unfold TraceHeaders, propagation.Inject. rewrite Hsc, Hvalid.
    destruct (String.eqb _ ""); [|rewrite lookup_insert_ne by discriminate];
      rewrite lookup_insert_eq; eauto.
  - intros w2 fresh name2 attrs2 tname provider Htracer.
    unfold NewChildSpan, propagation.Extract, TraceHeaders.
    rewrite (extract_Inject ctx') by now rewrite Hsc.
    rewrite Hsc, Hsampled.
    set (decoded := mkSpanContext _ _ 1 _ true).
    assert (Hdv : IsValid decoded = true) by exact Hvalid.
    rewrite Hdv. unfold newSpan, sdktrace.Start. rewrite Htracer.
    change (SpanContextFromContext (ContextWithRemoteSpanContext fresh decoded))
      with decoded.
    rewrite Hdv. change (IsSampled decoded) with true.
    cbn. unfold parent_of. cbn. rewrite lookup_insert_eq. cbn.
    eexists. split; [reflexivity|]. split; reflexivity.
Qed.

Lemma trace_headers_round_trip_witness :
  is_Some (TraceHeaders (fst (fst (NewSpan Background "parent-span" [] example.traced)))
             !! "traceparent") /\
  exists parent,
    parent_of
      (snd (NewChildSpan Background
              (TraceHeaders (fst (fst (NewSpan Background "parent-span" [] example.traced))))
              "child-span" [] example.spanned))
      (snd (fst (NewChildSpan Background
              (TraceHeaders (fst (fst (NewSpan Background "parent-span" [] example.traced))))
              "child-span" [] example.spanned)))
    = Some parent /\
    sc_spanID parent = vreplicate 8 x01 /\
    sc_traceID parent = vreplicate 16 x01.
Proof.
  pose proof (trace_headers_round_trip example.traced Background "parent-span" []
                _ _ _ _ eq_refl eq_refl eq_refl eq_refl) as [Hkey Hchild].
  split; [exact Hkey|].
  exact (Hchild example.spanned Background "child-span" [] _ _ eq_refl).
Defined.

(** ** The metrics instance *)

(** The walk over the fields does not touch the variable [metricsInstance]. *)
Lemma walk_fields_metricsInstance (m : Meter) (a : nat) (indices : list nat) :
  forall w r w',
    walk_fields m a indices w = (r, w') -> metricsInstance w' = metricsInstance w.
Proof.
  induction indices as [|i rest IH]; intros w r w'; cbn [walk_fields].
  - now intros [= _ <-].
  - destruct (heap w !! a) as [[fields|]|]; try now intros [= _ <-].
    destruct (fields !! i) as [field|]; try now intros [= _ <-].
    destruct (field_value field) as [k p|]; [|apply IH].
    destruct (newInstrument _ _); try now intros [= _ <-].
    destruct (field_exported field); try now intros [= _ <-].
    intros H. apply IH in H. exact H.
Qed.

(** An error of the walk is the wrapped error of an instrument. *)
Lemma walk_fields_error (m : Meter) (a : nat) (indices : list nat) :
  forall w err w',
    walk_fields m a indices w = (Err err, w') ->
    exists field cause,
      err = "failed to create metric instrument " +:+ field +:+ ": " +:+ cause.
Proof.
  induction indices as [|i rest IH]; intros w err w'; cbn [walk_fields].
  - discriminate.
  - destruct (heap w !! a) as [[fields|]|]; try discriminate.
    destruct (fields !! i) as [field|]; try discriminate.
    destruct (field_value field) as [k p|]; [|apply IH].
    unfold newInstrument, Meter_new.
    destruct (NewInstrument (env w) k (field_name field)) as [cause|].
    + intros [= <- _]. eauto.
    + destruct (field_exported field); [apply IH | discriminate].
Qed.

(** Once [initMetricFields] has a pointer that is not nil, the instance is
    stored, however the walk ends. *)
Lemma initMetricFields_stores (meter : Meter) (T : string) (a : nat) w r w' :
  initMetricFields meter (Some (T, Some a)) w = (r, w') ->
  metricsInstance w' = Some (T, Some a).
Proof.
  unfold initMetricFields.
  destruct (heap (set_metricsInstance _ w) !! a) as [[fields|]|];
    try now intros [= _ <-].
  intros H. now apply walk_fields_metricsInstance in H.
Qed.

Lemma Metrics_of_instance (T : string) (p : option nat) (w : World) :
  metricsInstance w = Some (T, p) -> Metrics T w = p.
Proof. unfold Metrics. intros ->. now rewrite String.eqb_refl. Qed.

(** C4. [Metrics[T]()] returns nil at program start and whenever no
    instance is stored, and a call of [InitMetrics] with a nil pointer stores
    none; after a successful [InitMetrics[T]] with the address of a struct
    it returns that address; and for every type [U] other than the type of
    the stored instance [Metrics[U]()] returns nil. *)
Theorem Metrics_retrieval :
  (forall e h T, Metrics T (start e h) = None) /\
  (forall w T, metricsInstance w = None -> Metrics T w = None) /\
  (forall ctx name attrs T options w r w',
      InitMetrics ctx name attrs T None options w = (r, w') ->
      metricsInstance w' = metricsInstance w) /\
  (forall ctx name attrs T a options w shutdown w',
      InitMetrics ctx name attrs T (Some a) options w = (Ok shutdown, w') ->
      Metrics T w' = Some a) /\
  (forall w T U p, metricsInstance w = Some (T, p) -> U <> T -> Metrics U w = None).
Proof.
  repeat apply conj.
  - reflexivity.
  - intros w T H. unfold Metrics. now rewrite H.
  - intros ctx name attrs T options w r w'. unfold InitMetrics.
    destruct (is_set _); [destruct (NewExporter _ _ _ _)|];
      cbn; now intros [= _ <-].
  - intros ctx name attrs T a options w shutdown w'. unfold InitMetrics.
    destruct (is_set _); [destruct (NewExporter _ _ _ _); [discriminate|]|];
      destruct (initMetricFields _ _ w) as [[u|e|msg] w1] eqn:Hinit;
      intros [= _ <-]; apply initMetricFields_stores in Hinit;
      now apply Metrics_of_instance.
  - intros w T U p H Hne. unfold Metrics. rewrite H.
    apply String.eqb_neq in Hne. rewrite String.eqb_sym. now rewrite Hne.
Qed.

Lemma Metrics_retrieval_witness :
  Metrics "AppMetrics"
    (snd (InitMetrics Background "myservice" [] "AppMetrics" (Some 1%nat) [] example.w0))
  = Some 1%nat /\
  Metrics "Sizes"
    (snd (InitMetrics Background "myservice" [] "AppMetrics" (Some 1%nat) [] example.w0))
  = None.
Proof.
  destruct Metrics_retrieval as (_ & _ & _ & Hstored & Hother).
  split.
  - apply (Hstored Background "myservice" [] "AppMetrics" 1%nat [] example.w0
             (ProviderShutdown Metering)).
    vm_compute. reflexivity.
  - apply (Hother _ "AppMetrics" "Sizes" (Some 1%nat)).
    + vm_compute. reflexivity.
    + discriminate.
Defined.

(** C1, as the specification states it, fails: the struct [Sizes] has a
    field whose name no instrument can have; [InitMetrics] returns the error
    of that field, and yet the instance, of which nothing was stored before,
    is retrievable afterwards, with the field before the failing one
    populated and the others nil. *)
Lemma InitMetrics_failure_stores_instance :
  let r := InitMetrics Background "myservice" [] "Sizes" (Some 2%nat) [] example.w0 in
  fst r = Err ("failed to create metric instrument Größe: " +:+
               "invalid instrument name: Größe: must only contain [A-Za-z0-9_.-/]") /\
  Metrics "Sizes" example.w0 = None /\
  Metrics "Sizes" (snd r) = Some 2%nat /\
  exists wrapper,
    heap (snd r) !! 2%nat =
    Some (StructObject
            [ mkField "Requests" true (WrapperPtr KInt64Counter (Some wrapper));
              mkField "Größe" true (WrapperPtr KInt64Histogram None);
              mkField "Users" true (WrapperPtr KInt64Gauge None) ]).
Proof.
  cbv zeta. repeat apply conj; try (vm_compute; reflexivity).
  eexists. vm_compute. reflexivity.
Qed.

(** C1, amended.  When [InitMetrics] returns an error, either it failed
    before the walk over the fields, building the exporter, and the world
    and the instance in it are as they were; or the creation of an
    instrument failed during the walk, and the instance was already stored:
    [Metrics[T]()] returns the address of the struct that was given. *)
Theorem InitMetrics_error_instance
    (ctx : Context) (name : string) (attrs : list attribute.Attr) (T : string)
    (p : option nat) (options : list MetricOption) (w : World) (err : error)
    (w' : World) :
  InitMetrics ctx name attrs T p options w = (Err err, w') ->
  (w' = w /\ exists useHttp insecure,
      NewExporter (env w) Metering useHttp insecure = Some err) \/
  (exists a field cause,
      p = Some a /\
      err = "failed to create metric instrument " +:+ field +:+ ": " +:+ cause /\
      metricsInstance w' = Some (T, Some a) /\
      Metrics T w' = Some a).
Proof.
  unfold InitMetrics.
  assert (Hwalk : forall options',
    match initMetricFields (mkMeter name options') (Some (T, p)) w with
    | (Err err0, w0) => (Err err0, w0)
    | (Panic msg, w0) => (Panic msg, w0)
    | (Ok _, w0) => (Ok (ProviderShutdown Metering), w0)
    end = (Err err, w') ->
    exists a field cause,
      p = Some a /\
      err = "failed to create metric instrument " +:+ field +:+ ": " +:+ cause /\
      metricsInstance w' = Some (T, Some a) /\ Metrics T w' = Some a).
  { intros options'.
    destruct (initMetricFields _ _ w) as [[u|e|msg] w1] eqn:Hinit; try discriminate.
    intros [= -> ->]. destruct p as [a|]; [|discriminate].
    pose proof (initMetricFields_stores _ _ _ _ _ _ Hinit) as Hstored.
    unfold initMetricFields in Hinit.
    destruct (heap (set_metricsInstance _ w) !! a) as [[fields|]|]; try discriminate.
    apply walk_fields_error in Hinit as (field & cause & ->).
    exists a, field, cause. repeat split; try assumption.
    now apply Metrics_of_instance. }
  destruct (is_set _).
  - destruct (NewExporter _ _ _ _) as [e|] eqn:Hexp.
    + intros [= -> ->]. left. split; eauto.
    + intros H. right. eapply Hwalk, H.
  - intros H. right. eapply Hwalk, H.
Qed.

Lemma InitMetrics_error_instance_witness :
  Metrics "Sizes"
    (snd (InitMetrics Background "myservice" [] "Sizes" (Some 2%nat) [] example.w0))
  = Some 2%nat.
Proof.
  destruct (InitMetrics_error_instance Background "myservice" [] "Sizes" (Some 2%nat) []
              example.w0
              ("failed to create metric instrument Größe: " +:+
               "invalid instrument name: Größe: must only contain [A-Za-z0-9_.-/]")
              (snd (InitMetrics Background "myservice" [] "Sizes" (Some 2%nat) []
                      example.w0)))
    as [[_ (useHttp & insecure & Hexp)] | (a & field & cause & Hp & _ & _ & Hm)].
  - vm_compute. reflexivity.
  - discriminate Hexp.
  - injection Hp as <-. exact Hm.
Defined.

(** ** Log records *)

(** What a logger writes and emits for a record. *)
Lemma Fanout_Handle_effects (hs : list Handler) (r : slog.Record_) :
  forall w,
    written (Fanout_Handle hs r w) = written w ++ lines_of hs r /\
    emitted (Fanout_Handle hs r w) = emitted w ++ bridged_of hs r.
Proof.
  induction hs as [|h hs IH]; intros w; cbn [Fanout_Handle].
  - cbn. now rewrite !app_nil_r.
  - destruct (IH (if Enabled h (slog.Level_ r) then Handle h r w else w)) as [Hw He].
    rewrite Hw, He. clear IH Hw He.
    destruct h as [wr minLevel attrs|provider]; cbn.
    + destruct (minLevel <=? slog.Level_ r); cbn;
        rewrite <- ?app_assoc; split; reflexivity.
    + rewrite <- ?app_assoc. split; reflexivity.
Qed.

(** A handler that is not enabled for any level of the record writes and
    emits nothing; the test of the logger changes nothing to the result. *)
Lemma Logger_log_effects (l : Logger) (level : slog.Level) (ctx : Context)
    (msg : string) (args : list slog.Attr) (w : World) :
  let r := slog.mkRecord level msg args in
  written (Logger_log l level ctx msg args w) = written w ++ lines_of (handlers l) r /\
  emitted (Logger_log l level ctx msg args w) = emitted w ++ bridged_of (handlers l) r.
Proof.
  cbv zeta. unfold Logger_log.
  destruct (Fanout_Enabled (handlers l) level) eqn:Hen.
  - apply Fanout_Handle_effects.
  - unfold Fanout_Enabled in Hen.
    assert (Hnone : lines_of (handlers l) (slog.mkRecord level msg args) = [] /\
                    bridged_of (handlers l) (slog.mkRecord level msg args) = []).
    { induction (handlers l) as [|h hs IH]; [split; reflexivity|].
      cbn in Hen. apply orb_false_elim in Hen as [Hh Hhs].
      destruct (IH Hhs) as [IHl IHb].
      destruct h as [wr minLevel attrs|provider]; cbn in Hh |- *.
      - rewrite Hh. split; assumption.
      - discriminate. }
    destruct Hnone as [-> ->]. now rewrite !app_nil_r.
Qed.

(** C2, as the specification states it, fails on the order: with a JSON
    handler installed, [Error] with one caller attribute writes one line
    with the error's text as message, in which the caller's attribute comes
    first and the stack trace after it. *)
Lemma Error_stack_trace_after_caller_attrs :
  let attrs := [attribute.new "error-key" "error-value" attribute.String_] in
  let w' := snd (Error Background (Some "assert.AnError general error for testing")
                   attrs example.logged) in
  exists line_attrs,
    written w' =
      [(0%nat, slog.mkRecord slog.LevelError "assert.AnError general error for testing"
                 line_attrs)] /\
    line_attrs = [slog.String_ "error-key" "error-value";
                  slog.String_ "stack_trace" "goroutine 1 [running]:"] /\
    index_of "error-key" line_attrs = Some 0%nat /\
    index_of "stack_trace" line_attrs = Some 1%nat.
Proof. cbv zeta. eexists. repeat apply conj; vm_compute; reflexivity. Qed.

Lemma lookup_last_app (key : string) (l1 l2 : list slog.Attr) :
  lookup_last key (l1 ++ l2) =
  match lookup_last key l2 with
  | Some v => Some v
  | None => lookup_last key l1
  end.
Proof.
  induction l1 as [|a l1 IH]; cbn [app lookup_last].
  - now destruct (lookup_last key l2).
  - rewrite IH. now destruct (lookup_last key l2).
Qed.

(** C2, amended.  Once [InitLogger] has installed its closures, [Error]
    with an error that is not nil returns, for every context and every
    attribute list, after handing its logger one record at the ERROR level
    whose message is the error's text and whose attributes are the
    caller's, in their order, then the attribute stack_trace, then trace_id
    when the context carries a valid span context: every enabled JSON
    handler of the logger writes that record as one line, and every bridge
    emits it.  The stack trace coming after them, no caller attribute of
    another key is overwritten: under every key but stack_trace and
    trace_id a reader finds what the caller gave. *)
Theorem Error_record
    (w : World) (slogger : Logger) (ctx : Context) (e : error)
    (attrs : list attribute.Attr) :
  Error_ w = writeErrorLog slogger ->
  let r := slog.mkRecord slog.LevelError e (error_attrs w ctx attrs) in
  (exists w',
     Error ctx (Some e) attrs w = (Ok tt, w') /\
     written w' = written w ++ lines_of (handlers slogger) r /\
     emitted w' = emitted w ++ bridged_of (handlers slogger) r) /\
  slog.Attrs r !! length attrs = Some (slog.String_ "stack_trace" (Stack (env w))) /\
  (forall i a, attrs !! i = Some a -> slog.Attrs r !! i = Some (toSlogAttr a)) /\
  (forall key, key <> "stack_trace" -> key <> "trace_id" ->
     lookup_last key (slog.Attrs r) = lookup_last key (map toSlogAttr attrs)).
Proof.
  intros Hvar r. repeat apply conj.
  - unfold Error. rewrite Hvar.
    eexists. split; [reflexivity|].
    unfold writeLog. rewrite map_app. cbn [map].
    change (toSlogAttr (attribute.new "stack_trace" (Stack (env w)) attribute.String_))
      with (slog.String_ "stack_trace" (Stack (env w))).
    subst r. unfold error_attrs.
    destruct (IsValid (SpanContextFromContext ctx));
      rewrite <- ?app_assoc, ?app_nil_r; apply Logger_log_effects.
  - subst r. cbn [slog.Attrs]. unfold error_attrs.
    rewrite lookup_app_r by (rewrite length_map; lia).
    rewrite length_map, Nat.sub_diag. reflexivity.
  - intros i a Ha. subst r. cbn [slog.Attrs]. unfold error_attrs.
    rewrite lookup_app_l by (rewrite length_map; eapply lookup_lt_Some, Ha).
    rewrite list_lookup_fmap.
    now rewrite Ha.
  - intros key Hst Hti. subst r. cbn [slog.Attrs]. unfold error_attrs.
    apply String.eqb_neq in Hst. apply String.eqb_neq in Hti.
    rewrite !lookup_last_app.
    unfold slog.String_.
    destruct (IsValid (SpanContextFromContext ctx));
      cbn [lookup_last slog.Key slog.Value_];
      rewrite ?(String.eqb_sym _ key), ?Hst, ?Hti; reflexivity.
Qed.

Lemma Error_record_witness :
  exists w',
    Error Background (Some "boom") [attribute.new "k" "v" attribute.String_] example.logged
    = (Ok tt, w') /\
    written w' =
      [(0%nat, slog.mkRecord slog.LevelError "boom"
                 [slog.String_ "k" "v";
                  slog.String_ "stack_trace" "goroutine 1 [running]:"])] /\
    emitted w' = [].
Proof.
  refine (proj1 (Error_record example.logged (mkLogger [JSONHandler 0 slog.LevelInfo []])
                   Background "boom" [attribute.new "k" "v" attribute.String_] _)).
  vm_compute. reflexivity.
Defined.

(** ** Log levels *)

Lemma split_sign_spec (s : string) :
  match slog.split_sign s with
  | (name, None) => s = name /\ has_sign s = false
  | (name, Some text) =>
      s = name +:+ text /\ has_sign name = false /\
      exists sign ds, text = String sign ds /\ is_sign sign = true
  end.
Proof.
  induction s as [|c s IH]; cbn [slog.split_sign].
  - split; reflexivity.
  - fold (is_sign c). destruct (is_sign c) eqn:Hc.
    + rewrite append_nil. repeat split. eauto.
    + destruct (slog.split_sign s) as [name [text|]]; cbn [has_sign]; rewrite Hc.
      * destruct IH as (-> & Hname & Htext). rewrite append_cons. repeat split; assumption.
      * destruct IH as (-> & Hname). split; [reflexivity | assumption].
Qed.

Lemma split_sign_name (name : string) :
  has_sign name = false -> slog.split_sign name = (name, None).
Proof.
  induction name as [|c name IH]; cbn [has_sign slog.split_sign]; [reflexivity|].
  fold (is_sign c). intros H. apply orb_false_elim in H as [-> H].
  now rewrite (IH H).
Qed.

Lemma split_sign_offset (name : string) (sign : ascii) (ds : string) :
  has_sign name = false -> is_sign sign = true ->
  slog.split_sign (name +:+ String sign ds) = (name, Some (String sign ds)).
Proof.
  intros Hname Hsign. induction name as [|c name IH].
  - rewrite append_nil. cbn [slog.split_sign]. fold (is_sign sign). now rewrite Hsign.
  - rewrite append_cons. cbn [slog.split_sign has_sign] in *. fold (is_sign c) in *.
    apply orb_false_elim in Hname as [-> Hname]. now rewrite (IH Hname).
Qed.

Lemma add_int_zero (base : slog.Level) :
  forall NAME, level_of_name NAME = Some base -> slog.add_int base 0 = base.
Proof.
  intros NAME. unfold level_of_name.
  repeat (destruct (String.eqb NAME _); [intros [= <-]; reflexivity|]).
  discriminate.
Qed.

(** The parser in terms of the level of a name. *)
Lemma parse_unfold (s : string) :
  slog.parse s =
  let '(name, offset) := slog.split_sign s in
  let by_name (offset : Z) :=
    match level_of_name (slog.ToUpper name) with
    | Some base => Ok (slog.add_int base offset)
    | None => Err ("slog: level string " +:+ s +:+ ": unknown name")
    end in
  match offset with
  | None => by_name 0
  | Some text =>
      match slog.Atoi text with
      | Ok offset => by_name offset
      | Err cause => Err ("slog: level string " +:+ s +:+ ": " +:+ cause)
      | Panic msg => Panic msg
      end
  end.
Proof.
  unfold slog.parse, level_of_name.
  destruct (slog.split_sign s) as [name [text|]].
  - destruct (slog.Atoi text); try reflexivity.
    repeat (destruct (String.eqb (slog.ToUpper name) _); [reflexivity|]). reflexivity.
  - repeat (destruct (String.eqb (slog.ToUpper name) _); [reflexivity|]). reflexivity.
Qed.

Lemma magnitude_no_panic (s : string) (negative : bool) (ds msg : string) :
  slog.magnitude s negative ds <> Panic msg.
Proof.
  unfold slog.magnitude. destruct ds as [|c ds]; [discriminate|].
  destruct (slog.digits 0 (String c ds)); [|discriminate].
  destruct (_ && _); discriminate.
Qed.

Lemma Atoi_no_panic (s : string) (msg : string) : slog.Atoi s <> Panic msg.
Proof.
  unfold slog.Atoi. destruct s as [|c ds]; [discriminate|].
  destruct (Ascii.eqb c "+"); [apply magnitude_no_panic|].
  destruct (Ascii.eqb c "-"); apply magnitude_no_panic.
Qed.

(** The parser accepts exactly the level texts, with their levels. *)
Lemma parse_level_text (s : string) (level : slog.Level) :
  slog.parse s = Ok level <-> level_text s level.
Proof.
  rewrite parse_unfold. split.
  - pose proof (split_sign_spec s) as Hspec.
    destruct (slog.split_sign s) as [name [text|]].
    + destruct Hspec as (-> & Hname & sign & ds & -> & Hsign).
      destruct (slog.Atoi (String sign ds)) as [offset|cause|msg] eqn:Hatoi;
        try discriminate.
      destruct (level_of_name (slog.ToUpper name)) as [base|] eqn:Hbase;
        try discriminate.
      intros [= <-]. now apply level_with_offset.
    + destruct Hspec as (-> & Hname).
      destruct (level_of_name (slog.ToUpper name)) as [base|] eqn:Hbase;
        try discriminate.
      intros [= <-]. rewrite (add_int_zero base _ Hbase). now apply level_by_name.
  - intros [name base Hname Hbase | name sign ds base offset Hname Hbase Hsign Hatoi].
    + rewrite (split_sign_name name Hname), Hbase. cbv beta zeta.
      now rewrite (add_int_zero base _ Hbase).
    + rewrite (split_sign_offset name sign ds Hname Hsign), Hatoi, Hbase. reflexivity.
Qed.

Lemma parse_no_panic (s : string) (msg : string) : slog.parse s <> Panic msg.
Proof.
  rewrite parse_unfold.
  destruct (slog.split_sign s) as [name [text|]].
  - pose proof (Atoi_no_panic text) as Hno.
    destruct (slog.Atoi text); [| discriminate | now destruct (Hno msg0)].
    destruct (level_of_name _); discriminate.
  - destruct (level_of_name _); discriminate.
Qed.

Lemma lines_of_disabled (wr : nat) (level : slog.Level) (attrs : list slog.Attr)
    (hs1 hs2 : list Handler) (r : slog.Record_) :
  slog.Level_ r < level ->
  lines_of (hs1 ++ JSONHandler wr level attrs :: hs2) r = lines_of (hs1 ++ hs2) r.
Proof.
  intros Hlt. unfold lines_of. rewrite !omap_app. f_equal. cbn [omap list_omap].
  destruct (level <=? slog.Level_ r) eqn:Hle; [|reflexivity].
  apply Z.leb_le in Hle. lia.
Qed.

(** C9, as the specification states it, fails on the match: the level
    parser ignores the case of the name and accepts a signed offset after
    it, so that [NewJSONHandler] returns a handler for strings that are none
    of DEBUG, INFO, WARN and ERROR. *)
Lemma NewJSONHandler_ignores_case :
  NewJSONHandler 0 [] "info" = Ok (JSONHandler 0 slog.LevelInfo []) /\
  NewJSONHandler 0 [] "Error+4" = Ok (JSONHandler 0 12 []) /\
  ~ In "info" ["DEBUG"; "INFO"; "WARN"; "ERROR"] /\
  ~ In "Error+4" ["DEBUG"; "INFO"; "WARN"; "ERROR"].
Proof.
  repeat apply conj; try (vm_compute; reflexivity);
    cbn; intros H; repeat destruct H as [H|H]; try discriminate H; exact H.
Qed.

(** C9, amended.  [NewJSONHandler] hands the level string to the level
    parser, which accepts one of the names DEBUG, INFO, WARN and ERROR in any
    letter case, alone or followed by a signed decimal offset, and it
    returns an error for every other string.  The handler it returns for a
    level is never reached by a record below that level: a logger on this
    handler alone changes nothing for such a record, in a fan-out the
    handler adds nothing to what is written, and a record at or above the
    level is written as exactly one line. *)
Theorem NewJSONHandler_level_text
    (wr : nat) (resourceAttrs : list attribute.Attr) (logLevel : string) :
  match NewJSONHandler wr resourceAttrs logLevel with
  | Ok h =>
      exists level,
        level_text logLevel level /\
        h = JSONHandler wr level (map toSlogAttr resourceAttrs) /\
        forall (lvl : slog.Level) (ctx : Context) (msg : string)
               (args : list slog.Attr) (w : World),
          (lvl < level ->
             Logger_log (mkLogger [h]) lvl ctx msg args w = w /\
             forall hs1 hs2,
               written (Logger_log (mkLogger (hs1 ++ h :: hs2)) lvl ctx msg args w)
               = written (Logger_log (mkLogger (hs1 ++ hs2)) lvl ctx msg args w)) /\
          (level <= lvl ->
             written (Logger_log (mkLogger [h]) lvl ctx msg args w)
             = written w ++
               [(wr, slog.mkRecord lvl msg (map toSlogAttr resourceAttrs ++ args))])
  | Err _ => forall level, ~ level_text logLevel level
  | Panic _ => False
  end.
Proof.
  unfold NewJSONHandler, slog.UnmarshalText.
  change (map _ resourceAttrs) with (map toSlogAttr resourceAttrs).
  destruct (slog.parse logLevel) as [level|cause|msg] eqn:Hparse.
  - exists level. split; [now apply parse_level_text|]. split; [reflexivity|].
    intros lvl ctx msg args w. split.
    + intros Hlt. split.
      * unfold Logger_log, Fanout_Enabled. cbn.
        destruct (level <=? lvl) eqn:Hle; [apply Z.leb_le in Hle; lia | reflexivity].
      * intros hs1 hs2.
        destruct (Logger_log_effects (mkLogger (hs1 ++ JSONHandler wr level
                     (map toSlogAttr resourceAttrs) :: hs2)) lvl ctx msg args w) as [-> _].
        destruct (Logger_log_effects (mkLogger (hs1 ++ hs2)) lvl ctx msg args w)
          as [-> _].
        cbn [handlers]. now rewrite lines_of_disabled.
    + intros Hle.
      destruct (Logger_log_effects (mkLogger [JSONHandler wr level
                   (map toSlogAttr resourceAttrs)]) lvl ctx msg args w) as [-> _].
      cbn. apply Z.leb_le in Hle. now rewrite Hle.
  - intros level Htext. apply parse_level_text in Htext. congruence.
  - now apply parse_no_panic in Hparse.
Qed.

Lemma NewJSONHandler_level_text_witness :
  level_text "warn" slog.LevelWarn /\
  Logger_log (mkLogger [JSONHandler 0 slog.LevelWarn []]) slog.LevelInfo Background
    "info message" [] example.w0 = example.w0 /\
  written (Logger_log (mkLogger [JSONHandler 0 slog.LevelWarn []]) slog.LevelError
             Background "failed" [] example.w0)
  = [(0%nat, slog.mkRecord slog.LevelError "failed" [])].
Proof.
  pose proof (NewJSONHandler_level_text 0 [] "warn") as H.
  change (NewJSONHandler 0 [] "warn") with (Ok (JSONHandler 0 slog.LevelWarn [])) in H.
  cbv beta iota in H. destruct H as (level & Htext & Hh & Hfilter).
  injection Hh as <-. split; [exact Htext|]. split.
  - apply (Hfilter slog.LevelInfo Background "info message" [] example.w0).
    unfold slog.LevelInfo, slog.LevelWarn. lia.
  - apply (Hfilter slog.LevelError Background "failed" [] example.w0).
    unfold slog.LevelError, slog.LevelWarn. lia.
Defined.

(** ** The unified initialiser *)

Lemma TracerProvider_Shutdown_shutdowns (p : TracerProvider) (w : World) :
  shutdowns (snd (TracerProvider_Shutdown p w)) = shutdowns w ++ [Tracing].
Proof.
  unfold TracerProvider_Shutdown.
  destruct (isShutdown w !! tp_id p) as [[|]|]; reflexivity.
Qed.

Lemma InitTracing_result ctx serviceName resourceAttrs options w r w' :
  InitTracing ctx serviceName resourceAttrs options w = (r, w') ->
  (exists err, r = Err err /\ w' = w) \/
  (exists provider,
     r = Ok (TracerProvider_Shutdown provider) /\ shutdowns w' = shutdowns w).
Proof.
  unfold InitTracing.
  destruct (is_set _); [destruct (NewExporter _ _ _ _)|]; intros [= <- <-]; eauto.
Qed.

Lemma walk_fields_shutdowns (m : Meter) (a : nat) (indices : list nat) :
  forall w r w',
    walk_fields m a indices w = (r, w') -> shutdowns w' = shutdowns w.
Proof.
  induction indices as [|i rest IH]; intros w r w'; cbn [walk_fields].
  - now intros [= _ <-].
  - destruct (heap w !! a) as [[fields|]|]; try now intros [= _ <-].
    destruct (fields !! i) as [field|]; try now intros [= _ <-].
    destruct (field_value field) as [k p|]; [|apply IH].
    destruct (newInstrument _ _); try now intros [= _ <-].
    destruct (field_exported field); try now intros [= _ <-].
    intros H. apply IH in H. exact H.
Qed.

Lemma initMetricFields_shutdowns meter m w r w' :
  initMetricFields meter m w = (r, w') -> shutdowns w' = shutdowns w.
Proof.
  unfold initMetricFields. destruct m as [[T [a|]]|]; try now intros [= _ <-].
  destruct (heap (set_metricsInstance _ w) !! a) as [[fields|]|];
    try now intros [= _ <-].
  intros H. now apply walk_fields_shutdowns in H.
Qed.

Lemma InitMetrics_result ctx serviceName resourceAttrs T p options w r w' :
  InitMetrics ctx serviceName resourceAttrs T p options w = (r, w') ->
  shutdowns w' = shutdowns w /\
  forall shutdown, r = Ok shutdown -> shutdown = ProviderShutdown Metering.
Proof.
  unfold InitMetrics.
  assert (Hfinish : forall options',
    match initMetricFields (mkMeter serviceName options') (Some (T, p)) w with
    | (Err err0, w0) => (Err err0, w0)
    | (Panic msg, w0) => (Panic msg, w0)
    | (Ok _, w0) => (Ok (ProviderShutdown Metering), w0)
    end = (r, w') ->
    shutdowns w' = shutdowns w /\
    forall shutdown, r = Ok shutdown -> shutdown = ProviderShutdown Metering).
  { intros options'.
    destruct (initMetricFields _ _ w) as [[u|e|msg] w1] eqn:Hinit;
      apply initMetricFields_shutdowns in Hinit;
      intros [= <- <-]; (split; [exact Hinit | intros shutdown; congruence]). }
  destruct (is_set _); [destruct (NewExporter _ _ _ _)|]; try apply Hfinish.
  intros [= <- <-]. split; [reflexivity | discriminate].
Qed.

Lemma InitLogger_result ctx resourceAttrs hs w r w' :
  InitLogger ctx resourceAttrs hs w = (r, w') ->
  (exists err, r = Err err /\ w' = w) \/
  (shutdowns w' = shutdowns w /\
   exists shutdown, r = Ok shutdown /\
     forall w0, shutdown w0 =
       if is_set (Getenv (env w) OTEL_EXPORTER_OTLP_ENDPOINT)
       then ProviderShutdown Logging w0 else (None, w0)).
Proof.
  unfold InitLogger, grpcLogHandler.
  destruct (is_set _); [destruct (NewExporter _ _ _ _)|]; intros [= <- <-]; eauto.
Qed.

(** C8. [Init] runs tracing, then metrics, then logging.  When a step
    fails, [Init] returns the error of that step and no teardown, after
    having run the teardown of each step that had succeeded, whatever that
    teardown returned: none when tracing fails, that of tracing when metrics
    fail, those of metrics and then tracing when logging fails.  When all
    succeed, the teardown [Init] returns runs the teardown of the logger,
    then that of metrics, then that of tracing, each one whatever the
    earlier ones returned, and returns the first error among theirs. *)
Theorem Init_sequence_and_teardown
    (ctx : Context) (serviceName : string) (resourceAttrs : list attribute.Attr)
    (T : string) (metricsStruct : option nat) (logHandler : option Handler)
    (w : World) :
  let run := Init ctx serviceName resourceAttrs T metricsStruct logHandler w in
  match InitTracing ctx serviceName resourceAttrs [] w with
  | (Panic _, _) => False
  | (Err err, w1) => run = (Err err, w1) /\ shutdowns w1 = shutdowns w
  | (Ok shutdownTracing, w1) =>
      match InitMetrics ctx serviceName resourceAttrs T metricsStruct [] w1 with
      | (Panic msg, w2) => run = (Panic msg, w2)
      | (Err err, w2) =>
          run = (Err err, snd (shutdownTracing w2)) /\
          shutdowns (snd (shutdownTracing w2)) = shutdowns w ++ [Tracing]
      | (Ok shutdownMetrics, w2) =>
          match InitLogger ctx resourceAttrs (option_list logHandler) w2 with
          | (Panic _, _) => False
          | (Err err, w3) =>
              let after := snd (shutdownTracing (snd (shutdownMetrics w3))) in
              run = (Err err, after) /\
              shutdowns after = shutdowns w ++ [Metering; Tracing]
          | (Ok shutdownLogger, w3) =>
              shutdowns w3 = shutdowns w /\
              exists shutdown,
                run = (Ok shutdown, w3) /\
                forall w',
                  let '(errLogger, wl) := shutdownLogger w' in
                  let '(errMetrics, wm) := shutdownMetrics wl in
                  let '(errTracing, wt) := shutdownTracing wm in
                  shutdown w' = (first_error errLogger errMetrics errTracing, wt) /\
                  shutdowns wt =
                    shutdowns w'
                    ++ (if is_set (Getenv (env w2) OTEL_EXPORTER_OTLP_ENDPOINT)
                        then [Logging] else [])
                    ++ [Metering; Tracing]
          end
      end
  end.
Proof.
  cbv zeta. unfold Init.
  destruct (InitTracing ctx serviceName resourceAttrs [] w) as [r1 w1] eqn:H1.
  apply InitTracing_result in H1 as [(err & -> & ->) | (provider & -> & Hs1)].
  { split; reflexivity. }
  destruct (InitMetrics ctx serviceName resourceAttrs T metricsStruct [] w1)
    as [r2 w2] eqn:H2.
  apply InitMetrics_result in H2 as [Hs2 Hsd2].
  destruct r2 as [shutdownMetrics|err|msg].
  2:{ pose proof (TracerProvider_Shutdown_shutdowns provider w2) as Hst.
      destruct (TracerProvider_Shutdown provider w2) as [errTracing wt].
      cbn in Hst |- *. split; [reflexivity|]. now rewrite Hst, Hs2, Hs1. }
  2:{ reflexivity. }
  rewrite (Hsd2 _ eq_refl). clear Hsd2.
  assert (Hlog : match logHandler with
                 | Some h => InitLogger ctx resourceAttrs [h] w2
                 | None => InitLogger ctx resourceAttrs [] w2
                 end = InitLogger ctx resourceAttrs (option_list logHandler) w2)
    by now destruct logHandler.
  rewrite Hlog. clear Hlog.
  destruct (InitLogger ctx resourceAttrs (option_list logHandler) w2)
    as [r3 w3] eqn:H3.
  apply InitLogger_result in H3
    as [(err & -> & ->) | (Hs3 & shutdownLogger & -> & Hsd3)].
  { cbn.
    match goal with
    | |- context [TracerProvider_Shutdown provider ?wm] =>
        pose proof (TracerProvider_Shutdown_shutdowns provider wm) as Hst;
        destruct (TracerProvider_Shutdown provider wm) as [errTracing wt]
    end.
    cbn in Hst |- *. split; [reflexivity|]. rewrite Hst, Hs2, Hs1.
    now rewrite <- app_assoc. }
  split; [congruence|].
  eexists. split; [reflexivity|].
  intros w'. unfold shutdown_all. rewrite (Hsd3 w').
  destruct (is_set (Getenv (env w2) OTEL_EXPORTER_OTLP_ENDPOINT)); cbn;
    match goal with
    | |- context [TracerProvider_Shutdown provider ?wm] =>
        pose proof (TracerProvider_Shutdown_shutdowns provider wm) as Hst;
        destruct (TracerProvider_Shutdown provider wm) as [errTracing wt]
    end; cbn in Hst; rewrite Hst.
  - split.
    + destruct (Shutdown (env w') Logging), (Shutdown (env w') Metering),
        errTracing; reflexivity.
    + now rewrite <- !app_assoc.
  - split.
    + destruct (Shutdown (env w') Metering), errTracing; reflexivity.
    + now rewrite <- !app_assoc.
Qed.

(** * Further properties *)

(** ** The walk over the fields of the metrics struct *)

Lemma set_heap_same (w : World) : set_heap (heap w) w = w.
Proof. destruct w; reflexivity. Qed.

Lemma populate_length (e : Env) (m : Meter) (fields : list Field) :
  length (fst (populate e m fields)) = length fields.
Proof.
  induction fields as [|f rest IH]; cbn [populate]; [reflexivity|].
  destruct (field_value f) as [k p|].
  - destruct (newInstrument _ _); try reflexivity.
    destruct (field_exported f); [|reflexivity].
    destruct (populate e m rest). cbn in *. now rewrite IH.
  - destruct (populate e m rest). cbn in *. now rewrite IH.
Qed.

(** The walk in place over the fields not yet visited does to the struct
    what [populate] does to those fields, ends as it ends, and changes
    nothing else in the world. *)
Lemma walk_fields_populate (m : Meter) (a : nat) (rest : list Field) :
  forall (visited : list Field) (w : World),
    heap w !! a = Some (StructObject (visited ++ rest)) ->
    walk_fields m a (seq (length visited) (length rest)) w =
    (snd (populate (env w) m rest),
     set_heap
       (<[a := StructObject (visited ++ fst (populate (env w) m rest))]> (heap w)) w).
Proof.
  induction rest as [|f rest IH]; intros visited w Hheap.
  - cbn. rewrite insert_id by exact Hheap. now rewrite set_heap_same.
  - cbn [length seq walk_fields populate]. rewrite Hheap.
    rewrite list_lookup_middle by reflexivity.
    assert (Hsame : set_heap (<[a := StructObject (visited ++ f :: rest)]> (heap w)) w = w).
    { rewrite insert_id by exact Hheap. apply set_heap_same. }
    destruct (field_value f) as [k p|] eqn:Hvalue.
    + destruct (newInstrument (field_name f) (Meter_new (env w) m k))
        as [inst|err|msg]; cbn [fst snd]; try now rewrite Hsame.
      destruct (field_exported f); cbn [fst snd]; [|now rewrite Hsame].
      set (f' := mkField (field_name f) true (WrapperPtr k (Some (wrapper_of k inst m)))).
      set (w1 := set_heap _ w).
      assert (Hheap1 : heap w1 !! a = Some (StructObject ((visited ++ [f']) ++ rest))).
      { subst w1. cbn. rewrite lookup_insert_eq. f_equal. f_equal.
        rewrite <- app_assoc. cbn.
        rewrite insert_app_r_alt by lia. now rewrite Nat.sub_diag. }
      specialize (IH (visited ++ [f']) w1 Hheap1).
      rewrite length_app in IH. cbn [length] in IH. rewrite Nat.add_1_r in IH.
      rewrite IH. change (env w1) with (env w).
      destruct (populate (env w) m rest) as [rest' r]. cbn [fst snd].
      subst w1. cbn. rewrite insert_insert_eq. now rewrite <- app_assoc.
    + assert (Hheap1 : heap w !! a = Some (StructObject ((visited ++ [f]) ++ rest)))
        by now rewrite <- app_assoc.
      specialize (IH (visited ++ [f]) w Hheap1).
      rewrite length_app in IH. cbn [length] in IH. rewrite Nat.add_1_r in IH.
      rewrite IH.
      destruct (populate (env w) m rest) as [rest' r]. cbn [fst snd].
      now rewrite <- app_assoc.
Qed.

Lemma populate_ok (e : Env) (m : Meter) (fields : list Field) :
  snd (populate e m fields) = Ok tt ->
  Forall2 (populated m) fields (fst (populate e m fields)).
Proof.
  induction fields as [|f rest IH]; cbn [populate]; [constructor|].
  unfold newInstrument, Meter_new.
  destruct (field_value f) as [k p|] eqn:Hvalue.
  - destruct (NewInstrument e k (field_name f)); [discriminate|].
    destruct (field_exported f); [|discriminate].
    destruct (populate e m rest) as [rest' r]. cbn [fst snd] in *.
    intros Hr. constructor; [|now apply IH].
    split; [reflexivity|]. now rewrite Hvalue.
  - destruct (populate e m rest) as [rest' r]. cbn [fst snd] in *.
    intros Hr. constructor; [|now apply IH].
    split; [reflexivity|]. now rewrite Hvalue.
Qed.

Lemma populate_error (e : Env) (m : Meter) (fields : list Field) (err : error) :
  snd (populate e m fields) = Err err ->
  exists visited visited' f rest k p cause,
    fields = visited ++ f :: rest /\
    fst (populate e m fields) = visited' ++ f :: rest /\
    Forall2 (populated m) visited visited' /\
    field_value f = WrapperPtr k p /\
    NewInstrument e k (field_name f) = Some cause /\
    err = "failed to create metric instrument " +:+ field_name f +:+ ": " +:+ cause.
Proof.
  induction fields as [|f rest IH]; cbn [populate]; [discriminate|].
  unfold newInstrument, Meter_new.
  destruct (field_value f) as [k p|] eqn:Hvalue.
  - destruct (NewInstrument e k (field_name f)) as [cause|] eqn:Hnew.
    + intros [= <-]. exists [], [], f, rest, k, p, cause.
      repeat split; try assumption; constructor.
    + destruct (field_exported f); [|discriminate].
      destruct (populate e m rest) as [rest' r]. cbn [fst snd] in *.
      intros Hr.
      destruct (IH Hr) as (v & v' & f0 & rest0 & k0 & p0 & cause & -> & -> & Hv & H).
      eexists (f :: v), (_ :: v'), f0, rest0, k0, p0, cause.
      repeat split; try apply H.
      constructor; [|exact Hv]. split; [reflexivity|]. now rewrite Hvalue.
  - destruct (populate e m rest) as [rest' r]. cbn [fst snd] in *.
    intros Hr.
    destruct (IH Hr) as (v & v' & f0 & rest0 & k0 & p0 & cause & -> & -> & Hv & H).
    exists (f :: v), (f :: v'), f0, rest0, k0, p0, cause.
    repeat split; try apply H.
    constructor; [|exact Hv]. split; [reflexivity|]. now rewrite Hvalue.
Qed.

(** [InitMetrics] on the address of a struct, in terms of [populate]. *)
Lemma InitMetrics_populate ctx serviceName resourceAttrs T a options w fields :
  heap w !! a = Some (StructObject fields) ->
  InitMetrics ctx serviceName resourceAttrs T (Some a) options w =
  match exporter_failure Metering w with
  | Some err => (Err err, w)
  | None =>
      let m := meter_of w serviceName resourceAttrs options in
      (match snd (populate (env w) m fields) with
       | Ok _ => Ok (ProviderShutdown Metering)
       | Err err => Err err
       | Panic msg => Panic msg
       end,
       set_heap (<[a := StructObject (fst (populate (env w) m fields))]> (heap w))
         (set_metricsInstance (Some (T, Some a)) w))
  end.
Proof.
  intros Hheap. unfold InitMetrics, exporter_failure, meter_of, initMetricFields.
  assert (Hwalk : forall m,
    walk_fields m a (seq 0 (length fields)) (set_metricsInstance (Some (T, Some a)) w)
    = (snd (populate (env w) m fields),
       set_heap (<[a := StructObject (fst (populate (env w) m fields))]> (heap w))
         (set_metricsInstance (Some (T, Some a)) w))).
  { intros m.
    apply (walk_fields_populate m a fields [] (set_metricsInstance (Some (T, Some a)) w)).
    exact Hheap. }
  change (heap (set_metricsInstance (Some (T, Some a)) w)) with (heap w).
  rewrite Hheap.
  destruct (is_set _); [destruct (NewExporter _ _ _ _); [reflexivity|]|];
    rewrite Hwalk; now destruct (snd (populate _ _ fields)).
Qed.

(** X1. After a successful [InitMetrics] on the address of a struct, every
    field of the struct that is a pointer to a wrapper holds the wrapper of
    an instrument of its kind, named after the field, on the meter of the
    call; every other field, and every other object, is as it was, and no
    data point was recorded. *)
Theorem InitMetrics_populates_struct
    (ctx : Context) (serviceName : string) (resourceAttrs : list attribute.Attr)
    (T : string) (a : nat) (options : list MetricOption) (w : World)
    (fields : list Field) (shutdown : Teardown) (w' : World) :
  heap w !! a = Some (StructObject fields) ->
  InitMetrics ctx serviceName resourceAttrs T (Some a) options w = (Ok shutdown, w') ->
  exists fields',
    heap w' !! a = Some (StructObject fields') /\
    Forall2 (populated (meter_of w serviceName resourceAttrs options)) fields fields' /\
    (forall b, b <> a -> heap w' !! b = heap w !! b) /\
    datapoints w' = datapoints w.
Proof.
  intros Hheap. rewrite (InitMetrics_populate _ _ _ _ _ _ _ _ Hheap).
  destruct (exporter_failure Metering w); [discriminate|]. cbv zeta.
  destruct (snd (populate _ _ fields)) as [[]|err|msg] eqn:Hend; try discriminate.
  intros [= _ <-]. eexists. cbn. rewrite lookup_insert_eq.
  split; [reflexivity|]. split; [now apply populate_ok|]. split; [|reflexivity].
  intros b Hb. now rewrite lookup_insert_ne.
Qed.

Lemma InitMetrics_populates_struct_witness :
  exists fields',
    heap (snd (InitMetrics Background "myservice" [] "AppMetrics" (Some 1%nat) []
                 example.w0)) !! 1%nat
    = Some (StructObject fields') /\
    Forall2 (populated (meter_of example.w0 "myservice" [] []))
      [ mkField "RequestCount" true (WrapperPtr KInt64Counter None);
        mkField "ActiveUsers" true (WrapperPtr KInt64Gauge None) ] fields' /\
    (forall b, b <> 1%nat ->
       heap (snd (InitMetrics Background "myservice" [] "AppMetrics" (Some 1%nat) []
                    example.w0)) !! b
       = heap example.w0 !! b) /\
    datapoints (snd (InitMetrics Background "myservice" [] "AppMetrics" (Some 1%nat) []
                       example.w0))
    = datapoints example.w0.
Proof.
  apply (InitMetrics_populates_struct Background "myservice" [] "AppMetrics" 1%nat []
           example.w0 _ (ProviderShutdown Metering)).
  - vm_compute. reflexivity.
  - vm_compute. reflexivity.
Defined.

(** X2. When the creation of an instrument fails during the walk, the
    fields before the failing one are populated as by a successful walk, and
    the failing field and all the fields after it are left as they were; the
    error names the failing field and wraps the meter's error. *)
Theorem InitMetrics_partial_population
    (ctx : Context) (serviceName : string) (resourceAttrs : list attribute.Attr)
    (T : string) (a : nat) (options : list MetricOption) (w : World)
    (fields : list Field) (err : error) (w' : World) :
  heap w !! a = Some (StructObject fields) ->
  exporter_failure Metering w = None ->
  InitMetrics ctx serviceName resourceAttrs T (Some a) options w = (Err err, w') ->
  exists visited visited' f rest k p cause,
    fields = visited ++ f :: rest /\
    heap w' !! a = Some (StructObject (visited' ++ f :: rest)) /\
    Forall2 (populated (meter_of w serviceName resourceAttrs options)) visited visited' /\
    field_value f = WrapperPtr k p /\
    NewInstrument (env w) k (field_name f) = Some cause /\
    err = "failed to create metric instrument " +:+ field_name f +:+ ": " +:+ cause.
Proof.
  intros Hheap Hexp. rewrite (InitMetrics_populate _ _ _ _ _ _ _ _ Hheap), Hexp.
  cbv zeta.
  destruct (snd (populate _ _ fields)) as [[]|err0|msg] eqn:Hend; try discriminate.
  intros [= -> <-].
  destruct (populate_error _ _ _ _ Hend)
    as (v & v' & f & rest & k & p & cause & Hf & Hp & Hv & H).
  exists v, v', f, rest, k, p, cause. split; [exact Hf|]. split; [|now split].
  cbn. rewrite lookup_insert_eq. now rewrite Hp.
Qed.

Lemma InitMetrics_partial_population_witness :
  exists visited visited' f rest k p cause,
    [ mkField "Requests" true (WrapperPtr KInt64Counter None);
      mkField "Größe" true (WrapperPtr KInt64Histogram None);
      mkField "Users" true (WrapperPtr KInt64Gauge None) ] = visited ++ f :: rest /\
    heap (snd (InitMetrics Background "myservice" [] "Sizes" (Some 2%nat) []
                 example.w0)) !! 2%nat
    = Some (StructObject (visited' ++ f :: rest)) /\
    Forall2 (populated (meter_of example.w0 "myservice" [] [])) visited visited' /\
    field_value f = WrapperPtr k p /\
    NewInstrument (env example.w0) k (field_name f) = Some cause /\
    fst (InitMetrics Background "myservice" [] "Sizes" (Some 2%nat) [] example.w0)
    = Err ("failed to create metric instrument " +:+ field_name f +:+ ": " +:+ cause).
Proof.
  destruct (InitMetrics_partial_population Background "myservice" [] "Sizes" 2%nat []
              example.w0
              [ mkField "Requests" true (WrapperPtr KInt64Counter None);
                mkField "Größe" true (WrapperPtr KInt64Histogram None);
                mkField "Users" true (WrapperPtr KInt64Gauge None) ]
              ("failed to create metric instrument Größe: " +:+
               "invalid instrument name: Größe: must only contain [A-Za-z0-9_.-/]")
              (snd (InitMetrics Background "myservice" [] "Sizes" (Some 2%nat) []
                      example.w0)))
    as (v & v' & f & rest & k & p & cause & Hf & Hh & Hv & Hk & Hn & He).
  - vm_compute. reflexivity.
  - vm_compute. reflexivity.
  - vm_compute. reflexivity.
  - exists v, v', f, rest, k, p, cause. repeat split; try assumption.
    rewrite <- He. vm_compute. reflexivity.
Defined.

(** X3. [InitMetrics] with a nil pointer walks nothing: it returns the
    teardown of the meter provider, or the error of the exporter when the
    exporter cannot be built, and in both cases leaves the world as it was;
    it never panics. *)
Theorem InitMetrics_nil_pointer
    (ctx : Context) (serviceName : string) (resourceAttrs : list attribute.Attr)
    (T : string) (options : list MetricOption) (w : World) :
  InitMetrics ctx serviceName resourceAttrs T None options w =
  (match exporter_failure Metering w with
   | Some err => Err err
   | None => Ok (ProviderShutdown Metering)
   end, w).
Proof.
  unfold InitMetrics, exporter_failure.
  destruct (is_set _); [destruct (NewExporter _ _ _ _)|]; reflexivity.
Qed.

(** X4. The wrappers a successful [InitMetrics] stores can be used: a
    measurement through the wrapper of a field returns without panic and
    records exactly one data point, on the instrument named after the field,
    with the value and the attribute set given; and for a field of an
    observable kind [RegisterCallback] returns a registration of the
    callback for that instrument. *)
Theorem wrappers_usable_after_InitMetrics
    (ctx : Context) (serviceName : string) (resourceAttrs : list attribute.Attr)
    (T : string) (a : nat) (options : list MetricOption) (w : World)
    (fields : list Field) (shutdown : Teardown) (w' : World)
    (i : nat) (f : Field) (k : Kind) (p : option Wrapper) :
  heap w !! a = Some (StructObject fields) ->
  InitMetrics ctx serviceName resourceAttrs T (Some a) options w = (Ok shutdown, w') ->
  fields !! i = Some f ->
  field_value f = WrapperPtr k p ->
  let m := meter_of w serviceName resourceAttrs options in
  let inst := mkInstrument k (field_name f) m in
  exists fields' f' c,
    heap w' !! a = Some (StructObject fields') /\
    fields' !! i = Some f' /\
    field_value f' = WrapperPtr k (Some c) /\
    (forall (v : Number) (attrs : list attribute.Attr) (w2 : World),
       sync_method (Some c) v attrs w2 =
       (Ok tt,
        set_datapoints
          (datapoints w2 ++ [mkDataPoint (OnInstrument inst) v (newAttributeSet attrs)])
          w2)) /\
    (observable k = true ->
     forall (callback : nat) (w2 : World),
       register_method (Some c) callback w2 =
       (Ok (Some (mkRegistration m callback inst)),
        set_registrations (registrations w2 ++ [mkRegistration m callback inst]) w2)).
Proof.
  intros Hheap Hinit Hi Hvalue m inst.
  rewrite (InitMetrics_populate _ _ _ _ _ _ _ _ Hheap) in Hinit.
  destruct (exporter_failure Metering w); [discriminate|]. cbv zeta in Hinit.
  destruct (snd (populate _ _ fields)) as [[]|err|msg] eqn:Hend; try discriminate.
  injection Hinit as _ <-.
  apply populate_ok in Hend.
  destruct (Forall2_lookup_l _ _ _ _ _ Hend Hi) as (f' & Hi' & _ & Hpop).
  rewrite Hvalue in Hpop.
  eexists _, f', _. cbn. rewrite lookup_insert_eq.
  split; [reflexivity|]. split; [exact Hi'|]. split; [exact Hpop|]. split.
  - reflexivity.
  - intros Hobs callback w2. unfold register_method, wrapper_of. cbn.
    rewrite Hobs. reflexivity.
Qed.

Lemma wrappers_usable_after_InitMetrics_witness :
  let w' := snd (InitMetrics Background "myservice" [] "AppMetrics" (Some 1%nat) []
                   example.w0) in
  exists fields' f' c,
    heap w' !! 1%nat = Some (StructObject fields') /\
    fields' !! 0%nat = Some f' /\
    field_value f' = WrapperPtr KInt64Counter (Some c) /\
    datapoints
      (snd (Int64Counter_Add (Some c) Background 3 []
              (snd (Int64Counter_Add (Some c) Background 5 [] w'))))
    = [ mkDataPoint
          (OnInstrument (mkInstrument KInt64Counter "RequestCount"
                           (meter_of example.w0 "myservice" [] [])))
          (Int64Number 5) ∅;
        mkDataPoint
          (OnInstrument (mkInstrument KInt64Counter "RequestCount"
                           (meter_of example.w0 "myservice" [] [])))
          (Int64Number 3) ∅ ].
Proof.
  cbv zeta.
  destruct (wrappers_usable_after_InitMetrics Background "myservice" [] "AppMetrics"
              1%nat [] example.w0
              [ mkField "RequestCount" true (WrapperPtr KInt64Counter None);
                mkField "ActiveUsers" true (WrapperPtr KInt64Gauge None) ]
              (ProviderShutdown Metering)
              (snd (InitMetrics Background "myservice" [] "AppMetrics" (Some 1%nat) []
                      example.w0))
              0%nat (mkField "RequestCount" true (WrapperPtr KInt64Counter None))
              KInt64Counter None)
    as (fields' & f' & c & Hh & Hi & Hv & Hadd & _).
  - vm_compute. reflexivity.
  - vm_compute. reflexivity.
  - reflexivity.
  - reflexivity.
  - exists fields', f', c. repeat split; try assumption.
    unfold Int64Counter_Add. rewrite !Hadd. reflexivity.
Defined.

(** X5. The nil check of a wrapper method guards the reference only: through
    a reference to a zero-valued wrapper, [Add] and [Record] panic on the
    nil instrument and [RegisterCallback] panics on the nil meter, each
    before anything is recorded, while [Observe] reports to the observer it
    is given, which it does for a wrapper of any content. *)
Theorem zero_valued_wrapper_methods
    (c : Wrapper) (observer : nat) (v : Number) (attrs : list attribute.Attr)
    (callback : nat) (w : World) :
  let zero := mkWrapper None None in
  sync_method (Some zero) v attrs w = (Panic nil_dereference, w) /\
  register_method (Some zero) callback w = (Panic nil_dereference, w) /\
  observe_method (Some c) (Some observer) v attrs w =
    (Ok tt,
     set_datapoints
       (datapoints w ++ [mkDataPoint (OnObserver observer) v (newAttributeSet attrs)]) w) /\
  observe_method (Some c) None v attrs w = (Panic nil_dereference, w).
Proof. repeat apply conj; reflexivity. Qed.

(** ** The log functions *)

Lemma walk_fields_env (m : Meter) (a : nat) (indices : list nat) :
  forall w r w', walk_fields m a indices w = (r, w') -> env w' = env w.
Proof.
  induction indices as [|i rest IH]; intros w r w'; cbn [walk_fields].
  - now intros [= _ <-].
  - destruct (heap w !! a) as [[fields|]|]; try now intros [= _ <-].
    destruct (fields !! i) as [field|]; try now intros [= _ <-].
    destruct (field_value field) as [k p|]; [|apply IH].
    destruct (newInstrument _ _); try now intros [= _ <-].
    destruct (field_exported field); try now intros [= _ <-].
    intros H. apply IH in H. exact H.
Qed.

Lemma InitMetrics_env ctx serviceName resourceAttrs T p options w r w' :
  InitMetrics ctx serviceName resourceAttrs T p options w = (r, w') -> env w' = env w.
Proof.
  unfold InitMetrics.
  assert (Hfinish : forall options',
    match initMetricFields (mkMeter serviceName options') (Some (T, p)) w with
    | (Err err0, w0) => (Err err0, w0)
    | (Panic msg, w0) => (Panic msg, w0)
    | (Ok _, w0) => (Ok (ProviderShutdown Metering), w0)
    end = (r, w') -> env w' = env w).
  { intros options'. unfold initMetricFields.
    destruct p as [a|]; [|now intros [= _ <-]].
    destruct (heap (set_metricsInstance _ w) !! a) as [[fields|]|];
      try now intros [= _ <-].
    destruct (walk_fields _ a _ _) as [[u|e|msg] w1] eqn:Hwalk;
      apply walk_fields_env in Hwalk; now intros [= _ <-]. }
  destruct (is_set _); [destruct (NewExporter _ _ _ _)|]; try apply Hfinish.
  now intros [= _ <-].
Qed.

(** What a successful [InitLogger] leaves: the four functions on one logger,
    whose handlers are the given ones, followed by the bridge to the log
    provider when the endpoint is set. *)
Lemma InitLogger_installs ctx resourceAttrs hs w shutdown w' :
  InitLogger ctx resourceAttrs hs w = (Ok shutdown, w') ->
  exists slogger,
    Debug_ w' = writeLogAt slogger slog.LevelDebug /\
    Info_ w' = writeLogAt slogger slog.LevelInfo /\
    Warn_ w' = writeLogAt slogger slog.LevelWarn /\
    Error_ w' = writeErrorLog slogger /\
    (forall r, lines_of (handlers slogger) r = lines_of hs r) /\
    (is_set (Getenv (env w) OTEL_EXPORTER_OTLP_ENDPOINT) = false ->
     handlers slogger = hs) /\
    written w' = written w /\ emitted w' = emitted w /\ env w' = env w.
Proof.
  unfold InitLogger, grpcLogHandler.
  destruct (is_set _).
  - destruct (NewExporter _ _ _ _); [discriminate|].
    intros [= _ <-]. eexists. repeat split; try discriminate.
    intros r. cbn. unfold lines_of. rewrite omap_app. cbn. now rewrite app_nil_r.
  - intros [= _ <-]. eexists. repeat split.
Qed.

Lemma call_logWithContext_written (slogger : Logger) (level : slog.Level)
    (ctx : Context) (msg : string) (attrs : list attribute.Attr) (w : World) :
  exists w',
    call_logWithContext (writeLogAt slogger level) ctx msg attrs w = (Ok tt, w') /\
    written w' =
      written w ++ lines_of (handlers slogger)
                     (slog.mkRecord level msg (log_attrs ctx attrs)) /\
    emitted w' =
      emitted w ++ bridged_of (handlers slogger)
                     (slog.mkRecord level msg (log_attrs ctx attrs)).
Proof.
  eexists. split; [reflexivity|]. unfold writeLog, log_attrs.
  destruct (IsValid (SpanContextFromContext ctx));
    rewrite ?app_nil_r; apply Logger_log_effects.
Qed.

(** X6. After a successful [InitLogger] with some handlers, [Debug], [Info]
    and [Warn] return without failing and write, through every given JSON
    handler enabled for the level and through no other, one line with the
    level of the function (DEBUG, INFO, WARN), the message, and the caller's
    attributes in their order followed by trace_id when the context carries
    a valid span context. *)
Theorem log_functions_write_records
    (ctx0 : Context) (resourceAttrs : list attribute.Attr) (hs : list Handler)
    (w0 : World) (shutdown : Teardown) (w : World)
    (ctx : Context) (msg : string) (attrs : list attribute.Attr) :
  InitLogger ctx0 resourceAttrs hs w0 = (Ok shutdown, w) ->
  (exists w', Debug ctx msg attrs w = (Ok tt, w') /\
     written w' = written w ++
       lines_of hs (slog.mkRecord slog.LevelDebug msg (log_attrs ctx attrs))) /\
  (exists w', Info ctx msg attrs w = (Ok tt, w') /\
     written w' = written w ++
       lines_of hs (slog.mkRecord slog.LevelInfo msg (log_attrs ctx attrs))) /\
  (exists w', Warn ctx msg attrs w = (Ok tt, w') /\
     written w' = written w ++
       lines_of hs (slog.mkRecord slog.LevelWarn msg (log_attrs ctx attrs))).
Proof.
  intros Hinit.
  destruct (InitLogger_installs _ _ _ _ _ _ Hinit)
    as (slogger & Hd & Hi & Hw & _ & Hlines & _).
  unfold Debug, Info, Warn. rewrite Hd, Hi, Hw.
  repeat apply conj;
    match goal with
    | |- context [call_logWithContext (writeLogAt _ ?level)] =>
        destruct (call_logWithContext_written slogger level ctx msg attrs w)
          as (w' & Hcall & Hwritten & _);
        exists w'; split; [exact Hcall|]; now rewrite Hwritten, Hlines
    end.
Qed.

Lemma log_functions_write_records_witness :
  (exists w', Debug Background "debug message" [] example.logged = (Ok tt, w') /\
     written w' = []) /\
  (exists w', Info Background "test message"
                [attribute.new "key" "value" attribute.String_] example.logged = (Ok tt, w') /\
     written w' = [(0%nat, slog.mkRecord slog.LevelInfo "test message"
                             [slog.String_ "key" "value"])]) /\
  (exists w', Warn Background "warning message" [] example.logged = (Ok tt, w') /\
     written w' = [(0%nat, slog.mkRecord slog.LevelWarn "warning message" [])]).
Proof.
  pose proof (fun msg attrs =>
    log_functions_write_records Background [] [JSONHandler 0 slog.LevelInfo []]
      example.w0 _ example.logged Background msg attrs eq_refl) as H.
  split; [|split].
  - exact (proj1 (H "debug message" [])).
  - exact (proj1 (proj2 (H "test message" [attribute.new "key" "value" attribute.String_]))).
  - exact (proj2 (proj2 (H "warning message" []))).
Defined.

Lemma NewJSONHandler_ok (wr : nat) (resourceAttrs : list attribute.Attr)
    (logLevel : string) (h : Handler) :
  NewJSONHandler wr resourceAttrs logLevel = Ok h ->
  exists level,
    slog.parse logLevel = Ok level /\
    h = JSONHandler wr level (map toSlogAttr resourceAttrs).
Proof.
  unfold NewJSONHandler, slog.UnmarshalText.
  change (map _ resourceAttrs) with (map toSlogAttr resourceAttrs).
  destruct (slog.parse logLevel) as [level|cause|msg]; try discriminate.
  intros [= <-]. eauto.
Qed.

(** X7. With the handler [NewJSONHandler] returns for a writer, resource
    attributes and a level string as the only handler of [InitLogger], a
    call of [Debug], [Info] or [Warn] writes nothing when the level of the
    function is below the level the string stands for, and otherwise writes
    to that writer exactly one line, whose attributes are the resource
    attributes, then the caller's, then trace_id if the context has one. *)
Theorem JSON_handler_logging
    (wr : nat) (resourceAttrs : list attribute.Attr) (logLevel : string)
    (h : Handler) (ctx0 : Context) (w0 : World) (shutdown : Teardown) (w : World)
    (ctx : Context) (msg : string) (attrs : list attribute.Attr) :
  NewJSONHandler wr resourceAttrs logLevel = Ok h ->
  InitLogger ctx0 resourceAttrs [h] w0 = (Ok shutdown, w) ->
  exists level,
    level_text logLevel level /\
    let line (l : slog.Level) :=
      if level <=? l
      then [(wr, slog.mkRecord l msg
                   (map toSlogAttr resourceAttrs ++ log_attrs ctx attrs))]
      else [] in
    written (snd (Debug ctx msg attrs w)) = written w ++ line slog.LevelDebug /\
    written (snd (Info ctx msg attrs w)) = written w ++ line slog.LevelInfo /\
    written (snd (Warn ctx msg attrs w)) = written w ++ line slog.LevelWarn.
Proof.
  intros Hh Hinit.
  destruct (NewJSONHandler_ok _ _ _ _ Hh) as (level & Hparse & ->).
  exists level. split; [now apply parse_level_text|]. cbv zeta.
  destruct (InitLogger_installs _ _ _ _ _ _ Hinit)
    as (slogger & Hd & Hi & Hw & _ & Hlines & _).
  unfold Debug, Info, Warn. rewrite Hd, Hi, Hw.
  repeat apply conj;
    match goal with
    | |- context [call_logWithContext (writeLogAt _ ?l)] =>
        destruct (call_logWithContext_written slogger l ctx msg attrs w)
          as (w' & Hcall & Hwritten & _);
        rewrite Hcall; cbn [snd]; rewrite Hwritten, Hlines; cbn;
        now destruct (level <=? l)
    end.
Qed.

Lemma JSON_handler_logging_witness :
  exists level,
    level_text "WARN" level /\
    written (snd (Debug Background "debug message" []
                    (snd (InitLogger Background [] [JSONHandler 0 slog.LevelWarn []]
                            example.w0))))
    = [] ++ (if level <=? slog.LevelDebug
             then [(0%nat, slog.mkRecord slog.LevelDebug "debug message" ([] ++ []))]
             else []) /\
    written (snd (Info Background "debug message" []
                    (snd (InitLogger Background [] [JSONHandler 0 slog.LevelWarn []]
                            example.w0))))
    = [] ++ (if level <=? slog.LevelInfo
             then [(0%nat, slog.mkRecord slog.LevelInfo "debug message" ([] ++ []))]
             else []) /\
    written (snd (Warn Background "debug message" []
                    (snd (InitLogger Background [] [JSONHandler 0 slog.LevelWarn []]
                            example.w0))))
    = [] ++ (if level <=? slog.LevelWarn
             then [(0%nat, slog.mkRecord slog.LevelWarn "debug message" ([] ++ []))]
             else []).
Proof.
  exact (JSON_handler_logging 0 [] "WARN" (JSONHandler 0 slog.LevelWarn [])
           Background example.w0 _
           (snd (InitLogger Background [] [JSONHandler 0 slog.LevelWarn []] example.w0))
           Background "debug message" [] eq_refl eq_refl).
Defined.

Lemma length_EncodeToString (bs : list byte) :
  String.length (hex.EncodeToString bs) = (2 * length bs)%nat.
Proof.
  induction bs as [|b bs IH]; cbn [hex.EncodeToString length]; [reflexivity|].
  change (String.length (hex.encode_byte b +:+ hex.EncodeToString bs))
    with (S (S (String.length (hex.EncodeToString bs)))).
  rewrite IH. lia.
Qed.

(** X8. Logs and propagation headers agree on the trace.  After a
    successful [InitLogger], in a context with a valid span context, the
    record that [Debug], [Info] and [Warn] hand to the handlers ends with
    the attribute trace_id, whose value is the 32 hexadecimal characters
    that [TraceHeaders] puts, for the same context, in the trace identifier
    field of the traceparent header; in a context without one, the record
    has the caller's attributes only and [TraceHeaders] returns the empty
    mapping. *)
Theorem log_trace_id_matches_traceparent
    (ctx0 : Context) (resourceAttrs : list attribute.Attr) (hs : list Handler)
    (w0 : World) (shutdown : Teardown) (w : World)
    (ctx : Context) (msg : string) (attrs : list attribute.Attr) :
  InitLogger ctx0 resourceAttrs hs w0 = (Ok shutdown, w) ->
  let logs call level correlation :=
    exists w', call ctx msg attrs w = (Ok tt, w') /\
      written w' = written w ++
        lines_of hs (slog.mkRecord level msg (map toSlogAttr attrs ++ correlation)) in
  if IsValid (SpanContextFromContext ctx) then
    exists trace_id rest,
      String.length trace_id = 32%nat /\
      TraceHeaders ctx !! "traceparent" = Some ("00-" +:+ trace_id +:+ "-" +:+ rest) /\
      logs Debug slog.LevelDebug [slog.String_ "trace_id" trace_id] /\
      logs Info slog.LevelInfo [slog.String_ "trace_id" trace_id] /\
      logs Warn slog.LevelWarn [slog.String_ "trace_id" trace_id]
  else
    TraceHeaders ctx = ∅ /\
    logs Debug slog.LevelDebug [] /\
    logs Info slog.LevelInfo [] /\
    logs Warn slog.LevelWarn []
.
Proof.
  intros Hinit logs.
  destruct (InitLogger_installs _ _ _ _ _ _ Hinit)
    as (slogger & Hd & Hi & Hw & _ & Hlines & _).
  assert (Hlogs : forall level,
    exists w', call_logWithContext (writeLogAt slogger level) ctx msg attrs w
                 = (Ok tt, w') /\
      written w' = written w ++
        lines_of hs (slog.mkRecord level msg (log_attrs ctx attrs))).
  { intros level.
    destruct (call_logWithContext_written slogger level ctx msg attrs w)
      as (w' & Hcall & Hwritten & _).
    exists w'. split; [exact Hcall|]. now rewrite Hwritten, Hlines. }
  subst logs. unfold Debug, Info, Warn. rewrite Hd, Hi, Hw.
  unfold log_attrs, TraceHeaders, propagation.Inject in *.
  destruct (IsValid (SpanContextFromContext ctx)).
  - eexists _, _. split; [|split; [|repeat apply conj; apply Hlogs]].
    + unfold TraceID_String. rewrite length_EncodeToString, length_vec_to_list.
      reflexivity.
    + destruct (String.eqb _ ""); [|rewrite lookup_insert_ne by discriminate];
        rewrite lookup_insert_eq; reflexivity.
  - split; [reflexivity|]. repeat apply conj; apply Hlogs.
Qed.

Lemma log_trace_id_matches_traceparent_witness :
  let ctx := fst (fst (NewSpan Background "test-span" [] example.traced)) in
  let w := snd (InitLogger Background [] [JSONHandler 0 slog.LevelInfo []]
                  example.spanned) in
  exists trace_id rest,
    String.length trace_id = 32%nat /\
    TraceHeaders ctx !! "traceparent" = Some ("00-" +:+ trace_id +:+ "-" +:+ rest) /\
    exists w', Info ctx "Operation started" [] w = (Ok tt, w') /\
      written w' =
        [(0%nat, slog.mkRecord slog.LevelInfo "Operation started"
                   [slog.String_ "trace_id" trace_id])].
Proof.
  intros ctx w.
  pose proof (log_trace_id_matches_traceparent Background []
                [JSONHandler 0 slog.LevelInfo []] example.spanned
                (fun w0 => (None, w0)) w ctx "Operation started" [] eq_refl) as H.
  cbv zeta in H.
  change (IsValid (SpanContextFromContext ctx)) with true in H.
  destruct H as (trace_id & rest & Hlen & Hheader & _ & Hinfo & _).
  exists trace_id, rest. split; [exact Hlen|]. split; [exact Hheader|].
  exact Hinfo.
Defined.

(** X9. Until [InitLogger] has succeeded the four log functions are the
    functions they are initialised with: at program start [Debug], [Info],
    [Warn] and [Error], the last even with a nil error, return without
    failing and leave the world as it is. *)
Theorem log_functions_before_InitLogger
    (e : Env) (h : gmap nat Object) (ctx : Context) (msg : string)
    (attrs : list attribute.Attr) (err : option error) :
  Debug ctx msg attrs (start e h) = (Ok tt, start e h) /\
  Info ctx msg attrs (start e h) = (Ok tt, start e h) /\
  Warn ctx msg attrs (start e h) = (Ok tt, start e h) /\
  Error ctx err attrs (start e h) = (Ok tt, start e h).
Proof. repeat apply conj; reflexivity. Qed.

(** X10. Once [InitLogger] has installed its closures, [Error] with a nil
    error panics, and nothing is written or emitted before it does. *)
Theorem Error_nil_panics_after_InitLogger
    (ctx0 : Context) (resourceAttrs : list attribute.Attr) (hs : list Handler)
    (w0 : World) (shutdown : Teardown) (w : World)
    (ctx : Context) (attrs : list attribute.Attr) :
  InitLogger ctx0 resourceAttrs hs w0 = (Ok shutdown, w) ->
  Error ctx None attrs w = (Panic nil_dereference, w).
Proof.
  intros Hinit.
  destruct (InitLogger_installs _ _ _ _ _ _ Hinit) as (slogger & _ & _ & _ & He & _).
  unfold Error. now rewrite He.
Qed.

Lemma Error_nil_panics_after_InitLogger_witness :
  Error Background None [] example.logged = (Panic nil_dereference, example.logged).
Proof.
  exact (Error_nil_panics_after_InitLogger Background [] [JSONHandler 0 slog.LevelInfo []]
           example.w0 _ example.logged Background [] eq_refl).
Defined.

(** ** The unified initialisers *)

Lemma InitTracing_frame ctx serviceName resourceAttrs options w r w' :
  InitTracing ctx serviceName resourceAttrs options w = (r, w') ->
  (exists err, r = Err err /\ w' = w) \/
  (exists provider,
     r = Ok (TracerProvider_Shutdown provider) /\
     tp_id provider = length (isShutdown w) /\
     w' = set_tracer (sdkTracer serviceName provider)
            (set_isShutdown (isShutdown w ++ [false]) w)).
Proof.
  unfold InitTracing.
  destruct (is_set _); [destruct (NewExporter _ _ _ _)|]; intros [= <- <-]; eauto.
Qed.

(** The walk changes the heap and nothing else. *)
Lemma walk_fields_frame (m : Meter) (a : nat) (indices : list nat) :
  forall w r w', walk_fields m a indices w = (r, w') -> w' = set_heap (heap w') w.
Proof.
  induction indices as [|i rest IH]; intros w r w'; cbn [walk_fields].
  - intros [= _ <-]. symmetry. apply set_heap_same.
  - destruct (heap w !! a) as [[fields|]|];
      try (intros [= _ <-]; symmetry; apply set_heap_same).
    destruct (fields !! i) as [field|];
      try (intros [= _ <-]; symmetry; apply set_heap_same).
    destruct (field_value field) as [k p|]; [|apply IH].
    destruct (newInstrument _ _);
      try (intros [= _ <-]; symmetry; apply set_heap_same).
    destruct (field_exported field);
      try (intros [= _ <-]; symmetry; apply set_heap_same).
    intros H. apply IH in H. rewrite H at 1. reflexivity.
Qed.

Lemma InitMetrics_frame ctx serviceName resourceAttrs T p options w r w' :
  InitMetrics ctx serviceName resourceAttrs T p options w = (r, w') ->
  w' = set_heap (heap w') (set_metricsInstance (metricsInstance w') w).
Proof.
  assert (Hsame : forall w0 : World,
            w0 = set_heap (heap w0) (set_metricsInstance (metricsInstance w0) w0))
    by (now intros []).
  unfold InitMetrics.
  assert (Hfinish : forall options',
    match initMetricFields (mkMeter serviceName options') (Some (T, p)) w with
    | (Err err0, w0) => (Err err0, w0)
    | (Panic msg, w0) => (Panic msg, w0)
    | (Ok _, w0) => (Ok (ProviderShutdown Metering), w0)
    end = (r, w') ->
    w' = set_heap (heap w') (set_metricsInstance (metricsInstance w') w)).
  { intros options'. unfold initMetricFields.
    destruct p as [a|]; [|intros [= _ <-]; apply Hsame].
    destruct (heap (set_metricsInstance _ w) !! a) as [[fields|]|];
      try (intros [= _ <-]; reflexivity).
    destruct (walk_fields _ a _ _) as [[u|e|msg] w1] eqn:Hwalk;
      apply walk_fields_frame in Hwalk; intros [= _ <-];
      (assert (Hmi : metricsInstance w1 = Some (T, Some a))
         by (rewrite Hwalk; reflexivity));
      rewrite Hmi; exact Hwalk. }
  destruct (is_set _); [destruct (NewExporter _ _ _ _)|]; try apply Hfinish.
  intros [= _ <-]. apply Hsame.
Qed.

Lemma InitMetrics_stores ctx serviceName resourceAttrs T a options w shutdown w' :
  InitMetrics ctx serviceName resourceAttrs T (Some a) options w = (Ok shutdown, w') ->
  metricsInstance w' = Some (T, Some a).
Proof.
  unfold InitMetrics.
  destruct (is_set _); [destruct (NewExporter _ _ _ _); [discriminate|]|];
    destruct (initMetricFields _ _ w) as [[u|e|msg] w1] eqn:Hinit;
    intros [= _ <-]; now apply initMetricFields_stores in Hinit.
Qed.

Lemma InitLogger_frame ctx resourceAttrs hs w shutdown w' :
  InitLogger ctx resourceAttrs hs w = (Ok shutdown, w') ->
  w' = set_log_functions (Debug_ w') (Info_ w') (Warn_ w') (Error_ w') w.
Proof.
  unfold InitLogger, grpcLogHandler.
  destruct (is_set _); [destruct (NewExporter _ _ _ _); [discriminate|]|];
    now intros [= _ <-].
Qed.

Lemma InitLogger_without_endpoint ctx resourceAttrs hs w :
  is_set (Getenv (env w) OTEL_EXPORTER_OTLP_ENDPOINT) = false ->
  InitLogger ctx resourceAttrs hs w =
  (Ok (fun w0 => (None, w0)),
   set_log_functions
     (writeLogAt (mkLogger hs) slog.LevelDebug) (writeLogAt (mkLogger hs) slog.LevelInfo)
     (writeLogAt (mkLogger hs) slog.LevelWarn) (writeErrorLog (mkLogger hs)) w).
Proof. intros H. unfold InitLogger. now rewrite H. Qed.

(** X11. With no log handler and no endpoint in the environment, a
    successful [Init] leaves logging inert: every call of [Debug], [Info],
    [Warn] and [Error] returns without failing and changes nothing. *)
Theorem Init_without_handler_and_endpoint
    (ctx : Context) (serviceName : string) (resourceAttrs : list attribute.Attr)
    (T : string) (metricsStruct : option nat) (w0 : World)
    (shutdown : Teardown) (w : World) :
  is_set (Getenv (env w0) OTEL_EXPORTER_OTLP_ENDPOINT) = false ->
  Init ctx serviceName resourceAttrs T metricsStruct None w0 = (Ok shutdown, w) ->
  forall (ctx' : Context) (msg : string) (attrs : list attribute.Attr) (e : error),
    Debug ctx' msg attrs w = (Ok tt, w) /\
    Info ctx' msg attrs w = (Ok tt, w) /\
    Warn ctx' msg attrs w = (Ok tt, w) /\
    Error ctx' (Some e) attrs w = (Ok tt, w).
Proof.
  intros Hend. unfold Init.
  destruct (InitTracing ctx serviceName resourceAttrs [] w0) as [r1 w1] eqn:H1.
  apply InitTracing_frame in H1 as [(err & -> & ->) | (provider & -> & _ & ->)];
    [discriminate|].
  destruct (InitMetrics ctx serviceName resourceAttrs T metricsStruct [] _)
    as [r2 w2] eqn:H2.
  pose proof (InitMetrics_env _ _ _ _ _ _ _ _ _ H2) as Henv. cbn in Henv.
  destruct r2 as [shutdownMetrics|err|msg]; try discriminate;
    try (destruct (TracerProvider_Shutdown provider w2); discriminate).
  rewrite InitLogger_without_endpoint by now rewrite Henv.
  intros [= _ <-] ctx' msg attrs e. repeat apply conj; reflexivity.
Qed.

Lemma Init_without_handler_and_endpoint_witness :
  let w := snd (Init Background "myservice" [] "AppMetrics" (Some 1%nat) None
                  example.w0) in
  Info Background "Operation started" [attribute.new "key" "value" attribute.String_] w
  = (Ok tt, w).
Proof.
  exact (proj1 (proj2
           (Init_without_handler_and_endpoint Background "myservice" [] "AppMetrics"
              (Some 1%nat) example.w0 _
              (snd (Init Background "myservice" [] "AppMetrics" (Some 1%nat) None
                      example.w0))
              eq_refl eq_refl Background "Operation started"
              [attribute.new "key" "value" attribute.String_] ""))).
Defined.

(** X12. After a successful [Init] with the address of a struct, the three
    pillars are live together: [Metrics[T]()] returns that address, the
    tracer is a tracer of the SDK under the service name, so that a span
    started at the root is a recording one, the log functions are the
    closures on a logger that writes through the handler given, and no
    provider was shut down. *)
Theorem Init_success_state
    (ctx : Context) (serviceName : string) (resourceAttrs : list attribute.Attr)
    (T : string) (a : nat) (logHandler : option Handler) (w0 : World)
    (shutdown : Teardown) (w : World) :
  Init ctx serviceName resourceAttrs T (Some a) logHandler w0 = (Ok shutdown, w) ->
  Metrics T w = Some a /\
  (exists provider, tracer w = sdkTracer serviceName provider) /\
  (exists slogger,
     Debug_ w = writeLogAt slogger slog.LevelDebug /\
     Info_ w = writeLogAt slogger slog.LevelInfo /\
     Warn_ w = writeLogAt slogger slog.LevelWarn /\
     Error_ w = writeErrorLog slogger /\
     forall r, lines_of (handlers slogger) r = lines_of (option_list logHandler) r) /\
  shutdowns w = shutdowns w0 /\
  forall (name : string) (attrs : list attribute.Attr),
    properly_constructed (snd (NewSpan Background name attrs w))
      (snd (fst (NewSpan Background name attrs w))) = true.
Proof.
  unfold Init.
  destruct (InitTracing ctx serviceName resourceAttrs [] w0) as [r1 w1] eqn:H1.
  apply InitTracing_frame in H1 as [(err & -> & ->) | (provider & -> & _ & ->)];
    [discriminate|].
  destruct (InitMetrics ctx serviceName resourceAttrs T (Some a) [] _)
    as [r2 w2] eqn:H2.
  destruct r2 as [shutdownMetrics|err|msg]; try discriminate;
    try (destruct (TracerProvider_Shutdown provider w2); discriminate).
  pose proof (InitMetrics_stores _ _ _ _ _ _ _ _ _ H2) as Hstored.
  pose proof (InitMetrics_frame _ _ _ _ _ _ _ _ _ H2) as Hframe2.
  assert (Hlog : match logHandler with
                 | Some h => InitLogger ctx resourceAttrs [h] w2
                 | None => InitLogger ctx resourceAttrs [] w2
                 end = InitLogger ctx resourceAttrs (option_list logHandler) w2)
    by now destruct logHandler.
  rewrite Hlog. clear Hlog.
  destruct (InitLogger ctx resourceAttrs (option_list logHandler) w2)
    as [r3 w3] eqn:H3.
  destruct r3 as [shutdownLogger|err|msg];
    try discriminate;
    try (destruct (shutdownMetrics w3) as [errMetrics wm];
         destruct (TracerProvider_Shutdown provider wm); discriminate).
  pose proof (InitLogger_frame _ _ _ _ _ _ H3) as Hframe3.
  destruct (InitLogger_installs _ _ _ _ _ _ H3)
    as (slogger & Hd & Hi & Hw & He & Hlines & _).
  intros [= _ <-].
  assert (Htracer : tracer w3 = sdkTracer serviceName provider).
  { rewrite Hframe3. cbn. rewrite Hframe2. reflexivity. }
  assert (Hinstance : metricsInstance w3 = Some (T, Some a)).
  { rewrite Hframe3. cbn. exact Hstored. }
  split; [now apply Metrics_of_instance|].
  split; [eauto|].
  split; [exists slogger; repeat split; assumption|].
  split.
  - rewrite Hframe3. cbn. rewrite Hframe2. reflexivity.
  - intros name attrs.
    apply (NewSpan_properly_constructed w3 Background name attrs _ _ Htracer).
    reflexivity.
Qed.

Lemma Init_success_state_witness :
  let w := snd (Init Background "myservice" [] "AppMetrics" (Some 1%nat)
                  (Some (JSONHandler 0 slog.LevelInfo [])) example.w0) in
  Metrics "AppMetrics" w = Some 1%nat /\
  properly_constructed (snd (NewSpan Background "operation" [] w))
    (snd (fst (NewSpan Background "operation" [] w))) = true.
Proof.
  cbv zeta.
  pose proof (Init_success_state Background "myservice" [] "AppMetrics" 1%nat
                (Some (JSONHandler 0 slog.LevelInfo [])) example.w0 _
                (snd (Init Background "myservice" [] "AppMetrics" (Some 1%nat)
                        (Some (JSONHandler 0 slog.LevelInfo [])) example.w0))
                eq_refl) as (Hm & _ & _ & _ & Hspan).
  split; [exact Hm | exact (Hspan "operation" [])].
Defined.

(** X13. In the [Init] that takes options, a log level that the level parser
    refuses fails the initialisation after tracing and metrics have
    succeeded: [Init] returns an error, having shut down the meter provider
    and then the tracer provider, and writes nothing. *)
Theorem Init_options_invalid_level
    (ctx : Context) (serviceName : string) (resourceAttrs : list attribute.Attr)
    (T : string) (metricsStruct : option nat) (opts : list otel_options.Option_)
    (w0 : World) (shutdownTracing shutdownMetrics : Teardown) (w1 w2 : World) :
  InitTracing ctx serviceName resourceAttrs [] w0 = (Ok shutdownTracing, w1) ->
  InitMetrics ctx serviceName resourceAttrs T metricsStruct [] w1
    = (Ok shutdownMetrics, w2) ->
  (forall level,
     ~ level_text
         (otel_options.logLevel
            (otel_options.apply_options opts
               (otel_options.mkOptions otel_options.Stdout "INFO"))) level) ->
  exists err w3,
    otel_options.Init ctx serviceName resourceAttrs T metricsStruct opts w0
    = (Err err, w3) /\
    shutdowns w3 = shutdowns w0 ++ [Metering; Tracing] /\
    written w3 = written w0.
Proof.
  intros H1 H2 Hlevel. unfold otel_options.Init. rewrite H1, H2.
  destruct (NewJSONHandler _ resourceAttrs _) as [h|err|msg] eqn:Hh.
  - apply NewJSONHandler_ok in Hh as (level & Hparse & _).
    apply parse_level_text in Hparse. now apply Hlevel in Hparse.
  - pose proof (InitTracing_frame _ _ _ _ _ _ _ H1)
      as [(e & [=] & _) | (provider & Hr1 & _ & ->)].
    injection Hr1 as ->.
    pose proof (InitMetrics_result _ _ _ _ _ _ _ _ _ H2) as [Hs2 Hsd2].
    rewrite (Hsd2 _ eq_refl).
    pose proof (InitMetrics_frame _ _ _ _ _ _ _ _ _ H2) as Hframe2.
    cbn.
    match goal with
    | |- context [TracerProvider_Shutdown provider ?wm] =>
        pose proof (TracerProvider_Shutdown_shutdowns provider wm) as Hst;
        assert (Hwr : written (snd (TracerProvider_Shutdown provider wm)) = written wm)
          by (unfold TracerProvider_Shutdown;
              destruct (isShutdown wm !! tp_id provider) as [[|]|]; reflexivity);
        destruct (TracerProvider_Shutdown provider wm) as [errTracing wt]
    end.
    cbn in Hst, Hwr.
    eexists _, _. split; [reflexivity|]. split.
    + rewrite Hst. cbn. rewrite Hs2. cbn. now rewrite <- app_assoc.
    + rewrite Hwr. cbn. rewrite Hframe2. reflexivity.
  - unfold NewJSONHandler, slog.UnmarshalText in Hh.
    destruct (slog.parse _) eqn:Hparse; try discriminate.
    now apply parse_no_panic in Hparse.
Qed.

Lemma Init_options_invalid_level_witness :
  exists err w3,
    otel_options.Init Background "myservice" [] "AppMetrics" (Some 1%nat)
      [otel_options.WithLogLevel "TRACE"] example.w0 = (Err err, w3) /\
    shutdowns w3 = shutdowns example.w0 ++ [Metering; Tracing] /\
    written w3 = written example.w0.
Proof.
  refine (Init_options_invalid_level Background "myservice" [] "AppMetrics"
            (Some 1%nat) [otel_options.WithLogLevel "TRACE"] example.w0 _ _ _ _
            eq_refl eq_refl _).
  intros level Htext. apply parse_level_text in Htext. vm_compute in Htext.
  discriminate Htext.
Defined.

Lemma apply_options_app (opts1 opts2 : list otel_options.Option_)
    (o : otel_options.options) :
  otel_options.apply_options (opts1 ++ opts2) o =
  otel_options.apply_options opts2 (otel_options.apply_options opts1 o).
Proof. unfold otel_options.apply_options. apply foldl_app. Qed.

(** X14. The options of [Init] are applied in the order given, the later one
    of a kind standing: after any options, [WithLogLevel] sets the level and
    keeps the writer, [WithLogWriter] sets the writer and keeps the level;
    without options the writer is the standard output and the level INFO.
    A successful [Init] then logs through a JSON handler on that writer at
    that level: [Info] writes one line, with the resource attributes first,
    exactly when the level is at most INFO. *)
Theorem Init_options_logging
    (ctx : Context) (serviceName : string) (resourceAttrs : list attribute.Attr)
    (T : string) (metricsStruct : option nat) (opts : list otel_options.Option_)
    (w0 : World) (shutdown : Teardown) (w : World) :
  let default := otel_options.mkOptions otel_options.Stdout "INFO" in
  let o := otel_options.apply_options opts default in
  (otel_options.apply_options [] default = default /\
   forall (l : string) (wr : nat),
     otel_options.apply_options (opts ++ [otel_options.WithLogLevel l]) default
     = otel_options.mkOptions (otel_options.logWriter o) l /\
     otel_options.apply_options (opts ++ [otel_options.WithLogWriter wr]) default
     = otel_options.mkOptions wr (otel_options.logLevel o)) /\
  (otel_options.Init ctx serviceName resourceAttrs T metricsStruct opts w0
   = (Ok shutdown, w) ->
   exists level,
     level_text (otel_options.logLevel o) level /\
     forall (ctx' : Context) (msg : string) (attrs : list attribute.Attr),
       written (snd (Info ctx' msg attrs w)) =
       written w ++
       (if level <=? slog.LevelInfo
        then [(otel_options.logWriter o,
               slog.mkRecord slog.LevelInfo msg
                 (map toSlogAttr resourceAttrs ++ log_attrs ctx' attrs))]
        else [])).
Proof.
  cbv zeta. split.
  - split; [reflexivity|]. intros l wr. rewrite !apply_options_app. split; reflexivity.
  - unfold otel_options.Init.
    destruct (InitTracing ctx serviceName resourceAttrs [] w0) as [[sdT|e|m] w1];
      try discriminate.
    destruct (InitMetrics ctx serviceName resourceAttrs T metricsStruct [] w1)
      as [[sdM|e|m] w2]; try (destruct (sdT w2); discriminate).
    destruct (NewJSONHandler _ resourceAttrs _) as [h|err|msg] eqn:Hh;
      try (destruct (sdM w2) as [? w']; destruct (sdT w'); discriminate).
    destruct (NewJSONHandler_ok _ _ _ _ Hh) as (level & Hparse & ->).
    destruct (InitLogger ctx resourceAttrs [_] w2) as [[sdL|e|m] w3] eqn:H3;
      try (destruct (sdM w3) as [? w']; destruct (sdT w'); discriminate).
    intros [= _ <-]. exists level. split; [now apply parse_level_text|].
    intros ctx' msg attrs.
    destruct (InitLogger_installs _ _ _ _ _ _ H3)
      as (slogger & _ & Hi & _ & _ & Hlines & _).
    unfold Info. rewrite Hi.
    destruct (call_logWithContext_written slogger slog.LevelInfo ctx' msg attrs w3)
      as (w' & Hcall & Hwritten & _).
    rewrite Hcall. cbn [snd]. rewrite Hwritten, Hlines. cbn.
    now destruct (level <=? slog.LevelInfo).
Qed.

Lemma Init_options_logging_witness :
  let w := snd (otel_options.Init Background "myservice" [] "AppMetrics" (Some 1%nat)
                  [] example.w0) in
  exists level,
    level_text "INFO" level /\
    forall (ctx' : Context) (msg : string) (attrs : list attribute.Attr),
      written (snd (Info ctx' msg attrs w)) =
      written w ++
      (if level <=? slog.LevelInfo
       then [(otel_options.Stdout,
              slog.mkRecord slog.LevelInfo msg (map toSlogAttr [] ++ log_attrs ctx' attrs))]
       else []).
Proof.
  cbv zeta.
  exact (proj2 (Init_options_logging Background "myservice" [] "AppMetrics"
                  (Some 1%nat) [] example.w0 _
                  (snd (otel_options.Init Background "myservice" [] "AppMetrics"
                          (Some 1%nat) [] example.w0)))
           eq_refl).
Defined.

(** ** Spans *)

Lemma land_lor_sampled (flags : Z) : Z.land (Z.lor flags FlagsSampled) FlagsSampled = 1.
Proof.
  unfold FlagsSampled. rewrite Z.land_lor_distr_l.
  change 1 with (Z.ones 1) at 1. rewrite Z.land_ones by lia.
  change (Z.land 1 1) with 1. change (2 ^ 1) with 2.
  pose proof (Z.mod_pos_bound flags 2 ltac:(lia)) as Hb.
  assert (Hcases : flags mod 2 = 0 \/ flags mod 2 = 1) by lia.
  destruct Hcases as [-> | ->]; reflexivity.
Qed.

(** What [NewSpan] does under a tracer of the SDK when the span is sampled:
    it adds one recording span to the world, and draws identifiers. *)
Lemma NewSpan_recording w ctx name attrs tname provider :
  tracer w = sdkTracer tname provider ->
  (if IsValid (SpanContextFromContext ctx)
   then IsSampled (SpanContextFromContext ctx) else true) = true ->
  exists sc,
    let d := mkSpanData name sc (SpanContextFromContext ctx)
               (sdktrace.merge_attributes [] (otelAttrs_of attrs)) []
               (mkStatus StatusUnset "") false provider in
    let ts := recordingSpan (next_span w) sc in
    NewSpan ctx name attrs w =
    ((ContextWithSpan ctx ts, mkSpan (Some ts)),
     set_next_span (S (next_span w))
       (set_spans (<[next_span w := d]> (spans w)) (set_draws (S (draws w)) w))) /\
    IsSampled sc = true /\
    sc_traceID sc =
      (if is_zero (sc_traceID (SpanContextFromContext ctx))
       then fst (NewIDs (env w) (draws w))
       else sc_traceID (SpanContextFromContext ctx)).
Proof.
  intros Ht Hs. unfold NewSpan, newSpan, sdktrace.Start. rewrite Ht, Hs.
  exists (mkSpanContext
            (if is_zero (sc_traceID (SpanContextFromContext ctx))
             then fst (NewIDs (env w) (draws w))
             else sc_traceID (SpanContextFromContext ctx))
            (snd (NewIDs (env w) (draws w)))
            (Z.lor (sc_traceFlags (SpanContextFromContext ctx)) FlagsSampled)
            (sc_traceState (SpanContextFromContext ctx)) false).
  cbv zeta. split; [reflexivity|]. split; [|reflexivity].
  unfold IsSampled. cbn [sc_traceFlags]. now rewrite land_lor_sampled.
Qed.

(** X15. Under a tracer of the SDK, a span started in the context that
    [NewSpan] returned with a recording span of valid span context is a
    recording span too, its parent is the span context of that outer span,
    and it is in the same trace. *)
Theorem nested_span_parent
    (w : World) (tname : string) (provider : TracerProvider)
    (ctx : Context) (name : string) (attrs : list attribute.Attr)
    (ctx1 : Context) (s1 : Span) (w1 : World) (h1 : nat) (sc1 : SpanContext)
    (name2 : string) (attrs2 : list attribute.Attr) :
  tracer w = sdkTracer tname provider ->
  NewSpan ctx name attrs w = ((ctx1, s1), w1) ->
  traceSpan s1 = Some (recordingSpan h1 sc1) ->
  IsValid sc1 = true ->
  exists ctx2 h2 sc2 w2,
    NewSpan ctx1 name2 attrs2 w1 = ((ctx2, mkSpan (Some (recordingSpan h2 sc2))), w2) /\
    parent_of w2 (mkSpan (Some (recordingSpan h2 sc2))) = Some sc1 /\
    sc_traceID sc2 = sc_traceID sc1 /\
    h2 <> h1.
Proof.
  intros Ht Hnew Hs1 Hvalid.
  assert (Hshape : ctx_span ctx1 = Some (recordingSpan h1 sc1) /\
                   tracer w1 = tracer w /\ IsSampled sc1 = true /\
                   next_span w1 = S h1).
  { unfold NewSpan, newSpan, sdktrace.Start in Hnew. rewrite Ht in Hnew.
    revert Hnew.
    destruct (if IsValid _ then _ else true); intros [= <- <- <-];
      cbn in Hs1; [|discriminate].
    injection Hs1 as <- <-.
    split; [reflexivity|]. split; [reflexivity|]. split; [|reflexivity].
    unfold IsSampled. cbn [sc_traceFlags]. now rewrite land_lor_sampled. }
  destruct Hshape as (Hctx & Htr & Hsampled & Hnext).
  assert (Hpsc : SpanContextFromContext ctx1 = sc1).
  { unfold SpanContextFromContext. now rewrite Hctx. }
  rewrite <- Htr in Ht.
  destruct (NewSpan_recording w1 ctx1 name2 attrs2 tname provider Ht)
    as (sc2 & Heq & _ & Htid).
  { now rewrite Hpsc, Hvalid. }
  cbv zeta in Heq. rewrite Hpsc in Heq, Htid.
  eexists _, _, sc2, _. split; [exact Heq|]. split; [|split].
  - unfold parent_of. cbn. now rewrite lookup_insert_eq.
  - rewrite Htid. unfold IsValid in Hvalid.
    apply andb_prop in Hvalid as [Hz _]. apply negb_true_iff in Hz. now rewrite Hz.
  - rewrite Hnext. lia.
Qed.

Lemma nested_span_parent_witness :
  exists ctx2 h2 sc2 w2,
    NewSpan (fst (fst (NewSpan Background "test-span" [] example.traced))) "child" []
      example.spanned
    = ((ctx2, mkSpan (Some (recordingSpan h2 sc2))), w2) /\
    parent_of w2 (mkSpan (Some (recordingSpan h2 sc2)))
    = Some (mkSpanContext (vreplicate 16 x01) (vreplicate 8 x01) 1 "" false) /\
    sc_traceID sc2 = vreplicate 16 x01 /\
    h2 <> 0%nat.
Proof.
  exact (nested_span_parent example.traced _ _ Background "test-span" [] _ _
           example.spanned 0%nat
           (mkSpanContext (vreplicate 16 x01) (vreplicate 8 x01) 1 "" false)
           "child" [] eq_refl eq_refl eq_refl eq_refl).
Defined.

Lemma ended_span_ignores (h : nat) (sc : SpanContext) (f : SpanData -> SpanData)
    (w : World) (d : SpanData) :
  spans w !! h = Some d -> sd_ended d = true ->
  sdktrace.update (recordingSpan h sc) f w = w.
Proof. intros Hd He. unfold sdktrace.update. now rewrite Hd, He. Qed.

(** X16. Under a tracer of the SDK whose provider has not been shut down, a
    span that [NewSpan] starts at the root or under a sampled parent is
    exported when it ends and not before: [End] hands the ended span, with
    the name and the parent given, to the exporter of every processor of
    the provider that exports synchronously, in the order of the provider's
    options.  After that every operation on the handle, a second [End]
    among them, returns and changes nothing.  When the provider is shut
    down before the span ends, [End] exports nothing. *)
Theorem span_exported_on_End
    (w : World) (tname : string) (provider : TracerProvider)
    (ctx : Context) (name : string) (attrs : list attribute.Attr) :
  tracer w = sdkTracer tname provider ->
  isShutdown w !! tp_id provider = Some false ->
  (if IsValid (SpanContextFromContext ctx)
   then IsSampled (SpanContextFromContext ctx) else true) = true ->
  exists ctx1 s w1 d w2,
    NewSpan ctx name attrs w = ((ctx1, s), w1) /\
    exported w1 = exported w /\
    End_ s w1 = (Ok tt, w2) /\
    exported w2 =
      exported w ++
      omap (fun o => e ← syncer_of o; Some (e, d)) (tp_options provider) /\
    sd_name d = name /\
    sd_parent d = SpanContextFromContext ctx /\
    SpanContext_of <$> traceSpan s = Some (sd_context d) /\
    sd_ended d = true /\
    (forall (event : string) (eattrs sattrs : list attribute.Attr)
            (code : StatusCode) (description : string) (err : option error),
       AddEvent s event eattrs w2 = (Ok tt, w2) /\
       SetStatus s code description w2 = (Ok tt, w2) /\
       SetAttributes s sattrs w2 = (Ok tt, w2) /\
       RecordError s err w2 = (Ok tt, w2) /\
       End_ s w2 = (Ok tt, w2)) /\
    exported (snd (End_ s (snd (TracerProvider_Shutdown provider w1)))) = exported w.
Proof.
  intros Ht Hlive Hs. unfold NewSpan, newSpan, sdktrace.Start. rewrite Ht, Hs.
  cbv zeta.
  eexists _, _, _, _, _. split; [reflexivity|]. split; [reflexivity|].
  unfold End_, on_traceSpan. cbn [traceSpan sdktrace.End_].
  cbn [spans set_next_span set_spans set_draws]. rewrite lookup_insert_eq.
  cbn [sd_ended sd_provider]. cbv zeta.
  unfold sdktrace.getSpanProcessors at 1. cbn [isShutdown set_next_span set_spans set_draws].
  rewrite Hlive.
  split; [reflexivity|]. split; [reflexivity|].
  do 4 (split; [reflexivity|]).
  split.
  - intros event eattrs sattrs code description err.
    match goal with |- context [set_exported ?e (set_spans (<[?h := ?d]> ?m) ?w0)] =>
      assert (Hd : spans (set_exported e (set_spans (<[h := d]> m) w0)) !! h = Some d)
        by (cbn; now rewrite lookup_insert_eq)
    end.
    unfold AddEvent, SetStatus, SetAttributes, RecordError, on_traceSpan.
    cbn [traceSpan].
    unfold sdktrace.AddEvent, sdktrace.SetStatus, sdktrace.SetAttributes,
      sdktrace.RecordError, sdktrace.AddEvent.
    rewrite !(ended_span_ignores _ _ _ _ _ Hd eq_refl).
    unfold sdktrace.End_. rewrite Hd. cbn [sd_ended sdktrace.with_ended].
    repeat apply conj; try reflexivity.
    destruct err; [|reflexivity].
    now rewrite (ended_span_ignores _ _ _ _ _ Hd eq_refl).
  - unfold TracerProvider_Shutdown.
    cbn [isShutdown set_next_span set_spans set_draws]. rewrite Hlive.
    cbn [snd spans set_isShutdown set_shutdowns set_next_span set_spans set_draws].
    rewrite lookup_insert_eq. cbn [sd_ended sd_provider]. cbv zeta.
    unfold sdktrace.getSpanProcessors.
    cbn [isShutdown set_isShutdown set_shutdowns set_next_span set_spans set_draws].
    rewrite list_lookup_insert_eq by (eapply lookup_lt_Some; exact Hlive).
    cbn. now rewrite app_nil_r.
Qed.

Lemma span_exported_on_End_witness :
  exists ctx1 s w1 d w2,
    NewSpan Background "test-span" [] example.traced = ((ctx1, s), w1) /\
    exported w1 = [] /\
    End_ s w1 = (Ok tt, w2) /\
    exported w2 = [(InMemoryExporter 0, d)] /\
    sd_name d = "test-span" /\
    sd_parent d = emptySpanContext /\
    SpanContext_of <$> traceSpan s = Some (sd_context d) /\
    sd_ended d = true /\
    (forall (event : string) (eattrs sattrs : list attribute.Attr)
            (code : StatusCode) (description : string) (err : option error),
       AddEvent s event eattrs w2 = (Ok tt, w2) /\
       SetStatus s code description w2 = (Ok tt, w2) /\
       SetAttributes s sattrs w2 = (Ok tt, w2) /\
       RecordError s err w2 = (Ok tt, w2) /\
       End_ s w2 = (Ok tt, w2)) /\
    exported
      (snd (End_ s
              (snd (TracerProvider_Shutdown
                      (mkTracerProvider 0
                         [WithSyncer (InMemoryExporter 0);
                          WithResource
                            (attribute.ToKeyValues
                               (attribute.ResourceAttributes
                                  "test-service" "1.0.0" "test" "testhost"))])
                      w1)))) = [].
Proof.
  exact (span_exported_on_End example.traced "test-service" _ Background
           "test-span" [] eq_refl eq_refl eq_refl).
Defined.

(** X17. On a properly constructed span, [RecordErrorAndSetStatus] with an
    error returns, having recorded the error as [RecordError] does, which
    leaves an event named exception as the last event of the span and the
    status as it was; it then sets the status to Error with the text of the
    error as description, unless the status of the span was Ok already,
    which stands.  The span is not ended and nothing is exported. *)
Theorem RecordErrorAndSetStatus_effect (w : World) (s : Span) (e : error) :
  properly_constructed w s = true ->
  exists w1 w' earlier event status,
    status_of w s = Some status /\
    RecordError s (Some e) w = (Ok tt, w1) /\
    events_of w1 s = Some (earlier ++ [event]) /\
    ev_name event = "exception" /\
    status_of w1 s = Some status /\
    RecordErrorAndSetStatus s (Some e) w = (Ok tt, w') /\
    events_of w' s = events_of w1 s /\
    status_of w' s =
      Some (if Code status =? StatusOk then status else mkStatus StatusError e) /\
    properly_constructed w' s = true /\
    exported w' = exported w.
Proof.
  unfold properly_constructed, events_of, status_of, RecordErrorAndSetStatus,
    RecordError, on_traceSpan.
  destruct s as [[[h sc| |]|]]; cbn [traceSpan]; try discriminate.
  destruct (spans w !! h) as [d|] eqn:Hd; [|discriminate].
  intros Hp. apply andb_prop in Hp as [Hp Hle]. apply andb_prop in Hp as [He Hge].
  apply negb_true_iff in He.
  unfold sdktrace.RecordError, sdktrace.AddEvent.
  rewrite (update_recording _ _ _ _ _ Hd He).
  set (d1 := sdktrace.with_events _ d).
  set (w1 := set_spans _ w).
  assert (Hd1 : spans w1 !! h = Some d1) by (cbn; now rewrite lookup_insert_eq).
  unfold sdktrace.SetStatus.
  rewrite (update_recording _ _ _ _ _ Hd1 He).
  eexists _, _, _, _, _. split; [reflexivity|]. split; [reflexivity|].
  rewrite Hd1. subst w1 d1.
  cbn [fmap option_fmap option_map sd_status sd_events sdktrace.with_events].
  split; [reflexivity|]. split; [reflexivity|]. split; [reflexivity|].
  split; [reflexivity|].
  cbn [spans set_spans]. rewrite !lookup_insert_eq.
  cbn [fmap option_fmap option_map sd_status sd_events sdktrace.with_events].
  unfold StatusOk, StatusError in *.
  destruct (Code (sd_status d) >? 1) eqn:Hgt;
    destruct (Code (sd_status d) =? 2) eqn:Heq;
    cbn; rewrite ?He, ?Hge, ?Hle; repeat split; try reflexivity; lia.
Qed.

Lemma RecordErrorAndSetStatus_effect_witness :
  exists w1 w' earlier event status,
    status_of example.spanned example.test_span = Some status /\
    RecordError example.test_span (Some "test error") example.spanned = (Ok tt, w1) /\
    events_of w1 example.test_span = Some (earlier ++ [event]) /\
    ev_name event = "exception" /\
    status_of w1 example.test_span = Some status /\
    RecordErrorAndSetStatus example.test_span (Some "test error") example.spanned
      = (Ok tt, w') /\
    events_of w' example.test_span = events_of w1 example.test_span /\
    status_of w' example.test_span =
      Some (if Code status =? StatusOk then status
            else mkStatus StatusError "test error") /\
    properly_constructed w' example.test_span = true /\
    exported w' = exported example.spanned.
Proof.
  exact (RecordErrorAndSetStatus_effect example.spanned example.test_span
           "test error" eq_refl).
Defined.

(** X18. [RecordErrorAndSetStatus] with a nil error panics on every span
    handle, on the call of the error's method, and changes nothing, whereas
    [RecordError] with a nil error on a handle that wraps a span returns and
    changes nothing. *)
Theorem RecordErrorAndSetStatus_nil_error (s : Span) (ts : TraceSpan) (w : World) :
  RecordErrorAndSetStatus s None w = (Panic nil_dereference, w) /\
  RecordError (mkSpan (Some ts)) None w = (Ok tt, w).
Proof.
  split; [|reflexivity].
  unfold RecordErrorAndSetStatus, RecordError, on_traceSpan.
  destruct (traceSpan s); reflexivity.
Qed.

(** X19. A carrier without the traceparent header gives no parent:
    [NewChildSpan] on it is [NewSpan] in the same context.  The headers
    [TraceHeaders] returns for a context without a valid span context are
    such a carrier. *)
Theorem NewChildSpan_without_traceparent
    (ctx : Context) (carrier : gmap string string) (name : string)
    (attrs : list attribute.Attr) (w : World) (ctx0 : Context) :
  carrier !! propagation.traceparentHeader = None ->
  IsValid (SpanContextFromContext ctx0) = false ->
  NewChildSpan ctx carrier name attrs w = NewSpan ctx name attrs w /\
  NewChildSpan ctx (TraceHeaders ctx0) name attrs w = NewSpan ctx name attrs w.
Proof.
  intros Hc Hv.
  assert (H : forall c : gmap string string,
             c !! propagation.traceparentHeader = None ->
             propagation.Extract ctx c = ctx).
  { intros c Hn. unfold propagation.Extract, propagation.extract, propagation.Get.
    rewrite Hn. reflexivity. }
  unfold NewChildSpan, NewSpan. split.
  - now rewrite (H _ Hc).
  - unfold TraceHeaders, propagation.Inject. rewrite Hv.
    now rewrite (H ∅ (lookup_empty _)).
Qed.

Lemma NewChildSpan_without_traceparent_witness :
  NewChildSpan Background {[ "x-request-id" := "42" ]} "child" [] example.traced
    = NewSpan Background "child" [] example.traced /\
  NewChildSpan Background (TraceHeaders Background) "child" [] example.traced
    = NewSpan Background "child" [] example.traced.
Proof.
  exact (NewChildSpan_without_traceparent Background {[ "x-request-id" := "42" ]}
           "child" [] example.traced Background eq_refl eq_refl).
Defined.

(** X20. The attribute a log record carries for an attribute that
    [attribute.New] returned has the key given and the value the input
    reads back as: a value of a supported kind as itself (an int as the
    int64 of the same number), any other value as its string formatting. *)
Theorem toSlogAttr_New (key : string) (value : GoValue) (attr : attribute.Attr) :
  attribute.New key value = Ok attr ->
  toSlogAttr attr = slog.Any key (attribute.reads_back value).
Proof.
  destruct value as [| | | | | |l| | | | |T [[s|msg]|] f]; intros [= <-];
    unfold toSlogAttr, attribute.new, attribute.IntSlice;
    cbn; rewrite ?map_int64_of_int; reflexivity.
Qed.

Lemma toSlogAttr_New_witness :
  toSlogAttr (attribute.new "count" 42 attribute.Int)
  = slog.Any "count" (VInt64 42).
Proof. exact (toSlogAttr_New "count" (VInt 42) _ eq_refl). Defined.

(** The bridge of a successful [InitLogger]: the records the logger emits
    are those of the bridges among the given handlers, followed by that of
    the bridge to the log provider when the endpoint is set; the teardown
    shuts that provider down, and does nothing when there is none. *)
Lemma InitLogger_bridged ctx resourceAttrs hs w shutdown w' :
  InitLogger ctx resourceAttrs hs w = (Ok shutdown, w') ->
  exists slogger,
    Debug_ w' = writeLogAt slogger slog.LevelDebug /\
    Info_ w' = writeLogAt slogger slog.LevelInfo /\
    Warn_ w' = writeLogAt slogger slog.LevelWarn /\
    (forall r,
       bridged_of (handlers slogger) r =
       bridged_of hs r ++
       if is_set (Getenv (env w) OTEL_EXPORTER_OTLP_ENDPOINT)
       then [(mkLoggerProvider
                (String.eqb (Getenv (env w) OTEL_EXPORTER_OTLP_PROTOCOL) "http")
                (String.eqb (Getenv (env w) OTEL_EXPORTER_OTLP_INSECURE) "true")
                (attribute.ToKeyValues resourceAttrs), r)]
       else []) /\
    emitted w' = emitted w /\
    (forall w1, shutdown w1 =
       if is_set (Getenv (env w) OTEL_EXPORTER_OTLP_ENDPOINT)
       then ProviderShutdown Logging w1 else (None, w1)).
Proof.
  unfold InitLogger, grpcLogHandler.
  destruct (is_set _).
  - destruct (NewExporter _ _ _ _); [discriminate|].
    intros [= <- <-]. eexists. repeat split.
    intros r. cbn. unfold bridged_of. now rewrite omap_app.
  - intros [= <- <-]. eexists. repeat split.
    intros r. cbn. now rewrite app_nil_r.
Qed.

(** X21. When the endpoint variable is set, a successful [InitLogger] adds
    the bridge to a log provider built from the resource attributes and the
    protocol and security variables: [Debug], [Info] and [Warn] then emit
    to that provider one record each, of the level of the function, whatever
    the levels of the other handlers, and the teardown returned shuts that
    provider down.  When it is not set, nothing is emitted but through the
    bridges the caller gave, and the teardown returns nil and does
    nothing. *)
Theorem InitLogger_bridge
    (ctx0 : Context) (resourceAttrs : list attribute.Attr) (hs : list Handler)
    (w0 : World) (shutdown : Teardown) (w : World)
    (ctx : Context) (msg : string) (attrs : list attribute.Attr) :
  InitLogger ctx0 resourceAttrs hs w0 = (Ok shutdown, w) ->
  let endpoint := is_set (Getenv (env w0) OTEL_EXPORTER_OTLP_ENDPOINT) in
  let provider :=
    mkLoggerProvider
      (String.eqb (Getenv (env w0) OTEL_EXPORTER_OTLP_PROTOCOL) "http")
      (String.eqb (Getenv (env w0) OTEL_EXPORTER_OTLP_INSECURE) "true")
      (attribute.ToKeyValues resourceAttrs) in
  let emits call level :=
    exists w', call ctx msg attrs w = (Ok tt, w') /\
      emitted w' =
        emitted w0
        ++ bridged_of hs (slog.mkRecord level msg (log_attrs ctx attrs))
        ++ if endpoint
           then [(provider, slog.mkRecord level msg (log_attrs ctx attrs))]
           else [] in
  emits Debug slog.LevelDebug /\
  emits Info slog.LevelInfo /\
  emits Warn slog.LevelWarn /\
  forall w1, shutdown w1 = if endpoint then ProviderShutdown Logging w1 else (None, w1).
Proof.
  intros Hinit endpoint provider emits.
  destruct (InitLogger_bridged _ _ _ _ _ _ Hinit)
    as (slogger & Hd & Hi & Hw & Hbridged & Hemitted & Hshutdown).
  subst emits. unfold Debug, Info, Warn. rewrite Hd, Hi, Hw.
  repeat apply conj; try exact Hshutdown;
    match goal with
    | |- context [call_logWithContext (writeLogAt _ ?level)] =>
        destruct (call_logWithContext_written slogger level ctx msg attrs w)
          as (w' & Hcall & _ & Hem);
        exists w'; split; [exact Hcall|]; now rewrite Hem, Hbridged, Hemitted
    end.
Qed.

Lemma InitLogger_bridge_witness :
  let provider := mkLoggerProvider false true [] in
  let w := snd (InitLogger Background [] [JSONHandler 0 slog.LevelInfo []]
                  example.exporting) in
  (exists w', Debug Background "debug message" [] w = (Ok tt, w') /\
     emitted w' = [(provider, slog.mkRecord slog.LevelDebug "debug message" [])]) /\
  (exists w', Info Background "info message" [] w = (Ok tt, w') /\
     emitted w' = [(provider, slog.mkRecord slog.LevelInfo "info message" [])]) /\
  (exists w', Warn Background "warning message" [] w = (Ok tt, w') /\
     emitted w' = [(provider, slog.mkRecord slog.LevelWarn "warning message" [])]).
Proof.
  pose proof (fun msg =>
    InitLogger_bridge Background [] [JSONHandler 0 slog.LevelInfo []]
      example.exporting (ProviderShutdown Logging) _ Background msg [] eq_refl) as H.
  split; [|split].
  - exact (proj1 (H "debug message")).
  - exact (proj1 (proj2 (H "info message"))).
  - exact (proj1 (proj2 (proj2 (H "warning message")))).
Defined.
